(** * simple-blog-engine: template engine, content pipeline and build driver

    A shallow embedding of the JavaScript sources of the static blog
    generator (lib/templateEngine.js, lib/siteBuilder.js,
    lib/markdownProcessor.js, lib/configManager.js) together with the
    properties of the design document that were checked against them.

    Conventions of the embedding:
    - a JavaScript string is a [string]: a sequence of 8-bit code units
      (the Latin-1 range of UTF-16);
    - a JavaScript number is an integer [Z] (the engine only counts, indexes
      and compares; fractions and NaN are outside the model), printed digit
      by digit: [JS.printable] delimits the values whose conversion to a
      string is the one of the language;
    - an object is an association list of own properties in insertion order,
      read by first match; arrays, objects and functions carry the reference
      that [===] and [Array.prototype.indexOf] compare;
    - a property read, [JS.getProp], finds own properties, [length] and
      indices; what the language finds on a prototype ([toString],
      [constructor], the methods of strings, arrays and numbers) reads as
      [undefined], and [JS.ownRead] delimits the reads for which the two
      agree;
    - a function that can throw returns an [option] or a sum; module level
      mutable state (caches, the loaded configuration) is passed explicitly. *)

From Stdlib Require Import ZArith Lia Bool Ascii String List Sorting.Permutation Sorting.Sorted.
From stdpp Require Import base option list strings gmap pretty.

Local Open Scope Z_scope.
Local Set Warnings "-register-all".

(* ================================================================== *)
(** * Strings: the String.prototype methods the sources use            *)
(* ================================================================== *)

Module Str.

(** [s.startsWith(p)] *)
Fixpoint startsWith (p s : string) : bool :=
  match p, s with
  | EmptyString, _ => true
  | String a p', String b s' => if Ascii.eqb a b then startsWith p' s' else false
  | String _ _, EmptyString => false
  end.

(** [s.slice(n)] *)
Fixpoint drop (n : nat) (s : string) : string :=
  match n, s with
  | O, _ => s
  | S n', String _ s' => drop n' s'
  | S _, EmptyString => EmptyString
  end.

(** [s.slice(0, n)] *)
Fixpoint take (n : nat) (s : string) : string :=
  match n, s with
  | O, _ => EmptyString
  | S n', String c s' => String c (take n' s')
  | S _, EmptyString => EmptyString
  end.

(** Split at the first occurrence of [pat]: the text before it and the
    text after it ([s.indexOf(pat)] followed by two slices). *)
Fixpoint splitAt (pat s : string) : option (string * string) :=
  if startsWith pat s then Some (EmptyString, drop (String.length pat) s)
  else match s with
       | EmptyString => None
       | String c s' =>
           match splitAt pat s' with
           | Some (before, after) => Some (String c before, after)
           | None => None
           end
       end.

(** [s.includes(pat)] *)
Definition includes (pat s : string) : bool :=
  match splitAt pat s with Some _ => true | None => false end.

(** [s.endsWith(p)] *)
Fixpoint endsWith (p s : string) : bool :=
  if String.eqb p s then true
  else match s with
       | EmptyString => false
       | String _ s' => endsWith p s'
       end.

(** White space as matched by [\s] and removed by [trim], restricted to
    8-bit code units: TAB, LF, VT, FF, CR, SPACE and NBSP. *)
Definition isSpace (c : ascii) : bool :=
  match c with
  | "009" | "010" | "011" | "012" | "013" | " " | "160" => true
  | _ => false
  end%char.

Fixpoint trimStart (s : string) : string :=
  match s with
  | EmptyString => EmptyString
  | String c s' => if isSpace c then trimStart s' else s
  end.

Fixpoint trimEnd (s : string) : string :=
  match s with
  | EmptyString => EmptyString
  | String c s' =>
      match trimEnd s' with
      | EmptyString => if isSpace c then EmptyString else String c EmptyString
      | t => String c t
      end
  end.

Definition trim (s : string) : string := trimEnd (trimStart s).

(** Longest prefix of characters satisfying [p], and the rest. *)
Fixpoint span (p : ascii -> bool) (s : string) : string * string :=
  match s with
  | EmptyString => (EmptyString, EmptyString)
  | String c s' =>
      if p c then let '(a, b) := span p s' in (String c a, b)
      else (EmptyString, s)
  end.

(** [s.split(sep)] for a one-character separator. *)
Fixpoint split (sep : ascii) (s : string) : list string :=
  match s with
  | EmptyString => [EmptyString]
  | String c s' =>
      if Ascii.eqb c sep then EmptyString :: split sep s'
      else match split sep s' with
           | h :: t => String c h :: t
           | [] => [String c EmptyString]
           end
  end.

(** [s.split(/\s+/)]: [inSep] records that the previous character already
    belonged to the current run of white space. *)
Fixpoint splitSpaces_from (inSep : bool) (s : string) : list string :=
  match s with
  | EmptyString => [EmptyString]
  | String c s' =>
      if isSpace c then
        if inSep then splitSpaces_from true s'
        else EmptyString :: splitSpaces_from true s'
      else match splitSpaces_from false s' with
           | h :: t => String c h :: t
           | [] => [String c EmptyString]
           end
  end.

Definition splitSpaces (s : string) : list string := splitSpaces_from false s.

(** [s.indexOf(' ') !== -1] and the like. *)
Fixpoint hasChar (c : ascii) (s : string) : bool :=
  match s with
  | EmptyString => false
  | String d s' => if Ascii.eqb c d then true else hasChar c s'
  end.

(** [s.replace(pat, by)] with a string pattern: the first occurrence only. *)
Definition replaceFirst (pat by_ s : string) : string :=
  match splitAt pat s with
  | Some (before, after) => before +:+ by_ +:+ after
  | None => s
  end.

(** [s.replace(/c/g, d)] for single characters. *)
Fixpoint replaceChar (c d : ascii) (s : string) : string :=
  match s with
  | EmptyString => EmptyString
  | String x s' => String (if Ascii.eqb x c then d else x) (replaceChar c d s')
  end.

(** [parts.join('')] *)
Definition concat (parts : list string) : string :=
  fold_right String.append EmptyString parts.

(** [parts.join(sep)] *)
Fixpoint join (sep : string) (parts : list string) : string :=
  match parts with
  | [] => EmptyString
  | [x] => x
  | x :: rest => x +:+ sep +:+ join sep rest
  end.

End Str.

(* ================================================================== *)
(** * JavaScript values                                                *)
(* ================================================================== *)

Module JS.

(** Identity of an object: an address of the data handed to the engine, or
    the context object allocated at iteration depth [depth]. *)
Inductive Ref : Type :=
| Addr (n : nat)
| Fresh (depth : nat).

Definition Ref_eqb (a b : Ref) : bool :=
  match a, b with
  | Addr n, Addr m => Nat.eqb n m
  | Fresh n, Fresh m => Nat.eqb n m
  | _, _ => false
  end.

(** [JFun r src v] is a zero-argument function whose call returns [v];
    [src] is its source text, which is what [String(f)] yields. *)
Inductive Value : Type :=
| JUndefined
| JNull
| JBool (b : bool)
| JNum (n : Z)
| JStr (s : string)
| JArr (r : Ref) (items : list Value)
| JObj (r : Ref) (fields : list (string * Value))
| JFun (r : Ref) (src : string) (ret : Value).

(** ToBoolean *)
Definition truthy (v : Value) : bool :=
  match v with
  | JUndefined | JNull => false
  | JBool b => b
  | JNum n => negb (n =? 0)
  | JStr s => negb (String.eqb s "")
  | JArr _ _ | JObj _ _ | JFun _ _ _ => true
  end.

(** [a || b] *)
Definition or_else (a b : Value) : Value := if truthy a then a else b.

(** [Array.isArray] *)
Definition isArray (v : Value) : bool :=
  match v with JArr _ _ => true | _ => false end.

(** [typeof v === 'function'] *)
Definition isFunction (v : Value) : bool :=
  match v with JFun _ _ _ => true | _ => false end.

(** Number::toString for integers, every digit printed: the text of the
    language for the integers a number represents exactly, up to 2^53 in
    absolute value (from 10^21 on the language prints an exponent). *)
Definition numToString (n : Z) : string := pretty n.

(** Own property lookup in an object's property list. *)
Fixpoint getOwn (k : string) (fields : list (string * Value)) : option Value :=
  match fields with
  | [] => None
  | (k', v) :: rest => if String.eqb k k' then Some v else getOwn k rest
  end.

(** [obj[k] = v]: overwrite in place, or append a new property. *)
Fixpoint setProp (k : string) (v : Value) (fields : list (string * Value))
  : list (string * Value) :=
  match fields with
  | [] => [(k, v)]
  | (k', v') :: rest =>
      if String.eqb k k' then (k, v) :: rest else (k', v') :: setProp k v rest
  end.

(** [{...a, ...b}] on property lists. *)
Definition spreadInto (a b : list (string * Value)) : list (string * Value) :=
  fold_left (fun acc kv => setProp (fst kv) (snd kv) acc) b a.

(** An array index written canonically: decimal digits, no leading zero. *)
Fixpoint digitsValue (acc : nat) (s : string) : option nat :=
  match s with
  | EmptyString => Some acc
  | String c s' =>
      match Ascii.is_nat c with
      | Some d => digitsValue (10 * acc + d) s'
      | None => None
      end
  end.

Definition arrayIndex (k : string) : option nat :=
  match k with
  | EmptyString => None
  | String "0" EmptyString => Some O
  | String "0" _ => None
  | _ => digitsValue 0 k
  end.

(** Own enumerable properties, as [{...v}] copies them. *)
Fixpoint indexed {A} (f : A -> Value) (i : nat) (l : list A) : list (string * Value) :=
  match l with
  | [] => []
  | x :: rest => (pretty i, f x) :: indexed f (S i) rest
  end.

Definition charValue (c : ascii) : Value := JStr (String c EmptyString).

Definition ownProps (v : Value) : list (string * Value) :=
  match v with
  | JObj _ fields => fields
  | JArr _ items => indexed (fun x => x) 0 items
  | JStr s => indexed charValue 0 (list_ascii_of_string s)
  | _ => []
  end.

(** [v[k]] for a truthy [v], as far as own properties, [length] and indices
    go: a name found on a prototype only reads as [undefined] here. *)
Definition getProp (v : Value) (k : string) : Value :=
  match v with
  | JObj _ fields => default JUndefined (getOwn k fields)
  | JArr _ items =>
      if String.eqb k "length" then JNum (Z.of_nat (length items))
      else match arrayIndex k with
           | Some i => nth i items JUndefined
           | None => JUndefined
           end
  | JStr s =>
      if String.eqb k "length" then JNum (Z.of_nat (String.length s))
      else match arrayIndex k with
           | Some i => match String.get i s with
                       | Some c => charValue c
                       | None => JUndefined
                       end
           | None => JUndefined
           end
  | JFun _ _ _ => if String.eqb k "length" then JNum 0 else JUndefined
  | _ => JUndefined
  end.

(** The property names every object inherits from [Object.prototype]. *)
Definition objectPrototypeKeys : list string :=
  [ "constructor"; "__defineGetter__"; "__defineSetter__"; "hasOwnProperty";
    "__lookupGetter__"; "__lookupSetter__"; "isPrototypeOf"; "propertyIsEnumerable";
    "toString"; "valueOf"; "__proto__"; "toLocaleString" ].

Definition inherited (key : string) : bool :=
  existsb (String.eqb key) objectPrototypeKeys.

(** The reads [v[k]] of a truthy [v] that no prototype answers, so that
    [getProp] returns what the language finds: on an object an own property,
    or a name that objects do not inherit; on an array or a string [length]
    or an index. Reads on numbers, booleans and functions, and other names on
    arrays and strings, may reach a method of the prototype and are left
    out. *)
Definition ownRead (v : Value) (k : string) : bool :=
  match v with
  | JObj _ fields =>
      match getOwn k fields with
      | Some _ => true
      | None => negb (inherited k)
      end
  | JArr _ _ | JStr _ =>
      String.eqb k "length" || match arrayIndex k with Some _ => true | None => false end
  | _ => false
  end.

(** ToString. An array joins its elements with a comma, [null] and
    [undefined] elements giving the empty string. *)
Fixpoint toString (v : Value) : string :=
  match v with
  | JUndefined => "undefined"
  | JNull => "null"
  | JBool true => "true"
  | JBool false => "false"
  | JNum n => numToString n
  | JStr s => s
  | JArr _ items =>
      Str.join ","
        (map (fun x => match x with
                       | JUndefined | JNull => EmptyString
                       | _ => toString x
                       end) items)
  | JObj _ _ => "[object Object]"
  | JFun _ src _ => src
  end.

(** The values whose conversion to a string is [toString]: a number is an
    integer that is represented exactly, an object has no [toString] property
    of its own to be called in place of the inherited one, and the elements
    of an array are of this kind. *)
Fixpoint printable (v : Value) : bool :=
  match v with
  | JNum n => Z.abs n <=? 2 ^ 53
  | JArr _ items => forallb printable items
  | JObj _ fields =>
      match getOwn "toString" fields with
      | Some _ => false
      | None => true
      end
  | _ => true
  end.

(** [a === b] *)
Definition strictEq (a b : Value) : bool :=
  match a, b with
  | JUndefined, JUndefined => true
  | JNull, JNull => true
  | JBool x, JBool y => Bool.eqb x y
  | JNum x, JNum y => x =? y
  | JStr x, JStr y => String.eqb x y
  | JArr r _, JArr r' _ => Ref_eqb r r'
  | JObj r _, JObj r' _ => Ref_eqb r r'
  | JFun r _ _, JFun r' _ _ => Ref_eqb r r'
  | _, _ => false
  end.

(** [items.indexOf(item)]: the first position holding a strictly equal
    element, or -1. *)
Fixpoint indexOf_from (i : Z) (items : list Value) (item : Value) : Z :=
  match items with
  | [] => -1
  | x :: rest => if strictEq x item then i else indexOf_from (i + 1) rest item
  end.

Definition indexOf (items : list Value) (item : Value) : Z :=
  indexOf_from 0 items item.

Section LooseEquality.

(** StringToNumber of the language, as far as it yields an integer; [None]
    stands for NaN and for numbers outside the model. *)
Variable StringToNumber : string -> option Z.

Inductive Prim : Type :=
| PNum (n : Z)
| PStr (s : string).

(** ToPrimitive followed by ToNumber on booleans. *)
Definition toPrim (v : Value) : Prim :=
  match v with
  | JBool b => PNum (if b then 1 else 0)
  | JNum n => PNum n
  | JStr s => PStr s
  | _ => PStr (toString v)
  end.

Definition primEq (a b : Prim) : bool :=
  match a, b with
  | PNum x, PNum y => x =? y
  | PStr x, PStr y => String.eqb x y
  | PNum x, PStr s | PStr s, PNum x =>
      match StringToNumber s with
      | Some y => x =? y
      | None => false
      end
  end.

Definition isNullish (v : Value) : bool :=
  match v with JUndefined | JNull => true | _ => false end.

Definition isObject (v : Value) : bool :=
  match v with JArr _ _ | JObj _ _ | JFun _ _ _ => true | _ => false end.

(** [a == b] *)
Definition looseEq (a b : Value) : bool :=
  if isNullish a then isNullish b
  else if isNullish b then false
  else if isObject a && isObject b then strictEq a b
  else primEq (toPrim a) (toPrim b).

End LooseEquality.

(** A StringToNumber for decimal integer literals, used by the examples. *)
Definition decimalToNumber (s : string) : option Z :=
  match Str.trim s with
  | EmptyString => Some 0
  | String "-" t =>
      match t with
      | EmptyString => None
      | _ => option_map (fun n => - Z.of_nat n) (digitsValue 0 t)
      end
  | String "+" t =>
      match t with
      | EmptyString => None
      | _ => option_map Z.of_nat (digitsValue 0 t)
      end
  | t => option_map Z.of_nat (digitsValue 0 t)
  end.

End JS.

(* ================================================================== *)
(** * lib/templateEngine.js                                            *)
(* ================================================================== *)

Module TemplateEngine.
Import JS.

(** ** getNestedValue

    [path.split('.').reduce((prev, curr) => prev ? prev[curr] : undefined, obj)] *)
Definition getNestedValue (obj : Value) (path : string) : Value :=
  fold_left (fun prev curr => if truthy prev then getProp prev curr else JUndefined)
            (Str.split "." path) obj.

(** The paths along which every read is one [getProp] answers as the
    language does ([ownRead]); below a falsy value nothing is read. *)
Fixpoint ownReads (v : Value) (segments : list string) : bool :=
  match segments with
  | [] => true
  | curr :: rest =>
      if truthy v then ownRead v curr && ownReads (getProp v curr) rest else true
  end.

Definition ownPath (obj : Value) (path : string) : bool :=
  ownReads obj (Str.split "." path).

(** ** String.prototype.replace with a global regular expression

    [matchAt s] tries the expression at the very start of [s] and returns the
    captures with the length of the matched text. [replaceAll] walks the
    string from left to right, replaces each match by what the callback
    returns for it and resumes behind the match; [skip] counts the characters
    of the current match that are still to be passed over. The callback may
    fail (the recursion of the engine can exhaust the call stack), in which
    case the whole replacement fails. *)
Section ReplaceAll.
Context {A : Type}.
Variable matchAt : string -> option (A * nat).
Variable callback : A -> option string.

Fixpoint replaceAll_skip (skip : nat) (s : string) : option string :=
  match s with
  | EmptyString => Some EmptyString
  | String c s' =>
      match skip with
      | S k => replaceAll_skip k s'
      | O =>
          match matchAt s with
          | Some (a, len) =>
              r ← callback a;
              t ← replaceAll_skip (Nat.pred len) s';
              Some (r +:+ t)
          | None =>
              t ← replaceAll_skip O s';
              Some (String c t)
          end
      end
  end.

Definition replaceAll (s : string) : option string := replaceAll_skip O s.

End ReplaceAll.

(** ** The three expressions of the engine *)

Definition notBrace (c : ascii) : bool := negb (Ascii.eqb c "}").

(** The head of a block, [\{\{#kw\s+([^}]+)\}\}], tried at the start of [s]:
    the keyword, the run of characters other than a closing brace, of which
    the leading white space (at least one character, as much as possible
    while leaving one character for the capture) separates the keyword from
    the capture, and the two closing braces. Returns the capture and what
    follows the head. *)
Definition matchHead (kw s : string) : option (string * string) :=
  if Str.startsWith kw s then
    let '(run, rest) := Str.span notBrace (Str.drop (String.length kw) s) in
    match run with
    | String w (String c run') =>
        if Str.isSpace w && Str.startsWith "}}" rest then
          let arg := match Str.trimStart (String c run') with
                     | EmptyString => Str.drop (String.length run') (String c run')
                     | t => t
                     end in
          Some (arg, Str.drop 2 rest)
        else None
    | _ => None
    end
  else None.

(** [/\{\{#each\s+([^}]+)\}\}([\s\S]*?)\{\{\/each\}\}/]: the lazy body ends
    at the first closing tag behind the head. Captures: items path, block
    content. *)
Definition matchEach (s : string) : option ((string * string) * nat) :=
  match matchHead "{{#each" s with
  | Some (itemsPath, rest) =>
      match Str.splitAt "{{/each}}" rest with
      | Some (blockContent, after) =>
          Some ((itemsPath, blockContent), (String.length s - String.length after)%nat)
      | None => None
      end
  | None => None
  end.

(** [/\{\{#if\s+([^}]+)\}\}([\s\S]*?)(?:\{\{else\}\}([\s\S]*?))?\{\{\/if\}\}/]:
    the block runs to the first [{{/if}}] behind the head, and the first
    [{{else}}] inside it, if any, separates the two branches; a missing else
    branch is the empty string (the default of the callback's parameter).
    Captures: condition, if content, else content. *)
Definition matchIf (s : string) : option ((string * string * string) * nat) :=
  match matchHead "{{#if" s with
  | Some (condition, rest) =>
      match Str.splitAt "{{/if}}" rest with
      | Some (inner, after) =>
          let len := (String.length s - String.length after)%nat in
          match Str.splitAt "{{else}}" inner with
          | Some (ifContent, elseContent) =>
              Some ((condition, ifContent, elseContent), len)
          | None => Some ((condition, inner, EmptyString), len)
          end
      | None => None
      end
  | None => None
  end.

(** The variable expression, [{{] [[^#/]] [[^}]]* [}}] with the part between
    the braces captured: two opening braces, one character that is
    neither [#] nor [/], characters other than a closing brace, two closing
    braces. Capture: the key. *)
Definition matchVariable (s : string) : option (string * nat) :=
  if Str.startsWith "{{" s then
    match Str.drop 2 s with
    | String c s' =>
        if Ascii.eqb c "#" || Ascii.eqb c "/" then None
        else
          let '(run, rest) := Str.span notBrace s' in
          if Str.startsWith "}}" rest then
            Some (String c run, (5 + String.length run)%nat)
          else None
    | EmptyString => None
    end
  else None.

Section Engine.
Variable StringToNumber : string -> option Z.

(** ** The context of one iteration

    [{ ...item, _parent: data, _index: items.indexOf(item) }] *)
Definition childRef (data : Value) : Ref :=
  match data with
  | JObj (Fresh d) _ => Fresh (S d)
  | _ => Fresh 0
  end.

Definition childContext (data : Value) (items : list Value) (item : Value) : Value :=
  JObj (childRef data)
       (setProp "_index" (JNum (indexOf items item))
          (setProp "_parent" data (spreadInto [] (ownProps item)))).

(** ** processEachBlocks, over the recursive call [processTemplate] *)
Section Blocks.
Variable processTemplate : string -> Value -> option string.

Definition eachCallback (data : Value) (m : string * string) : option string :=
  let '(itemsPath, blockContent) := m in
  let items := getNestedValue data (Str.trim itemsPath) in
  match items with
  | JArr _ [] => Some EmptyString
  | JArr _ elems =>
      parts ← mapM (fun item => processTemplate blockContent (childContext data elems item)) elems;
      Some (Str.concat parts)
  | _ => Some EmptyString
  end.

Definition processEachBlocks (template : string) (data : Value) : option string :=
  replaceAll matchEach (eachCallback data) template.

(** ** processIfBlocks *)

(** The value of [result] before the branch is chosen. With fewer than three
    words [right] is undefined, [getNestedValue] throws on it and the
    [catch] sets [result = false]. *)
Definition evalCondition (data : Value) (condition : string) : bool :=
  let c := Str.trim condition in
  if negb (Str.hasChar " " c) then truthy (getNestedValue data c)
  else
    match Str.splitSpaces c with
    | lhs :: operator :: rhs :: _ =>
        let leftValue := or_else (getNestedValue data lhs) (JStr lhs) in
        let rightValue := or_else (getNestedValue data rhs) (JStr rhs) in
        if String.eqb operator "==" then looseEq StringToNumber leftValue rightValue
        else if String.eqb operator "===" then strictEq leftValue rightValue
        else if String.eqb operator "!=" then negb (looseEq StringToNumber leftValue rightValue)
        else if String.eqb operator "!==" then negb (strictEq leftValue rightValue)
        else truthy (getNestedValue data c)
    | _ => false
    end.

Definition ifCallback (data : Value) (m : string * string * string) : option string :=
  let '(condition, ifContent, elseContent) := m in
  if evalCondition data condition then processTemplate ifContent data
  else processTemplate elseContent data.

Definition processIfBlocks (template : string) (data : Value) : option string :=
  replaceAll matchIf (ifCallback data) template.

End Blocks.

(** ** Variable replacement, the last statement of processTemplate *)
Definition variableCallback (data : Value) (key : string) : option string :=
  let value := getNestedValue data (Str.trim key) in
  match value with
  | JUndefined => Some EmptyString
  | JFun _ _ ret => Some (toString ret)
  | _ => Some (toString value)
  end.

Definition replaceVariables (template : string) (data : Value) : option string :=
  replaceAll matchVariable (variableCallback data) template.

(** ** processTemplate

    [stack] bounds the depth of the recursion through the block callbacks:
    [None] is the RangeError of an exhausted call stack. *)
Fixpoint processTemplate (stack : nat) (template : string) (data : Value) : option string :=
  match stack with
  | O => None
  | S stack' =>
      if String.eqb template "" then Some EmptyString
      else
        processed ← processEachBlocks (processTemplate stack') template data;
        processed ← processIfBlocks (processTemplate stack') processed data;
        replaceVariables processed data
  end.

End Engine.

(** ** calculatePagination *)
Record Pagination : Type := mkPagination {
  startPage : Z;
  endPage : Z;
  showFirst : bool;
  showFirstEllipsis : bool;
  showLast : bool;
  showLastEllipsis : bool
}.

Definition calculatePagination (currentPage totalPages : Z) (range : Z) : Pagination :=
  let startPage := Z.max 1 (currentPage - range) in
  let endPage := Z.min totalPages (currentPage + range) in
  let '(startPage, endPage) :=
    if (endPage - startPage <? 4) && (totalPages >? 4) then
      if startPage =? 1 then (startPage, Z.min (startPage + 4) totalPages)
      else if endPage =? totalPages then (Z.max (endPage - 4) 1, endPage)
      else (startPage, endPage)
    else (startPage, endPage) in
  {| startPage := startPage;
     endPage := endPage;
     showFirst := startPage >? 1;
     showFirstEllipsis := startPage >? 2;
     showLast := endPage <? totalPages;
     showLastEllipsis := endPage <? totalPages - 1 |}.

(** The default of the [range] parameter. *)
Definition defaultRange : Z := 2.

End TemplateEngine.

(* ================================================================== *)
(** * lib/templateEngine.js: the template cache and loader             *)
(* ================================================================== *)

Module TemplateLoader.
Import JS.

(** The module configuration and its defaults. *)
Record EngineConfig : Type := mkEngineConfig {
  engineCacheTemplates : Value;
  engineTemplatesDir : Value;
  engineDefaultLanguage : Value
}.

Definition DEFAULT_CONFIG : EngineConfig :=
  {| engineCacheTemplates := JBool true;
     engineTemplatesDir := JStr "templates";
     engineDefaultLanguage := JStr "ru-RU" |}.

(** The options object given to updateConfig: a property is present or not. *)
Record EngineOptions : Type := mkEngineOptions {
  optCacheTemplates : option Value;
  optTemplatesDir : option Value;
  optDefaultLanguage : option Value
}.

(** The state of the module: [config] and [templateCache]. *)
Record EngineState : Type := mkEngineState {
  config : EngineConfig;
  templateCache : gmap string string
}.

Definition initialState : EngineState :=
  {| config := DEFAULT_CONFIG; templateCache := ∅ |}.

(** [clearCache]: every key of the cache is deleted. *)
Definition clearCache (st : EngineState) : EngineState :=
  {| config := config st; templateCache := ∅ |}.

(** [updateConfig]: [config = { ...DEFAULT_CONFIG, ...newConfig }], and the
    cache is cleared when caching is switched off. *)
Definition updateConfig (newConfig : EngineOptions) (st : EngineState) : EngineState :=
  let merged :=
    {| engineCacheTemplates :=
         default (engineCacheTemplates DEFAULT_CONFIG) (optCacheTemplates newConfig);
       engineTemplatesDir :=
         default (engineTemplatesDir DEFAULT_CONFIG) (optTemplatesDir newConfig);
       engineDefaultLanguage :=
         default (engineDefaultLanguage DEFAULT_CONFIG) (optDefaultLanguage newConfig) |} in
  let st' := {| config := merged; templateCache := templateCache st |} in
  if truthy (engineCacheTemplates merged) then st' else clearCache st'.

(** What loadTemplate reads of the site configuration returned by
    [getConfig()]: [config.paths.templatesDir], a string once the
    configuration is validated, and [config.cacheTemplates]. Inside
    loadTemplate the name [config] is this object: the module configuration
    above is shadowed and not consulted. *)
Record SiteConfig : Type := mkSiteConfig {
  templatesDir : string;
  cacheTemplates : Value
}.

Section Loader.
(** [path.join], [process.cwd()] and [__dirname]. *)
Variable pathJoin : list string -> string.
Variable cwd : string.
Variable dirname : string.

Definition templatePath (site : SiteConfig) (templateName : string) : string :=
  pathJoin [ (if String.eqb (templatesDir site) "" then pathJoin [cwd; "blog/templates"]
              else templatesDir site);
             templateName +:+ ".html" ].

Definition engineDefaultPath (templateName : string) : string :=
  pathJoin [dirname; ".."; "defaults"; "templates"; templateName +:+ ".html"].

(** The outcome of a call: the returned text, the cache afterwards and what
    was written to [console.error]. *)
Record Loaded : Type := mkLoaded {
  content : string;
  cacheAfter : gmap string string;
  errors : list string
}.

(** [config.cacheTemplates && templateCache[templatePath]], when truthy. *)
Definition cached (site : SiteConfig) (cache : gmap string string) (templateName : string)
  : option string :=
  if truthy (cacheTemplates site) then
    match cache !! templatePath site templateName with
    | Some t => if String.eqb t "" then None else Some t
    | None => None
    end
  else None.

Definition remember (site : SiteConfig) (cache : gmap string string)
    (templateName template : string) : gmap string string :=
  if truthy (cacheTemplates site) then <[templatePath site templateName := template]> cache
  else cache.

(** [readFileSync path] is [None] when [fs.readFileSync] throws. *)
Definition loadTemplate (readFileSync : string -> option string)
    (site : SiteConfig) (cache : gmap string string) (templateName : string) : Loaded :=
  match cached site cache templateName with
  | Some t => {| content := t; cacheAfter := cache; errors := [] |}
  | None =>
      match readFileSync (templatePath site templateName) with
      | Some template =>
          {| content := template;
             cacheAfter := remember site cache templateName template;
             errors := [] |}
      | None =>
          match readFileSync (engineDefaultPath templateName) with
          | Some template =>
              {| content := template;
                 cacheAfter := remember site cache templateName template;
                 errors := [] |}
          | None =>
              {| content := "";
                 cacheAfter := cache;
                 errors := [ "Error loading template " +:+ templateName +:+ ":";
                             "Also tried engine default at "
                               +:+ engineDefaultPath templateName +:+ ":" ] |}
          end
      end
  end.

(** The text the resolution order designates in a given file system. *)
Definition resolved (readFileSync : string -> option string)
    (site : SiteConfig) (templateName : string) : string :=
  match readFileSync (templatePath site templateName) with
  | Some template => template
  | None => default "" (readFileSync (engineDefaultPath templateName))
  end.

(** [n] successive calls for the same name, each on the cache the previous
    call left. *)
Fixpoint loadRepeatedly (readFileSync : string -> option string) (site : SiteConfig)
    (cache : gmap string string) (templateName : string) (n : nat) : list string :=
  match n with
  | O => []
  | S n' =>
      let r := loadTemplate readFileSync site cache templateName in
      content r :: loadRepeatedly readFileSync site (cacheAfter r) templateName n'
  end.

End Loader.

End TemplateLoader.

(* ================================================================== *)
(** * lib/markdownProcessor.js                                         *)
(* ================================================================== *)

Module MarkdownProcessor.
Import JS.

(** The part of the module configuration the functions below read. No call
    of [updateConfig] occurs in the build, so the defaults are in force. *)
Record Config : Type := mkConfig {
  wordsPerMinute : Z;
  minMinutes : Z;
  cacheRendering : bool
}.

Definition DEFAULT_CONFIG : Config :=
  {| wordsPerMinute := 200; minMinutes := 1; cacheRendering := true |}.

Definition CACHE_MAX_SIZE : nat := 50.

(** [renderCache], a [Map] from markdown to HTML in insertion order. *)
Definition RenderCache : Type := list (string * string).

Fixpoint cacheGet (key : string) (cache : RenderCache) : option string :=
  match cache with
  | [] => None
  | (k, v) :: rest => if String.eqb key k then Some v else cacheGet key rest
  end.

(** [Map.prototype.set]: the value of a present key is replaced where it
    stands, a new key is added at the end. *)
Fixpoint cacheSet (key value : string) (cache : RenderCache) : RenderCache :=
  match cache with
  | [] => [(key, value)]
  | (k, v) :: rest =>
      if String.eqb key k then (k, value) :: rest else (k, v) :: cacheSet key value rest
  end.

(** [addToCache]: at the size limit the oldest entry makes room. *)
Definition addToCache (config : Config) (key value : string) (cache : RenderCache)
  : RenderCache :=
  if negb (cacheRendering config) then cache
  else
    let cache' := if (CACHE_MAX_SIZE <=? length cache)%nat then tl cache else cache in
    cacheSet key value cache'.

Definition renderingErrorHtml : string := "<p>Error rendering content.</p>".

Record Rendered : Type := mkRendered {
  html : string;
  renderCacheAfter : RenderCache;
  renderErrors : list string
}.

(** [renderMarkdown]; [marked] is [marked.parse], [None] when it throws. *)
Definition renderMarkdown (marked : string -> option string) (config : Config)
    (cache : RenderCache) (markdown : string) : Rendered :=
  if String.eqb markdown "" then
    {| html := ""; renderCacheAfter := cache; renderErrors := [] |}
  else
    match (if cacheRendering config then cacheGet markdown cache else None) with
    | Some cachedHtml =>
        {| html := cachedHtml; renderCacheAfter := cache; renderErrors := [] |}
    | None =>
        match marked markdown with
        | Some parsed =>
            {| html := parsed;
               renderCacheAfter := addToCache config markdown parsed cache;
               renderErrors := [] |}
        | None =>
            {| html := renderingErrorHtml;
               renderCacheAfter := cache;
               renderErrors := ["Error rendering markdown:"] |}
        end
    end.

(** [extractFrontmatter]; [frontmatter] is the gray-matter parser, [None]
    when it throws: then the whole text is the body and there is no
    metadata. Returns the body, the metadata and the errors logged. *)
Definition extractFrontmatter
    (frontmatter : string -> option (string * list (string * Value))) (content : string)
  : string * list (string * Value) * list string :=
  match frontmatter content with
  | Some (markdownContent, data) => (markdownContent, data, [])
  | None => (content, [], ["Error extracting frontmatter:"])
  end.

(** [Math.ceil(a / b)] on integers. *)
Definition ceilDiv (a b : Z) : Z := - ((- a) / b).

(** [calculateReadingTime]; [contentWordsPerMinute] is
    [globalConfig.content.wordsPerMinute], 0 when absent. *)
Definition calculateReadingTime (config : Config) (contentWordsPerMinute : Z) (text : string)
  : Z :=
  if String.eqb text "" then minMinutes config
  else
    let wpm := if contentWordsPerMinute =? 0 then wordsPerMinute config
               else contentWordsPerMinute in
    let words := Z.of_nat (length (Str.splitSpaces (Str.trim text))) in
    Z.max (minMinutes config) (ceilDiv words wpm).

End MarkdownProcessor.

(* ================================================================== *)
(** * lib/siteBuilder.js: the content pipeline                         *)
(* ================================================================== *)

Module SiteBuilder.
Import JS.

(** [config.content] of the validated site configuration; a property that
    is absent is [JUndefined], an absent [wordsPerMinute] is 0. *)
Record ContentConfig : Type := mkContentConfig {
  postsPerPage : Z;
  defaultAuthor : Value;
  showReadingTime : Value;
  contentWordsPerMinute : Z
}.

(** The collaborators of the pipeline. A reader that can throw returns
    [None] when it does. [statMtime] is [fs.statSync(p).mtime.toISOString()],
    [dateValue v] the time value of [new Date(v)] ([None] for an invalid
    date) and [formatDate] the locale formatting of markdownProcessor. *)
Record World : Type := mkWorld {
  readFile : string -> option string;
  statMtime : string -> option string;
  frontmatter : string -> option (string * list (string * Value));
  marked : string -> option string;
  dateValue : Value -> option Z;
  formatDate : Value -> string;
  pathJoin : list string -> string
}.

(** A post, as the list of the own properties of the object. *)
Definition Post : Type := list (string * Value).

Definition prop (o : list (string * Value)) (k : string) : Value :=
  default JUndefined (getOwn k o).

Record Processed : Type := mkProcessed {
  result : option Post;
  cacheAfter : MarkdownProcessor.RenderCache;
  logged : list string
}.

(** [filename.replace('.md', '').replace(/-/g, ' ')] *)
Definition titleFromFilename (filename : string) : string :=
  Str.replaceChar "-" " " (Str.replaceFirst ".md" "" filename).

(** [filename.replace('.md', '').replace(/ /g, '_')] *)
Definition slugFromFilename (filename : string) : string :=
  Str.replaceChar " " "_" (Str.replaceFirst ".md" "" filename).

(** [stats.mtime.toISOString().split('T')[0]] *)
Definition datePart (iso : string) : string :=
  match Str.split "T" iso with
  | d :: _ => d
  | [] => ""
  end.

(** The object literal of the return statement before [...postData]. *)
Definition postLiteral (postData : list (string * Value)) (fileName markdownContent html : string)
    (readingTime : Z) (showReadingTime : Value) (formattedDate url : string)
  : list (string * Value) :=
  [ ("file", JStr fileName);
    ("title", prop postData "title");
    ("date", prop postData "date");
    ("author", or_else (prop postData "author") (JStr ""));
    ("tags", or_else (prop postData "tags") (JArr (Fresh 0) []));
    ("summary", or_else (prop postData "summary") (JStr ""));
    ("content", JStr markdownContent);
    ("html", JStr html);
    ("readingTime", JNum readingTime);
    ("showReadingTime", showReadingTime);
    ("formattedDate", JStr formattedDate);
    ("url", JStr url) ].

(** The defaults for missing required fields; returns [postData] and the
    warnings, or [None] when [fs.statSync] throws. *)
Definition withDate (w : World) (filePath filename : string) (postData : list (string * Value))
  : option (list (string * Value) * list string) :=
  if truthy (prop postData "date") then Some (postData, [])
  else
    match statMtime w filePath with
    | Some iso =>
        Some (setProp "date" (JStr (datePart iso)) postData,
              ["Warning: Missing date in " +:+ filename +:+ ", using file modification date"])
    | None => None
    end.

Definition withTitle (filename : string) (postData : list (string * Value))
  : list (string * Value) * list string :=
  if truthy (prop postData "title") then (postData, [])
  else (setProp "title" (JStr (titleFromFilename filename)) postData,
        ["Warning: Missing title in " +:+ filename +:+ ", using normalized filename"]).

Definition withAuthor (config : ContentConfig) (postData : list (string * Value))
  : list (string * Value) :=
  if negb (truthy (prop postData "author")) && truthy (defaultAuthor config)
  then setProp "author" (defaultAuthor config) postData
  else postData.

Definition failed (filename : string) (cache : MarkdownProcessor.RenderCache)
    (log : list string) : Processed :=
  {| result := None;
     cacheAfter := cache;
     logged := log ++ ["Error processing file " +:+ filename +:+ ":"] |}.

(** [processPostFile]: the post object, or [null] when something in the
    [try] block throws. A file that cannot be read is reported by readFile
    of the file handler before the error reaches the [catch] here. *)
Definition processPostFile (w : World) (config : ContentConfig)
    (cache : MarkdownProcessor.RenderCache) (filePath filename : string) : Processed :=
  match readFile w filePath with
  | None => failed filename cache ["Error reading file " +:+ filePath +:+ ":"]
  | Some content =>
      let '(markdownContent, data, log1) :=
        MarkdownProcessor.extractFrontmatter (frontmatter w) content in
      let postData := spreadInto [] data in
      match withDate w filePath filename postData with
      | None => failed filename cache log1
      | Some (postData, log2) =>
          let '(postData, log3) := withTitle filename postData in
          let postData := withAuthor config postData in
          let rendered :=
            MarkdownProcessor.renderMarkdown (marked w) MarkdownProcessor.DEFAULT_CONFIG
              cache markdownContent in
          let readingTime :=
            MarkdownProcessor.calculateReadingTime MarkdownProcessor.DEFAULT_CONFIG
              (contentWordsPerMinute config) markdownContent in
          let showReadingTime :=
            match showReadingTime config with
            | JUndefined => JBool true
            | v => v
            end in
          let formattedDate := formatDate w (prop postData "date") in
          let fileName := slugFromFilename filename in
          let url := "/posts/" +:+ fileName +:+ "/" in
          {| result :=
               Some (spreadInto
                       (postLiteral postData fileName markdownContent
                          (MarkdownProcessor.html rendered) readingTime showReadingTime
                          formattedDate url)
                       postData);
             cacheAfter := MarkdownProcessor.renderCacheAfter rendered;
             logged := log1 ++ log2 ++ log3 ++ MarkdownProcessor.renderErrors rendered |}
      end
  end.

(** ** Array.prototype.sort with the comparator of loadAllPosts

    [(a, b) => new Date(b.date) - new Date(a.date)]; the difference is NaN
    when one of the dates is invalid, which [sort] reads as 0. *)
Definition compareByDate (w : World) (a b : Post) : Z :=
  match dateValue w (prop b "date"), dateValue w (prop a "date") with
  | Some tb, Some ta => tb - ta
  | _, _ => 0
  end.

(** The sort is stable. It is modelled by insertion from the right: an
    element goes in front of the first element it does not compare greater
    than, so that equal elements keep their order. For a comparator that is
    a consistent ordering every stable sort returns this list. *)
Section Sort.
Context {A : Type}.
Variable cmp : A -> A -> Z.

Fixpoint insertSorted (x : A) (l : list A) : list A :=
  match l with
  | [] => [x]
  | y :: rest => if cmp x y <=? 0 then x :: y :: rest else y :: insertSorted x rest
  end.

Definition stableSort (l : list A) : list A := fold_right insertSorted [] l.

End Sort.

(** The files of a directory processed one after the other, the render
    cache being handed on. *)
Fixpoint processFiles (w : World) (config : ContentConfig)
    (cache : MarkdownProcessor.RenderCache) (postsDir : string) (files : list string)
  : list (option Post) * MarkdownProcessor.RenderCache * list string :=
  match files with
  | [] => ([], cache, [])
  | filename :: rest =>
      let r := processPostFile w config cache (pathJoin w [postsDir; filename]) filename in
      let '(posts, cache', log) := processFiles w config (cacheAfter r) postsDir rest in
      (result r :: posts, cache', logged r ++ log)
  end.

(** [posts.filter(post => post !== null)] *)
Definition validPosts (posts : list (option Post)) : list Post := omap (fun p => p) posts.

(** [loadAllPosts]; [files] is what [listFiles(postsDir, '.md')] returned. *)
Definition loadAllPosts (w : World) (config : ContentConfig)
    (cache : MarkdownProcessor.RenderCache) (postsDir : string) (files : list string)
  : list Post * MarkdownProcessor.RenderCache * list string :=
  match files with
  | [] => ([], cache, ["No markdown files found in posts directory"])
  | _ =>
      let '(posts, cache', log) := processFiles w config cache postsDir files in
      (stableSort (compareByDate w) (validPosts posts), cache', log)
  end.

End SiteBuilder.

(* ================================================================== *)
(** * lib/configManager.js                                             *)
(* ================================================================== *)

Module ConfigManager.
Import JS.

(** The result of a call that can throw, with what it wrote to the
    console. *)
Inductive Outcome (A : Type) : Type :=
| Returned (a : A)
| Thrown (error : string).
Arguments Returned {A} a.
Arguments Thrown {A} error.

Definition bind {A B : Type} (o : Outcome A) (f : A -> Outcome B) : Outcome B :=
  match o with
  | Returned a => f a
  | Thrown e => Thrown e
  end.

(** The functions of Node's [path] module and [process.cwd()]. *)
Record PathOps : Type := mkPathOps {
  resolve : string -> string -> string;
  isAbsolute : string -> bool;
  join : string -> string -> string;
  dirname : string -> string;
  basename : string -> string;
  cwd : string
}.

Definition CONFIG_VERSION : string := "1.0.0".

Definition object (fields : list (string * Value)) : Value := JObj (Fresh 0) fields.

Definition DEFAULT_CONFIG : Value :=
  object
    [ ("_version", JStr CONFIG_VERSION);
      ("site", object [ ("title", JStr "Markdown Blog");
                        ("description", JStr "A static blog built with markdown-blog-engine");
                        ("language", JStr "en") ]);
      ("content", object [ ("postsPerPage", JNum 10) ]);
      ("paths", object [ ("contentDir", JStr "./blog/content");
                         ("templatesDir", JStr "./blog/templates");
                         ("outputDir", JStr "./dist");
                         ("cssDir", JStr "./blog/css") ]) ].

(** ** The schema *)
Inductive Schema : Type :=
| Leaf (type : string) (required : bool) (min : option Z)
| Group (entries : list (string * Schema)).

Definition CONFIG_SCHEMA : list (string * Schema) :=
  [ ("_version", Leaf "string" true None);
    ("site", Group [ ("title", Leaf "string" true None);
                     ("description", Leaf "string" true None);
                     ("language", Leaf "string" true None) ]);
    ("content", Group [ ("postsPerPage", Leaf "number" true (Some 1)) ]);
    ("paths", Group [ ("contentDir", Leaf "string" true None);
                      ("templatesDir", Leaf "string" true None);
                      ("outputDir", Leaf "string" true None);
                      ("cssDir", Leaf "string" true None) ]) ].

(** [typeof target === 'object'] for a truthy target. *)
Definition typeofObject (v : Value) : bool :=
  match v with JObj _ _ | JArr _ _ => true | _ => false end.

(** ** deepMerge

    The properties of the merged object: those of the target, overwritten
    by those of the source, where two objects are merged recursively and an
    object of the source without a counterpart is copied. The loop calls
    [source.hasOwnProperty(key)] and stores with [output[key] = ...]: a
    source in which some object has a property named [hasOwnProperty] (the
    call throws) or [__proto__] (the assignment sets the prototype and adds
    no property) is outside this definition. *)
Fixpoint deepMerge (target source : Value) {struct source} : list (string * Value) :=
  match source with
  | JObj _ sourceFields =>
      (fix each (output : list (string * Value)) (fields : list (string * Value))
         {struct fields} : list (string * Value) :=
         match fields with
         | [] => output
         | (key, v) :: rest =>
             let merged :=
               match v with
               | JObj _ vFields =>
                   if truthy (getProp target key) && typeofObject (getProp target key)
                   then object (deepMerge (getProp target key) v)
                   else object (spreadInto [] vFields)
               | _ => v
               end in
             each (setProp key merged output) rest
         end) (ownProps target) sourceFields
  | JArr _ items =>
      (fix each (i : nat) (output : list (string * Value)) (elems : list Value)
         {struct elems} : list (string * Value) :=
         match elems with
         | [] => output
         | v :: rest =>
             let key := pretty i in
             let merged :=
               match v with
               | JObj _ vFields =>
                   if truthy (getProp target key) && typeofObject (getProp target key)
                   then object (deepMerge (getProp target key) v)
                   else object (spreadInto [] vFields)
               | _ => v
               end in
             each (S i) (setProp key merged output) rest
         end) O (ownProps target) items
  | JStr _ => spreadInto (ownProps target) (ownProps source)
  | _ => ownProps target
  end.

(** ** validateValue and validateConfig *)

(** [Array.isArray(value) ? 'array' : typeof value] *)
Definition actualType (v : Value) : string :=
  match v with
  | JUndefined => "undefined"
  | JNull => "object"
  | JBool _ => "boolean"
  | JNum _ => "number"
  | JStr _ => "string"
  | JArr _ _ => "array"
  | JObj _ _ => "object"
  | JFun _ _ _ => "function"
  end.

Section Validation.
Variable StringToNumber : string -> option Z.

(** ToNumber, [None] for NaN. *)
Definition toNumber (v : Value) : option Z :=
  match v with
  | JUndefined => None
  | JNull => Some 0
  | JBool b => Some (if b then 1 else 0)
  | JNum n => Some n
  | JStr s => StringToNumber s
  | _ => StringToNumber (toString v)
  end.

Definition validateValue (value : Value) (type : string) (required : bool) (min : option Z)
    (path : string) : list string :=
  if isNullish value then
    if required then [path +:+ " is required"] else []
  else
    (if String.eqb (actualType value) type then []
     else [path +:+ " should be of type " +:+ type +:+ ", got " +:+ actualType value])
    ++ match min with
       | Some m =>
           if String.eqb type "number"
              && match toNumber value with Some n => n <? m | None => false end
           then [path +:+ " should be at least " +:+ pretty m]
           else []
       | None => []
       end.

(** [validateSection]: the errors of the leaves of a section. A missing
    nested section is read as empty. The default that the code assigns to a
    missing required leaf is not modelled: an error is recorded for that
    leaf, and loadConfig throws instead of returning the object.

    At the top level the code hands every entry of the schema to
    validateSection, also the leaf [_version]: its properties [type] and
    [required] are then taken for schemas, which have no [type] and no
    [required] property of their own, and nothing is checked. *)
Fixpoint validateSection (sectionConfig : Value) (schema : Schema) (path : string)
  : list string :=
  match schema with
  | Leaf _ _ _ => []
  | Group entries =>
      (fix each (entries : list (string * Schema)) : list string :=
         match entries with
         | [] => []
         | (key, entry) :: rest =>
             let propertyPath := path +:+ "." +:+ key in
             let value := if truthy sectionConfig then getProp sectionConfig key
                          else JUndefined in
             match entry with
             | Leaf type required min => validateValue value type required min propertyPath
             | Group _ =>
                 validateSection (if truthy value then value else object []) entry propertyPath
             end ++ each rest
         end) entries
  end.

(** [validateConfig]: the configuration with an empty object put in place
    of every falsy section, and the errors. *)
Definition validateConfig (config : list (string * Value)) : list (string * Value) * list string :=
  fold_left
    (fun '(config, errors) '(section, schema) =>
       let config :=
         if truthy (SiteBuilder.prop config section) then config
         else setProp section (object []) config in
       (config, errors ++ validateSection (SiteBuilder.prop config section) schema section))
    CONFIG_SCHEMA (config, []).

End Validation.

(** ** migrateConfig

    Returns the configuration and what was logged. The version is assigned
    to an object only: on a primitive the assignment has no effect. *)
Definition migrateConfig (config fromVersion : Value) (toVersion : string)
  : Value * list string :=
  if strictEq fromVersion (JStr toVersion) then (config, [])
  else
    (match config with
     | JObj r fields => JObj r (setProp "_version" (JStr toVersion) fields)
     | _ => config
     end,
     ["Migrating configuration from version " +:+ toString fromVersion
        +:+ " to " +:+ toVersion]).

(** ** resolvePaths *)

Definition typeError : string := "TypeError".

(** One of the four directories of [config.paths]: a relative path is made
    absolute. [path.isAbsolute] throws on a value that is not a string. *)
Definition resolveDir (ops : PathOps) (basePath : string) (avoidDuplication : bool)
    (key : string) (paths : Value) : Outcome Value :=
  let dir := getProp paths key in
  if truthy dir then
    match dir, paths with
    | JStr d, JObj r fields =>
        if isAbsolute ops d then Returned paths
        else
          let resolved :=
            if avoidDuplication
               && String.eqb (basename ops basePath) "blog"
               && Str.startsWith "./blog/" d
            then resolve ops (dirname ops basePath) d
            else resolve ops basePath d in
          Returned (JObj r (setProp key (JStr resolved) fields))
    | JStr _, _ => Returned paths
    | _, _ => Thrown typeError
    end
  else Returned paths.

Definition resolvePaths (ops : PathOps) (config : list (string * Value)) (basePath : string)
  : Outcome (list (string * Value)) :=
  let paths := SiteBuilder.prop config "paths" in
  if truthy paths then
    bind (resolveDir ops basePath true "contentDir" paths) (fun paths =>
    bind (resolveDir ops basePath false "outputDir" paths) (fun paths =>
    bind (resolveDir ops basePath true "templatesDir" paths) (fun paths =>
    bind (resolveDir ops basePath true "cssDir" paths) (fun paths =>
    Returned (setProp "paths" paths config)))))
  else Returned config.

(** [config.paths.outputDir = ...] when the caller names an output
    directory; throws when [config.paths] is null or undefined. *)
Definition overrideOutputDir (ops : PathOps) (outputDir : string)
    (config : list (string * Value)) : Outcome (list (string * Value)) :=
  if String.eqb outputDir "" then Returned config
  else
    let dir := if isAbsolute ops outputDir then outputDir
               else resolve ops (cwd ops) outputDir in
    match SiteBuilder.prop config "paths" with
    | JUndefined | JNull => Thrown typeError
    | JObj r fields =>
        Returned (setProp "paths" (JObj r (setProp "outputDir" (JStr dir) fields)) config)
    | _ => Returned config
    end.

(** ** addDerivedProperties; [path.join] throws on a value that is not a
    string. *)
Definition addDerivedProperties (ops : PathOps) (config : list (string * Value))
  : Outcome (list (string * Value)) :=
  let paths := SiteBuilder.prop config "paths" in
  if truthy paths then
    match getProp paths "contentDir" with
    | JStr contentDir =>
        Returned
          (setProp "paths"
             (object (setProp "aboutDir" (JStr (join ops contentDir "about"))
                        (setProp "postsDir" (JStr (join ops contentDir "posts"))
                           (spreadInto [] (ownProps paths)))))
             config)
    | _ => Thrown typeError
    end
  else Returned config.

(** ** loadConfig

    [configText] is what [readFile(configPath)] of the file handler returned,
    [None] when it threw, having written its own line to the console;
    [jsonParse] is [JSON.parse], [None] when it throws. The call of
    buildSite passes [useCache: false], so the cache is not read. The result
    comes with the lines written to the console. *)
Section Load.
Variable StringToNumber : string -> option Z.
Variable jsonParse : string -> option Value.
Variable ops : PathOps.

(** The [try] block around the user's file: the merged configuration, or
    [None] when reading, parsing or reading the version throws. *)
Definition userConfiguration (configText : option string)
  : option (list (string * Value) * list string) :=
  match configText with
  | None => None
  | Some configData =>
      match jsonParse configData with
      | None => None
      | Some JNull => None
      | Some userConfig =>
          let userVersion := or_else (getProp userConfig "_version") (JStr "1.0.0") in
          let '(migrated, log) := migrateConfig userConfig userVersion CONFIG_VERSION in
          Some (deepMerge DEFAULT_CONFIG migrated, log)
      end
  end.

Definition loadConfig (configPath : string) (configText : option string) (outputDir : string)
  : Outcome (list (string * Value)) * list string :=
  let '(config, log) :=
    match userConfiguration configText with
    | Some (config, log) => (config, log)
    | None =>
        (ownProps DEFAULT_CONFIG,
         match configText with
         | None => ["Error reading file " +:+ configPath +:+ ":"]
         | Some _ => []
         end
         ++ [ "Could not load config from " +:+ configPath +:+ ":";
              "Using default configuration" ])
    end in
  let prepared :=
    bind (resolvePaths ops config (dirname ops configPath)) (fun config =>
    bind (overrideOutputDir ops outputDir config) (fun config =>
    addDerivedProperties ops config)) in
  match prepared with
  | Thrown e => (Thrown e, log ++ ["Error loading configuration:"])
  | Returned config =>
      let '(config, errors) := validateConfig StringToNumber config in
      match errors with
      | [] => (Returned config, log)
      | _ =>
          (Thrown "Invalid configuration",
           log ++ ["Configuration validation errors:"]
               ++ map (fun e => "- " +:+ e) errors
               ++ ["Error loading configuration:"])
      end
  end.

End Load.

End ConfigManager.

(* ================================================================== *)
(** * lib/siteBuilder.js: extractTags and paginateItems                *)
(* ================================================================== *)

Module Pages.
Import JS SiteBuilder.

(** The object built by extractTags is used as a map from the tag to the
    posts that carry it. The body of the inner [forEach]: [tags[tag]] is
    created when it is falsy, and the post is pushed onto it. Read on the
    empty object literal that collects the tags, an inherited name
    ([JS.inherited]) yields a truthy value that has no [push] method: [None]
    is the TypeError of calling it. *)
Definition addTag (post : Post) (tags : gmap string (list Post)) (tag : Value)
  : option (gmap string (list Post)) :=
  let key := toString tag in
  match tags !! key with
  | Some tagged => Some (<[key := tagged ++ [post]]> tags)
  | None => if inherited key then None else Some (<[key := [post]]> tags)
  end.

Definition addPost (tags : gmap string (list Post)) (post : Post)
  : option (gmap string (list Post)) :=
  match prop post "tags" with
  | JArr _ items => foldl (fun acc tag => tags ← acc; addTag post tags tag) (Some tags) items
  | _ => Some tags
  end.

(** [extractTags(posts)] *)
Definition extractTags (posts : list Post) : option (gmap string (list Post)) :=
  foldl (fun acc post => tags ← acc; addPost tags post) (Some ∅) posts.

(** The directory and the link of a tag: [tag.replace(/ /g, '_')]. *)
Definition tagSlug (tag : string) : string := Str.replaceChar " " "_" tag.

(** One element of the array returned by paginateItems. *)
Record Page (A : Type) : Type := mkPage {
  page : Z;
  title : string;
  itemsForPage : list A;
  pagination : string;
  isFirstPage : bool
}.
Arguments mkPage {A} _ _ _ _ _.
Arguments page {A} _.
Arguments title {A} _.
Arguments itemsForPage {A} _.
Arguments pagination {A} _.
Arguments isFirstPage {A} _.

Section Paginate.
Context {A : Type}.

(** [generatePagination({ currentPage, totalPages, basePath })] of the
    template engine, [None] when it throws, and the [pageTitle] option. *)
Variable generatePagination : Z -> Z -> string -> option string.
Variable pageTitle : Z -> string.

(** [items.slice(start, end)] for [0 <= start <= end]. *)
Definition slice (start end_ : Z) (items : list A) : list A :=
  take (Z.to_nat (end_ - start)) (drop (Z.to_nat start) items).

(** [Math.ceil(items.length / perPage)] for a non-zero [perPage]. *)
Definition totalPages (items : list A) (perPage : Z) : Z :=
  MarkdownProcessor.ceilDiv (Z.of_nat (length items)) perPage.

Definition pageObject (items : list A) (perPage : Z) (basePath : string) (page : Z)
  : option (Page A) :=
  let start := (page - 1) * perPage in
  let end_ := start + perPage in
  let itemsForPage := slice start end_ items in
  pagination ← (if 1 <? totalPages items perPage
                then generatePagination page (totalPages items perPage) basePath
                else Some "");
  Some {| page := page;
          title := pageTitle page;
          itemsForPage := itemsForPage;
          pagination := pagination;
          isFirstPage := page =? 1 |}.

(** [paginateItems(items, { perPage, basePath, pageTitle })]; the caller
    passes the options, whose defaults are 10, ['/'] and a title in
    Russian. With [perPage] 0 the quotient is NaN for no items, and the
    loop is not entered, or Infinity, and the loop has no end: [None]. A
    negative [perPage] gives a page count below 1. *)
Definition paginateItems (items : list A) (perPage : Z) (basePath : string)
  : option (list (Page A)) :=
  if perPage =? 0 then
    match items with
    | [] => Some []
    | _ => None
    end
  else mapM (pageObject items perPage basePath) (seqZ 1 (totalPages items perPage)).

End Paginate.

End Pages.

(* ================================================================== *)
(** * lib/siteBuilder.js: the page builders and buildSite              *)
(* ================================================================== *)

Module Build.
Import JS ConfigManager.

(** The promises handed to [Promise.all] by buildSite, in the order of the
    array. *)
Inductive Task : Type :=
| StaticAssets
| HomePage
| PostPages
| TagPages
| TagsIndexPage
| AboutPage
| Sitemap.

Definition allTasks : list Task :=
  [StaticAssets; HomePage; PostPages; TagPages; TagsIndexPage; AboutPage; Sitemap].

Definition Task_eqb (a b : Task) : bool :=
  match a, b with
  | StaticAssets, StaticAssets | HomePage, HomePage | PostPages, PostPages
  | TagPages, TagPages | TagsIndexPage, TagsIndexPage | AboutPage, AboutPage
  | Sitemap, Sitemap => true
  | _, _ => false
  end.

(** One run of the build as the builders meet it: for the body of the
    [try] block of each builder the error it throws, if any (rendering a
    template, creating a directory or writing a file can fail);
    [tagPages] is the part of buildTagPages that comes before its call of
    buildTagsIndexPage; [aboutSource] says whether the about document can be
    read; [settleOrder] is the order in which the promises settle, which the
    completion of the file operations decides. *)
Record Trial : Type := mkTrial {
  staticAssets : option string;
  homePage : option string;
  postPages : option string;
  tagPages : option string;
  tagsIndexPage : option string;
  aboutSource : bool;
  aboutPage : option string;
  sitemap : option string;
  errorPage : option string;
  settleOrder : list Task
}.

Inductive Settled : Type :=
| Fulfilled
| Rejected (error : string).

(** [try { body } catch (error) { console.error(message, error); throw error; }] *)
Definition rethrowing (body : option string) (message : string) : Settled * list string :=
  match body with
  | None => (Fulfilled, [])
  | Some error => (Rejected error, [message])
  end.

Definition generateStaticAssets (t : Trial) : Settled * list string :=
  rethrowing (staticAssets t) "Error generating static assets:".

Definition buildHomePage (t : Trial) : Settled * list string :=
  rethrowing (homePage t) "Error building home page:".

Definition buildPostPages (t : Trial) : Settled * list string :=
  rethrowing (postPages t) "Error building post pages:".

Definition buildTagsIndexPage (t : Trial) : Settled * list string :=
  rethrowing (tagsIndexPage t) "Error building tags index page:".

(** The pages of the tags, then [await buildTagsIndexPage(tags, options)],
    all inside one [try] block that logs and rethrows. *)
Definition buildTagPages (t : Trial) : Settled * list string :=
  match tagPages t with
  | Some error => (Rejected error, ["Error building tag pages:"])
  | None =>
      match buildTagsIndexPage t with
      | (Rejected error, log) => (Rejected error, log ++ ["Error building tag pages:"])
      | (Fulfilled, log) => (Fulfilled, log)
      end
  end.

(** The about page is skipped when its source cannot be read, and its
    [catch] logs without throwing again. *)
Definition buildAboutPage (t : Trial) : Settled * list string :=
  if aboutSource t then
    match aboutPage t with
    | None => (Fulfilled, [])
    | Some _ => (Fulfilled, ["Error building about page:"])
    end
  else (Fulfilled, []).

Definition buildSitemap (t : Trial) : Settled * list string :=
  rethrowing (sitemap t) "Error building sitemap:".

Definition buildErrorPage (t : Trial) : Settled * list string :=
  rethrowing (errorPage t) "Error building error page:".

Definition runTask (t : Trial) (task : Task) : Settled * list string :=
  match task with
  | StaticAssets => generateStaticAssets t
  | HomePage => buildHomePage t
  | PostPages => buildPostPages t
  | TagPages => buildTagPages t
  | TagsIndexPage => buildTagsIndexPage t
  | AboutPage => buildAboutPage t
  | Sitemap => buildSitemap t
  end.

(** [await Promise.all(promises)]: the promises are taken in the order in
    which they settle; the first rejection rejects the whole, and the
    promises that have not settled by then are not waited for. Returns the
    result, the console output up to it and the promises that had been
    fulfilled. *)
Fixpoint promiseAll (run : Task -> Settled * list string) (order : list Task)
  : Settled * list string * list Task :=
  match order with
  | [] => (Fulfilled, [], [])
  | task :: rest =>
      match run task with
      | (Rejected error, log) => (Rejected error, log, [])
      | (Fulfilled, log) =>
          let '(result, log', fulfilled) := promiseAll run rest in
          (result, log ++ log', task :: fulfilled)
      end
  end.

(** What a call of buildSite amounts to: how its promise settles, the
    console, the builders that were called, the builders whose completion
    was waited for, and whether buildErrorPage was called. *)
Record Built : Type := mkBuilt {
  settled : Settled;
  console : list string;
  started : list Task;
  awaited : list Task;
  errorPageAttempted : bool
}.

(** The [catch] of buildSite: log, [await buildErrorPage()], [throw error].
    When buildErrorPage itself throws, that error leaves the block. *)
Definition caught (t : Trial) (error : string) (log : list string)
    (started awaited : list Task) : Built :=
  match buildErrorPage t with
  | (Fulfilled, log') =>
      {| settled := Rejected error;
         console := log ++ ["Error building site:"] ++ log';
         started := started; awaited := awaited; errorPageAttempted := true |}
  | (Rejected error', log') =>
      {| settled := Rejected error';
         console := log ++ ["Error building site:"] ++ log';
         started := started; awaited := awaited; errorPageAttempted := true |}
  end.

(** buildSite from [await Promise.all] on, reached once the configuration
    is loaded, the style sheet written, the posts loaded and their tags
    extracted. Every element of the array is a call of an async function:
    all seven builders have been called before the first of them is waited
    for. *)
Definition buildPages (t : Trial) (log : list string) : Built :=
  match promiseAll (runTask t) (settleOrder t) with
  | (Fulfilled, log', fulfilled) =>
      {| settled := Fulfilled;
         console := log ++ log' ++ ["Site build completed successfully!"];
         started := allTasks; awaited := fulfilled; errorPageAttempted := false |}
  | (Rejected error, log', fulfilled) =>
      caught t error (log ++ log') allTasks fulfilled
  end.

(** What buildSite meets between loadConfig and the builders.
    [cssVariables] is the error thrown by [await writeCssVariables()], if
    any: writing the file is inside a [try] block, but generateCssVariables
    is called before it and throws on an appearance setting that cannot be
    converted to a string. [cssLog] is what writeCssVariables writes to the
    console, [posts] what loadAllPosts returns (it catches its own errors)
    and [postsLog] what it writes to the console. *)
Record Content : Type := mkContent {
  cssVariables : option string;
  cssLog : list string;
  posts : list SiteBuilder.Post;
  postsLog : list string
}.

(** What [tags[tag].push(post)] throws for a tag that names an inherited
    property. *)
Definition extractTagsError : string := "TypeError: tags[tag].push is not a function".


Section BuildSite.
Variable StringToNumber : string -> option Z.
Variable jsonParse : string -> option Value.
Variable ops : PathOps.

(** buildSite: everything from [loadConfig] to [Promise.all] is inside one
    [try] block, so that a failure of loadConfig, of writeCssVariables or of
    [extractTags(posts)] reaches the [catch] before any builder is called. *)
Definition buildSite (configPath : string) (configText : option string) (outputDir : string)
    (c : Content) (t : Trial) : Built :=
  match loadConfig StringToNumber jsonParse ops configPath configText outputDir with
  | (Thrown error, log) => caught t error ("Starting site build..." :: log) [] []
  | (Returned _, log) =>
      match cssVariables c with
      | Some error => caught t error ("Starting site build..." :: log ++ cssLog c) [] []
      | None =>
          let log := "Starting site build..." :: log ++ cssLog c ++ postsLog c in
          match Pages.extractTags (posts c) with
          | None => caught t extractTagsError log [] []
          | Some _ => buildPages t log
          end
      end
  end.

End BuildSite.

End Build.

(* ================================================================== *)
(** * lib/templateEngine.js: renderComponent                           *)
(* ================================================================== *)

Module Components.
Import JS TemplateEngine TemplateLoader.

(** What a call leaves behind: the returned text ([None] when the engine
    exhausts the call stack), the template cache and the lines written to
    [console.error]. *)
Record Rendering : Type := mkRendering {
  rendered : option string;
  templatesAfter : gmap string string;
  reported : list string
}.

Section Render.
Variable StringToNumber : string -> option Z.
Variable pathJoin : list string -> string.
Variable cwd : string.
Variable dirname : string.
Variable readFileSync : string -> option string.
Variable site : SiteConfig.
Variable stack : nat.

(** [renderComponent(templateName, data, preprocessor)]; an absent
    preprocessor is [None]. *)
Definition renderComponent (cache : gmap string string) (templateName : string)
    (data : Value) (preprocessor : option (Value -> Value)) : Rendering :=
  let template := loadTemplate pathJoin cwd dirname readFileSync site cache templateName in
  let processedData :=
    match preprocessor with
    | Some f => f data
    | None => data
    end in
  {| rendered := processTemplate StringToNumber stack (content template) processedData;
     templatesAfter := cacheAfter template;
     reported := errors template |}.

End Render.

End Components.

(* ================================================================== *)
(** * lib/fileHandler.js: the file cache                               *)
(* ================================================================== *)

Module FileHandler.

Definition MAX_CACHE_SIZE : nat := 100.

(** The module configuration. *)
Record Config : Type := mkConfig {
  enableCache : bool;
  cacheTTL : Z
}.

Definition initialConfig : Config := {| enableCache := true; cacheTTL := 60000 |}.

(** The options of updateConfig: a property is present or not. *)
Record Options : Type := mkOptions {
  optEnableCache : option bool;
  optCacheTTL : option Z
}.

(** An entry of [fileCache]: the content and [Date.now()] at insertion. *)
Record Entry : Type := mkEntry {
  content : string;
  timestamp : Z
}.

(** [fileCache], a [Map] from path to entry, in insertion order. *)
Definition FileCache : Type := list (string * Entry).

Fixpoint get (key : string) (cache : FileCache) : option Entry :=
  match cache with
  | [] => None
  | (k, e) :: rest => if String.eqb key k then Some e else get key rest
  end.

(** [Map.prototype.set]: the entry of a present key is replaced where it
    stands, a new key goes to the end. *)
Fixpoint set (key : string) (e : Entry) (cache : FileCache) : FileCache :=
  match cache with
  | [] => [(key, e)]
  | (k, e') :: rest =>
      if String.eqb key k then (k, e) :: rest else (k, e') :: set key e rest
  end.

(** [Map.prototype.delete] *)
Fixpoint delete (key : string) (cache : FileCache) : FileCache :=
  match cache with
  | [] => []
  | (k, e) :: rest => if String.eqb key k then rest else (k, e) :: delete key rest
  end.

(** [updateConfig]: the options are merged into the current configuration,
    and the cache is emptied when caching is off. *)
Definition updateConfig (newConfig : Options) (config : Config) (cache : FileCache)
  : Config * FileCache :=
  let config' :=
    {| enableCache := default (enableCache config) (optEnableCache newConfig);
       cacheTTL := default (cacheTTL config) (optCacheTTL newConfig) |} in
  (config', if enableCache config' then cache else []).

(** [addToCache(filePath, content)] at the time [now]. *)
Definition addToCache (config : Config) (now : Z) (filePath content : string)
    (cache : FileCache) : FileCache :=
  if negb (enableCache config) then cache
  else
    let cache' :=
      if (MAX_CACHE_SIZE <=? length cache)%nat then
        match cache with
        | (oldestKey, _) :: _ => delete oldestKey cache
        | [] => cache
        end
      else cache in
    set filePath {| content := content; timestamp := now |} cache'.

(** [getFromCache(filePath)] at the time [now]: the content, or [None] for
    [null], and the cache afterwards. *)
Definition getFromCache (config : Config) (now : Z) (filePath : string)
    (cache : FileCache) : option string * FileCache :=
  if negb (enableCache config) then (None, cache)
  else
    match get filePath cache with
    | None => (None, cache)
    | Some cached =>
        if cacheTTL config <? now - timestamp cached then (None, delete filePath cache)
        else (Some (content cached), cache)
    end.

(** The outcome of an operation: the value a fulfilled promise carries
    ([None] for a rejected one), the cache, the files on disk (reading a
    path that is not there throws) and the lines written to
    [console.error]. *)
Record Done (A : Type) : Type := mkDone {
  value : option A;
  cacheAfter : FileCache;
  diskAfter : gmap string string;
  logged : list string
}.
Arguments mkDone {A} _ _ _ _.
Arguments value {A} _.
Arguments cacheAfter {A} _.
Arguments diskAfter {A} _.
Arguments logged {A} _.

(** [readFile(filePath)]: [now] is the time of the cache lookup, [later]
    the time at which the content read from disk is cached. A cached
    content that is the empty string is falsy and not returned. *)
Definition readFile (config : Config) (now later : Z) (filePath : string)
    (cache : FileCache) (disk : gmap string string) : Done string :=
  let '(cachedContent, cache) := getFromCache config now filePath cache in
  match cachedContent with
  | Some (String c s) =>
      {| value := Some (String c s); cacheAfter := cache; diskAfter := disk; logged := [] |}
  | _ =>
      match disk !! filePath with
      | Some content =>
          {| value := Some content;
             cacheAfter := addToCache config later filePath content cache;
             diskAfter := disk;
             logged := [] |}
      | None =>
          {| value := None;
             cacheAfter := cache;
             diskAfter := disk;
             logged := ["Error reading file " +:+ filePath +:+ ":"] |}
      end
  end.

(** [writeFile(filePath, content)]. [dirname] is [path.dirname], [mkdir]
    tells whether the directory can be made (or is there already) and
    [writable] whether the file can be written. A failure of
    ensureDirectoryExists is logged there and again by writeFile. *)
Definition writeFile (config : Config) (dirname : string -> string)
    (mkdir writable : string -> bool) (now : Z)
    (filePath content : string) (cache : FileCache) (disk : gmap string string) : Done unit :=
  if negb (mkdir (dirname filePath)) then
    {| value := None;
       cacheAfter := cache;
       diskAfter := disk;
       logged := [ "Error creating directory " +:+ dirname filePath +:+ ":";
                   "Error writing file " +:+ filePath +:+ ":" ] |}
  else if writable filePath then
    {| value := Some tt;
       cacheAfter := addToCache config now filePath content cache;
       diskAfter := <[filePath := content]> disk;
       logged := [] |}
  else
    {| value := None;
       cacheAfter := cache;
       diskAfter := disk;
       logged := ["Error writing file " +:+ filePath +:+ ":"] |}.

(** The extension with its dot: [ext.startsWith('.') ? ext : `.${ext}`]. *)
Definition extension (options : string) : string :=
  if Str.startsWith "." options then options else "." +:+ options.

(** [listFiles(dirPath, options)] with the file extension passed as a
    string, as loadAllPosts does; [entries] is what [fs.readdir] lists in
    the directory, every name with its [isFile()], or [None] when [fs.stat]
    or [fs.readdir] throws. The extension is given its dot once when the
    string is turned into an options object and once more when the filter
    is applied. Returns the names and the lines written to
    [console.error]. *)
Definition listFiles (entries : option (list (string * bool))) (dirPath options : string)
  : list string * list string :=
  let filter := extension options in
  match entries with
  | Some allEntries =>
      let files := List.filter snd allEntries in
      let result := map fst files in
      (List.filter (Str.endsWith (extension filter)) result, [])
  | None => ([], ["Error listing files in " +:+ dirPath +:+ ":"])
  end.

End FileHandler.

(* ================================================================== *)
(** * Evaluations of the embedding *)
(* ================================================================== *)

Example trim_ex : Str.trim "  flag == 1 " = "flag == 1".
Proof. reflexivity. Qed.
Example splitSpaces_ex : Str.splitSpaces "a  ==	b" = ["a"; "=="; "b"].
Proof. reflexivity. Qed.
Example split_ex : Str.split "." "site.title" = ["site"; "title"].
Proof. reflexivity. Qed.
Example replaceFirst_ex : Str.replaceFirst ".md" "" "my-post.md.md" = "my-post.md".
Proof. reflexivity. Qed.

Example toString_ex :
  JS.toString (JS.JArr (JS.Addr 1) [JS.JNum 12; JS.JNull; JS.JStr "a"]) = "12,,a".
Proof. vm_compute. reflexivity. Qed.
Example looseEq_ex :
  JS.looseEq JS.decimalToNumber (JS.JNum 0) (JS.JStr "0") = true.
Proof. reflexivity. Qed.

Module EngineExamples.
Import JS TemplateEngine.

Definition run := processTemplate decimalToNumber 16.
Definition obj (n : nat) (fields : list (string * Value)) : Value := JObj (Addr n) fields.

Example each_ab :
  run "{{#each xs}}{{v}}{{/each}}"
      (obj 1 [("xs", JArr (Addr 2) [obj 3 [("v", JStr "a")]; obj 4 [("v", JStr "b")]])])
  = Some "ab".
Proof. vm_compute. reflexivity. Qed.

Example each_empty :
  run "{{#each xs}}{{v}}{{/each}}" (obj 1 [("xs", JArr (Addr 2) [])]) = Some "".
Proof. vm_compute. reflexivity. Qed.

Example if_true :
  run "{{#if flag}}Y{{else}}N{{/if}}" (obj 1 [("flag", JBool true)]) = Some "Y".
Proof. vm_compute. reflexivity. Qed.

Example if_false :
  run "{{#if flag}}Y{{else}}N{{/if}}" (obj 1 [("flag", JBool false)]) = Some "N".
Proof. vm_compute. reflexivity. Qed.

Example if_missing :
  run "{{#if flag}}Y{{else}}N{{/if}}" (obj 1 []) = Some "N".
Proof. vm_compute. reflexivity. Qed.

Example nested_path :
  run "<h1>{{ site.title }}</h1>{{missing}}" (obj 1 [("site", obj 2 [("title", JStr "Blog")])])
  = Some "<h1>Blog</h1>".
Proof. vm_compute. reflexivity. Qed.

Example pagination_5_10 :
  calculatePagination 5 10 defaultRange = mkPagination 3 7 true true true true.
Proof. reflexivity. Qed.

End EngineExamples.

(* ================================================================== *)
(** * Facts about strings and about scanning                           *)
(* ================================================================== *)

Module StrFacts.
Import Str.

Lemma append_nil_l (s : string) : "" +:+ s = s.
Proof. reflexivity. Qed.

Lemma append_cons (c : ascii) (a b : string) : String c a +:+ b = String c (a +:+ b).
Proof. reflexivity. Qed.

Lemma append_nil_r (s : string) : s +:+ "" = s.
Proof. induction s as [|c s IH]; [reflexivity | now rewrite append_cons, IH]. Qed.

Lemma append_assoc (a b c : string) : (a +:+ b) +:+ c = a +:+ b +:+ c.
Proof. induction a as [|x a IH]; [reflexivity | now rewrite !append_cons, IH]. Qed.

Lemma length_append (a b : string) :
  String.length (a +:+ b) = (String.length a + String.length b)%nat.
Proof. induction a as [|x a IH]; [reflexivity | rewrite append_cons; simpl; now rewrite IH]. Qed.

Lemma startsWith_append (p s : string) : startsWith p (p +:+ s) = true.
Proof.
  induction p as [|c p IH]; [reflexivity |].
  rewrite append_cons. simpl. now rewrite Ascii.eqb_refl.
Qed.

Lemma drop_append (p s : string) : drop (String.length p) (p +:+ s) = s.
Proof. induction p as [|c p IH]; [reflexivity | rewrite append_cons; exact IH]. Qed.

Lemma drop_length (s : string) : drop (String.length s) s = "".
Proof. induction s as [|c s IH]; simpl; [reflexivity | exact IH]. Qed.

Lemma length_drop (n : nat) (s : string) :
  String.length (drop n s) = (String.length s - n)%nat.
Proof.
  revert s; induction n as [|n IH]; intros [|c s]; simpl; try reflexivity.
  apply IH.
Qed.

Lemma startsWith_length (p s : string) :
  startsWith p s = true -> (String.length p <= String.length s)%nat.
Proof.
  revert s; induction p as [|c p IH]; intros [|d s]; simpl; intros H; try lia; try discriminate.
  destruct (Ascii.eqb c d); [apply IH in H; lia | discriminate].
Qed.

(** A prefix of a concatenation lies within the first part, or covers it
    and goes on into the second. *)
Lemma startsWith_append_inv (p a x : string) :
  startsWith p (a +:+ x) = true ->
  startsWith p a = true \/
  ((String.length a < String.length p)%nat /\ startsWith (drop (String.length a) p) x = true).
Proof.
  revert a; induction p as [|c p IH]; intros a H; [now left |].
  destruct a as [|d a]; [right; split; [simpl; lia | exact H] |].
  rewrite append_cons in H. simpl in *.
  - destruct (Ascii.eqb c d); [| discriminate].
    destruct (IH a H) as [Hl | [Hlen Hr]]; [now left | right; split; [lia | exact Hr]].
Qed.

Lemma startsWith_shorter (q p r : string) :
  (String.length q <= String.length p)%nat ->
  startsWith q (p +:+ r) = true -> startsWith q p = true.
Proof.
  revert p; induction q as [|c q IH]; intros p Hlen H; [reflexivity |].
  destruct p as [|d p]; [simpl in Hlen; lia |].
  rewrite append_cons in H. simpl in *.
  destruct (Ascii.eqb c d); [apply IH; [lia | exact H] | discriminate].
Qed.

Lemma includes_cons_false (pat : string) (c : ascii) (s : string) :
  includes pat (String c s) = false ->
  startsWith pat (String c s) = false /\ includes pat s = false.
Proof.
  unfold includes. cbn [splitAt].
  destruct (startsWith pat (String c s)); [discriminate |].
  destruct (splitAt pat s) as [[b a]|]; [discriminate | auto].
Qed.

(** [bordered p]: a proper non-empty suffix of [p] is also a prefix of it.
    The closing tags of the engine are not bordered, so an occurrence of a
    tag cannot begin inside a text free of it and end inside the tag. *)
Definition bordered (p : string) : bool :=
  existsb (fun k => startsWith (drop k p) p) (seq 1 (String.length p - 1)).

Lemma splitAt_first (pat a r : string) :
  bordered pat = false ->
  includes pat a = false ->
  splitAt pat (a +:+ pat +:+ r) = Some (a, r).
Proof.
  intros Hb. induction a as [|c a IH]; intros Hinc.
  - rewrite append_nil_l. destruct pat as [|x pat].
    + discriminate Hinc.
    + rewrite append_cons. unfold splitAt; fold splitAt.
      rewrite <- append_cons.
      rewrite startsWith_append. now rewrite drop_append.
  - apply includes_cons_false in Hinc as [Hsw Hinc].
    rewrite append_cons.
    unfold splitAt; fold splitAt.
    destruct (startsWith pat (String c (a +:+ pat +:+ r))) eqn:E.
    + exfalso.
      rewrite <- append_cons in E.
      apply startsWith_append_inv in E as [E | [Hlen E]]; [congruence |].
      assert (Hq : startsWith (drop (String.length (String c a)) pat) pat = true).
      { apply startsWith_shorter with (r := r); [| exact E].
        rewrite length_drop. lia. }
      unfold bordered in Hb.
      assert (Hex : existsb (fun k => startsWith (drop k pat) pat)
                      (seq 1 (String.length pat - 1)) = true).
      { apply existsb_exists. exists (String.length (String c a)). split; [| exact Hq].
        apply in_seq. simpl in *. lia. }
      congruence.
    + now rewrite (IH Hinc).
Qed.

Lemma tags_not_bordered :
  bordered "{{/each}}" = false /\ bordered "{{/if}}" = false /\ bordered "{{else}}" = false.
Proof. repeat split; reflexivity. Qed.

(** All characters of [s] satisfy [p]. *)
Fixpoint all (p : ascii -> bool) (s : string) : bool :=
  match s with
  | EmptyString => true
  | String c s' => p c && all p s'
  end.

Lemma span_all (p : ascii -> bool) (run rest : string) :
  all p run = true ->
  match rest with EmptyString => True | String c _ => p c = false end ->
  span p (run +:+ rest) = (run, rest).
Proof.
  intros Hall Hrest. induction run as [|c run IH].
  - rewrite append_nil_l. destruct rest as [|d rest]; [reflexivity |]. simpl. now rewrite Hrest.
  - rewrite append_cons. simpl in *.
    apply andb_true_iff in Hall as [Hc Hall]. rewrite Hc. now rewrite (IH Hall).
Qed.

Lemma trim_trimStart (s : string) : trim (trimStart s) = trim s.
Proof.
  unfold trim. f_equal.
  induction s as [|c s IH]; simpl; [reflexivity |].
  destruct (isSpace c) eqn:E; [exact IH |]. simpl. now rewrite E.
Qed.

Lemma trimStart_blank_trim (s : string) : trimStart s = "" -> trim s = "".
Proof. unfold trim. now intros ->. Qed.

Lemma all_drop (p : ascii -> bool) (n : nat) (s : string) :
  all p s = true -> all p (drop n s) = true.
Proof.
  revert s; induction n as [|n IH]; intros [|c s] H; simpl in *; auto.
  apply andb_true_iff in H as [_ H]. now apply IH.
Qed.

Lemma trimStart_blank_all (s : string) : trimStart s = "" -> all isSpace s = true.
Proof.
  induction s as [|c s IH]; simpl; [reflexivity |].
  destruct (isSpace c); [auto | discriminate].
Qed.

Lemma all_space_trim (s : string) : all isSpace s = true -> trim s = "".
Proof.
  intros H. apply trimStart_blank_trim.
  induction s as [|c s IH]; simpl in *; [reflexivity |].
  apply andb_true_iff in H as [-> H]. auto.
Qed.

Lemma split_no_sep (sep : ascii) (s : string) :
  hasChar sep s = false -> split sep s = [s].
Proof.
  induction s as [|x s IH]; [reflexivity |].
  cbn [hasChar split]. rewrite (Ascii.eqb_sym x sep).
  destruct (Ascii.eqb sep x); [discriminate |].
  intros H. now rewrite (IH H).
Qed.

End StrFacts.

Module ScanFacts.
Import Str StrFacts JS TemplateEngine.

Section Scan.
Context {A : Type}.
Variable matchAt : string -> option (A * nat).
Variable callback : A -> option string.

Lemma replaceAll_skip_whole (s : string) :
  replaceAll_skip matchAt callback (String.length s) s = Some "".
Proof. induction s as [|c s IH]; simpl; [reflexivity | exact IH]. Qed.

Lemma replaceAll_skip_append (m rest : string) :
  replaceAll_skip matchAt callback (String.length m) (m +:+ rest)
  = replaceAll matchAt callback rest.
Proof.
  induction m as [|c m IH]; [destruct rest; reflexivity |].
  rewrite append_cons. simpl. exact IH.
Qed.

(** A text that is one match from its first to its last character is
    replaced by what the callback returns for it. *)
Lemma replaceAll_whole (s : string) (a : A) :
  s <> "" ->
  matchAt s = Some (a, String.length s) ->
  replaceAll matchAt callback s = callback a.
Proof.
  intros Hne Hm. destruct s as [|c s]; [congruence |].
  unfold replaceAll. simpl. rewrite Hm. simpl.
  rewrite replaceAll_skip_whole.
  destruct (callback a) as [r|]; simpl; [| reflexivity].
  now rewrite append_nil_r.
Qed.

(** Where the expression matches nowhere, the text is left as it is. *)
Lemma replaceAll_no_match (s : string) :
  (forall n, matchAt (drop n s) = None) ->
  replaceAll matchAt callback s = Some s.
Proof.
  unfold replaceAll. induction s as [|c s IH]; intros H; [reflexivity |].
  pose proof (H O) as H0. simpl in H0. simpl. rewrite H0.
  rewrite IH; [reflexivity |].
  intros n. exact (H (S n)).
Qed.

End Scan.

(** ** Texts without an opening pair of braces *)

Lemma includes_drop_false (pat s : string) (n : nat) :
  includes pat s = false -> includes pat (drop n s) = false.
Proof.
  revert s; induction n as [|n IH]; intros s H; [exact H |].
  destruct s as [|c s]; [exact H |].
  apply includes_cons_false in H as [_ H]. simpl. now apply IH.
Qed.

Lemma includes_startsWith_false (pat s : string) :
  includes pat s = false -> startsWith pat s = false.
Proof.
  unfold includes. destruct s as [|c s]; simpl.
  - destruct (startsWith pat ""); [discriminate | reflexivity].
  - destruct (startsWith pat (String c s)); [discriminate | reflexivity].
Qed.

Lemma startsWith_braces (kw s : string) :
  startsWith "{{" s = false -> startsWith ("{{" +:+ kw) s = false.
Proof.
  change ("{{" +:+ kw) with (String "{" (String "{" kw)).
  destruct s as [|a [|b s]]; cbn [startsWith]; try reflexivity.
  - destruct (Ascii.eqb "{" a); reflexivity.
  - destruct (Ascii.eqb "{" a); [| reflexivity].
    destruct (Ascii.eqb "{" b); [discriminate | reflexivity].
Qed.

Lemma matchEach_no_braces (s : string) : startsWith "{{" s = false -> matchEach s = None.
Proof.
  intros H. unfold matchEach, matchHead.
  change "{{#each" with ("{{" +:+ "#each").
  now rewrite (startsWith_braces "#each" s H).
Qed.

Lemma matchIf_no_braces (s : string) : startsWith "{{" s = false -> matchIf s = None.
Proof.
  intros H. unfold matchIf, matchHead.
  change "{{#if" with ("{{" +:+ "#if").
  now rewrite (startsWith_braces "#if" s H).
Qed.

Lemma matchVariable_no_braces (s : string) :
  startsWith "{{" s = false -> matchVariable s = None.
Proof. intros H. unfold matchVariable. now rewrite H. Qed.

(** The three passes of the engine leave a text without [{{] unchanged. *)
Lemma processTemplate_plain (stn : string -> option Z) (stack : nat) (s : string) (data : Value) :
  includes "{{" s = false ->
  processTemplate stn (S stack) s data = Some s.
Proof.
  intros H. simpl.
  destruct (String.eqb s "") eqn:E; [apply String.eqb_eq in E; now subst |].
  unfold processEachBlocks, processIfBlocks, replaceVariables.
  rewrite replaceAll_no_match.
  2:{ intros n. apply matchEach_no_braces, includes_startsWith_false.
      now apply includes_drop_false. }
  simpl. rewrite replaceAll_no_match.
  2:{ intros n. apply matchIf_no_braces, includes_startsWith_false.
      now apply includes_drop_false. }
  simpl. apply replaceAll_no_match.
  intros n. apply matchVariable_no_braces, includes_startsWith_false.
  now apply includes_drop_false.
Qed.

End ScanFacts.

(* ================================================================== *)
(** * The block directives                                             *)
(* ================================================================== *)

Module Directives.
Import Str StrFacts JS TemplateEngine ScanFacts.


Definition eachDirective (p body : string) : string :=
  "{{#each " +:+ p +:+ "}}" +:+ body +:+ "{{/each}}".

Lemma all_notBrace_head (w : ascii) (c : string) (rest : string) :
  notBrace w = true -> all notBrace c = true ->
  span notBrace (String w (c +:+ "}}" +:+ rest)) = (String w c, "}}" +:+ rest).
Proof.
  intros Hw Hc. rewrite <- append_cons. apply span_all.
  - simpl. now rewrite Hw, Hc.
  - reflexivity.
Qed.

(** The head of a block is recognised, and the capture is the written
    argument up to surrounding white space. *)
Lemma matchHead_directive (kw c rest : string) :
  String.eqb c "" = false ->
  all notBrace c = true ->
  exists arg,
    matchHead kw (kw +:+ " " +:+ c +:+ "}}" +:+ rest) = Some (arg, rest)
    /\ trim arg = trim c.
Proof.
  intros Hne Hc. unfold matchHead.
  rewrite startsWith_append, drop_append.
  change (" " +:+ c +:+ "}}" +:+ rest) with (String " " (c +:+ "}}" +:+ rest)).
  rewrite all_notBrace_head by (reflexivity || exact Hc).
  destruct c as [|c0 c']; [discriminate |].
  change (isSpace " ") with true.
  rewrite startsWith_append. cbn [andb].
  change (drop 2 ("}}" +:+ rest)) with rest.
  destruct (trimStart (String c0 c')) as [|t0 t'] eqn:Et.
  - eexists; split; [reflexivity |].
    rewrite (trimStart_blank_trim _ Et).
    apply all_space_trim, all_drop. now apply trimStart_blank_all.
  - eexists; split; [reflexivity |].
    rewrite <- Et. apply trim_trimStart.
Qed.

Lemma length_sub_nil (s : string) : (String.length s - String.length "")%nat = String.length s.
Proof. simpl. lia. Qed.


Lemma matchEach_directive (p body : string) :
  String.eqb p "" = false ->
  all notBrace p = true ->
  includes "{{/each}}" body = false ->
  exists arg,
    matchEach (eachDirective p body)
    = Some ((arg, body), String.length (eachDirective p body))
    /\ trim arg = trim p.
Proof.
  intros Hne Hc Hin.
  assert (Hd : eachDirective p body
               = "{{#each" +:+ " " +:+ p +:+ "}}" +:+ body +:+ "{{/each}}" +:+ "").
  { unfold eachDirective. reflexivity. }
  destruct (matchHead_directive "{{#each" p (body +:+ "{{/each}}" +:+ "") Hne Hc)
    as (arg & Hm & Ht).
  exists arg. split; [| exact Ht].
  unfold matchEach. rewrite Hd at 1. rewrite Hm.
  rewrite splitAt_first by (reflexivity || exact Hin).
  now rewrite length_sub_nil.
Qed.


Lemma eachDirective_nonempty (p body : string) : eachDirective p body <> "".
Proof. discriminate. Qed.

Section WithConversion.
Variable StringToNumber : string -> option Z.
Variable processTemplate_rec : string -> Value -> option string.



(** An iteration is replaced by what its callback returns for the written
    path and body. *)
Lemma processEachBlocks_directive (p body : string) (data : Value) :
  String.eqb p "" = false ->
  all notBrace p = true ->
  includes "{{/each}}" body = false ->
  processEachBlocks processTemplate_rec (eachDirective p body) data
  = match getNestedValue data (trim p) with
    | JArr _ (x :: xs) =>
        parts ← mapM (fun item => processTemplate_rec body (childContext data (x :: xs) item))
                     (x :: xs);
        Some (Str.concat parts)
    | _ => Some ""
    end.
Proof.
  intros Hne Hc Hin.
  destruct (matchEach_directive p body Hne Hc Hin) as (arg & Hm & Ht).
  unfold processEachBlocks.
  rewrite (replaceAll_whole _ _ _ _ (eachDirective_nonempty p body) Hm).
  unfold eachCallback. rewrite Ht.
  destruct (getNestedValue data (trim p)) as [| | | | |r [|x xs]| |]; reflexivity.
Qed.

End WithConversion.

End Directives.

(* ================================================================== *)
(** * Properties of the template engine                                *)
(* ================================================================== *)

Module TemplateProps.
Import Str StrFacts JS TemplateEngine ScanFacts Directives.

(** ** The context of an iteration *)

Lemma getOwn_setProp_same (k : string) (v : Value) (fields : list (string * Value)) :
  getOwn k (setProp k v fields) = Some v.
Proof.
  induction fields as [|[k' v'] fields IH]; simpl.
  - now rewrite String.eqb_refl.
  - destruct (String.eqb k k') eqn:E; simpl; [now rewrite String.eqb_refl |].
    now rewrite E.
Qed.

Lemma getOwn_setProp_other (k k' : string) (v : Value) (fields : list (string * Value)) :
  String.eqb k' k = false ->
  getOwn k' (setProp k v fields) = getOwn k' fields.
Proof.
  intros Hne. induction fields as [|[k0 v0] fields IH]; simpl.
  - now rewrite Hne.
  - destruct (String.eqb k k0) eqn:E; simpl.
    + apply String.eqb_eq in E. subst k0. now rewrite Hne.
    + destruct (String.eqb k' k0); [reflexivity | exact IH].
Qed.

Lemma childContext_parent (data : Value) (items : list Value) (item : Value) :
  getProp (childContext data items item) "_parent" = data.
Proof.
  unfold childContext, getProp.
  rewrite getOwn_setProp_other by reflexivity.
  now rewrite getOwn_setProp_same.
Qed.

Lemma childContext_index (data : Value) (items : list Value) (item : Value) :
  getProp (childContext data items item) "_index" = JNum (indexOf items item).
Proof. unfold childContext, getProp. now rewrite getOwn_setProp_same. Qed.

Lemma strictEq_refl (v : Value) : strictEq v v = true.
Proof.
  destruct v as [| |b|n|s|r ?|r ?|r ? ?]; simpl; try reflexivity.
  - now destruct b.
  - apply Z.eqb_refl.
  - apply String.eqb_refl.
  - destruct r; simpl; apply Nat.eqb_refl.
  - destruct r; simpl; apply Nat.eqb_refl.
  - destruct r; simpl; apply Nat.eqb_refl.
Qed.

Lemma indexOf_from_first (items : list Value) (i : nat) (base : Z) (x : Value) :
  nth_error items i = Some x ->
  (forall j y, (j < i)%nat -> nth_error items j = Some y -> strictEq y x = false) ->
  indexOf_from base items x = base + Z.of_nat i.
Proof.
  revert i base.
  induction items as [|y items IH]; intros i base Hnth Hdist.
  - destruct i; discriminate.
  - destruct i as [|i]; simpl in *.
    + injection Hnth as ->. rewrite strictEq_refl. lia.
    + rewrite (Hdist O y) by (lia || reflexivity).
      rewrite (IH i (base + 1) Hnth).
      * lia.
      * intros j z Hj Hz. apply (Hdist (S j) z); [lia | exact Hz].
Qed.

(** [indexOf] finds the position of an element when no earlier element is
    strictly equal to it. *)
Lemma indexOf_first (items : list Value) (i : nat) (x : Value) :
  nth_error items i = Some x ->
  (forall j y, (j < i)%nat -> nth_error items j = Some y -> strictEq y x = false) ->
  indexOf items x = Z.of_nat i.
Proof.
  intros Hnth Hdist. unfold indexOf.
  now rewrite (indexOf_from_first items i 0 x Hnth Hdist).
Qed.

(** ** The comparison operators of a condition *)






Definition flagOn : Value := JObj (Addr 1) [("flag", JBool true)].


(** The reads the theorem speaks of: a property of the context, or a name
    that is missing and not inherited. A name such as [toString] is found on
    the prototype of every object and is not one of them. *)
Example reads_of_the_context :
  ownRead flagOn "flag" = true
  /\ ownRead flagOn "missing" = true
  /\ ownRead flagOn "toString" = false
  /\ ownRead (JObj (Addr 1) [("toString", JStr "own")]) "toString" = true
  /\ ownPath (JObj (Addr 1) [("n", JNum 3)]) "n.toFixed" = false.
Proof. vm_compute. repeat split; reflexivity. Qed.


(** A condition with an unknown operator is not false when the context has
    a property of that very name. *)
Example unknown_operator_is_a_path :
  evalCondition decimalToNumber (JObj (Addr 1) [("a foo b", JBool true)]) "a foo b" = true.
Proof. vm_compute. reflexivity. Qed.

(** A condition whose words are separated by tabs only is read as one path. *)
Example tab_separated_is_a_path :
  evalCondition decimalToNumber (JObj (Addr 1) [("a", JNum 1)]) "a	==	a" = false.
Proof. vm_compute. reflexivity. Qed.

(** ** Iteration *)

(** C5 at a sequence with a repeated element: [_index] is
    [items.indexOf(item)], the first position of a strictly equal element,
    so both iterations over ["a", "a"] see index 0 and the second one does
    not see its position 1. *)
Theorem C5_index_of_repeated_element :
  processTemplate decimalToNumber 16 (eachDirective "xs" "{{_index}}")
    (JObj (Addr 1) [("xs", JArr (Addr 2) [JStr "a"; JStr "a"])])
  = Some "00".
Proof. vm_compute. reflexivity. Qed.

(** With elements that are pairwise different under [===] the index is the
    position. *)
Example each_index_distinct :
  processTemplate decimalToNumber 16 (eachDirective "xs" "{{_index}}{{v}};")
    (JObj (Addr 1) [("xs", JArr (Addr 2) [JObj (Addr 3) [("v", JStr "a")];
                                         JObj (Addr 4) [("v", JStr "a")]])])
  = Some "0a;1a;".
Proof. vm_compute. reflexivity. Qed.

(** ** Idempotence *)

(** C9, as the code has it. Evaluating the output of an evaluation again,
    against the same context, returns it unchanged whenever that output
    contains no opening pair of braces. *)
Theorem C9_idempotent_without_braces
    (stn : string -> option Z) (stack : nat) (template : string) (data : Value)
    (out : string) :
  processTemplate stn stack template data = Some out ->
  includes "{{" out = false ->
  processTemplate stn stack out data = Some out.
Proof.
  intros Hrun Hplain. destruct stack as [|stack]; [discriminate |].
  now apply processTemplate_plain.
Qed.

Definition siteContext : Value :=
  JObj (Addr 1) [("site", JObj (Addr 2) [("title", JStr "Blog")])].

Lemma C9_idempotent_without_braces_witness :
  processTemplate decimalToNumber 4 "<h1>Blog</h1>" siteContext = Some "<h1>Blog</h1>".
Proof.
  apply (C9_idempotent_without_braces decimalToNumber 4 "<h1>{{site.title}}</h1>"
           siteContext "<h1>Blog</h1>").
  - vm_compute. reflexivity.
  - vm_compute. reflexivity.
Defined.

(** A value of the context that contains a variable reference: the first
    evaluation produces the text [{{y}}], the second one reads that text as
    a directive and produces [Z]. *)
Lemma C9_counterexample :
  let data := JObj (Addr 1) [("x", JStr "{{y}}"); ("y", JStr "Z")] in
  processTemplate decimalToNumber 16 "{{x}}" data = Some "{{y}}"
  /\ processTemplate decimalToNumber 16 "{{y}}" data = Some "Z"
  /\ processTemplate decimalToNumber 16 "{{y}}" data <> Some "{{y}}".
Proof. vm_compute. repeat split; try reflexivity. discriminate. Qed.

(** The recursion of the engine need not end: the body of the iteration
    evaluates to a conditional whose branch is the template itself, and
    every bound on the call stack is exceeded. *)
Definition loopTemplate : string := eachDirective "xs" "{{v}}".
Definition loopContext : Value :=
  JObj (Addr 1)
    [("xs", JArr (Addr 2)
              [JObj (Addr 3) [("v", JStr "{{#if xs}}{{#each xs}}{{v}}{{/each}}{{/if}}")]])].

Example loop_exhausts_small_stacks :
  processTemplate decimalToNumber 40 loopTemplate loopContext = None.
Proof. vm_compute. reflexivity. Qed.

(** ** The bound on the call stack

    A result obtained within some bound on the depth of the recursion is
    the result for every larger bound. *)

Lemma replaceAll_skip_mono {A : Type} (matchAt : string -> option (A * nat))
    (callback callback' : A -> option string) :
  (forall a r, callback a = Some r -> callback' a = Some r) ->
  forall s skip r,
    replaceAll_skip matchAt callback skip s = Some r ->
    replaceAll_skip matchAt callback' skip s = Some r.
Proof.
  intros Hcb s. induction s as [|c s IH]; intros skip r; [auto |].
  cbn [replaceAll_skip]. destruct skip as [|k]; [| apply IH].
  destruct (matchAt (String c s)) as [[a len]|].
  - destruct (callback a) as [x|] eqn:Ea; [| discriminate].
    rewrite (Hcb a x Ea). cbn.
    destruct (replaceAll_skip matchAt callback (Nat.pred len) s) as [t|] eqn:Et;
      [| discriminate].
    now rewrite (IH _ _ Et).
  - cbn. destruct (replaceAll_skip matchAt callback 0 s) as [t|] eqn:Et; [| discriminate].
    now rewrite (IH _ _ Et).
Qed.

Section Monotone.
Variable stn : string -> option Z.
Variables rec rec' : string -> Value -> option string.
Hypothesis rec_le : forall t d r, rec t d = Some r -> rec' t d = Some r.

Lemma eachCallback_mono (data : Value) (m : string * string) (r : string) :
  eachCallback rec data m = Some r -> eachCallback rec' data m = Some r.
Proof.
  destruct m as [itemsPath blockContent]. unfold eachCallback.
  destruct (getNestedValue data (trim itemsPath)) as [| | | | |ref [|x xs]| |]; auto.
  destruct (mapM _ (x :: xs)) as [parts|] eqn:E; [| discriminate].
  apply mapM_Some in E.
  assert (E' : mapM (fun item => rec' blockContent (childContext data (x :: xs) item))
                 (x :: xs) = Some parts).
  { apply mapM_Some. eapply Forall2_impl; [exact E |]. intros item part. apply rec_le. }
  now rewrite E'.
Qed.

Lemma ifCallback_mono (data : Value) (m : string * string * string) (r : string) :
  ifCallback stn rec data m = Some r -> ifCallback stn rec' data m = Some r.
Proof.
  destruct m as [[condition ifContent] elseContent]. unfold ifCallback.
  destruct (evalCondition stn data condition); apply rec_le.
Qed.

End Monotone.

Lemma processTemplate_S (stn : string -> option Z) (stack : nat) (template : string)
    (data : Value) :
  processTemplate stn (S stack) template data
  = if String.eqb template "" then Some ""
    else
      processed ← processEachBlocks (processTemplate stn stack) template data;
      processed ← processIfBlocks stn (processTemplate stn stack) processed data;
      replaceVariables processed data.
Proof. reflexivity. Qed.

Lemma processTemplate_deeper (stn : string -> option Z) (stack : nat) :
  forall template data r,
    processTemplate stn stack template data = Some r ->
    processTemplate stn (S stack) template data = Some r.
Proof.
  induction stack as [|stack IH]; intros template data r; [discriminate |].
  rewrite (processTemplate_S stn (S stack)), (processTemplate_S stn stack).
  destruct (String.eqb template ""); [auto |].
  unfold processEachBlocks, processIfBlocks, replaceAll.
  destruct (replaceAll_skip matchEach (eachCallback (processTemplate stn stack) data) 0 template)
    as [p1|] eqn:E1; [| discriminate].
  rewrite (replaceAll_skip_mono matchEach _ (eachCallback (processTemplate stn (S stack)) data)
             (eachCallback_mono _ _ IH data) _ _ _ E1).
  cbn [mbind option_bind].
  destruct (replaceAll_skip matchIf (ifCallback stn (processTemplate stn stack) data) 0 p1)
    as [p2|] eqn:E2; [| discriminate].
  now rewrite (replaceAll_skip_mono matchIf _
                 (ifCallback stn (processTemplate stn (S stack)) data)
                 (ifCallback_mono stn _ _ IH data) _ _ _ E2).
Qed.

Lemma processTemplate_stack (stn : string -> option Z) (stack stack' : nat)
    (template : string) (data : Value) (r : string) :
  (stack <= stack')%nat ->
  processTemplate stn stack template data = Some r ->
  processTemplate stn stack' template data = Some r.
Proof.
  intros Hle H. induction Hle as [|m Hle IH]; [exact H |].
  now apply processTemplate_deeper.
Qed.

(** ** The pagination window *)

(** C8. For a page number within [1, totalPages], the window starts at
    [max 1 (currentPage - 2)] and ends at [min totalPages (currentPage + 2)];
    when that span has fewer than 5 pages and there are more than 4 pages,
    it is widened away from the edge it touches, up to 5 pages. The flags
    say whether page 1 and the last page lie outside the window and whether
    more than one page lies between. *)
Theorem C8_pagination_window (currentPage totalPages : Z) :
  1 <= currentPage <= totalPages ->
  let p := calculatePagination currentPage totalPages defaultRange in
  let s0 := Z.max 1 (currentPage - 2) in
  let e0 := Z.min totalPages (currentPage + 2) in
  (if (e0 - s0 + 1 <? 5) && (totalPages >? 4)
   then (s0 = 1 -> startPage p = 1 /\ endPage p = Z.min totalPages (1 + 4))
        /\ (s0 <> 1 ->
            e0 = totalPages /\ endPage p = totalPages
            /\ startPage p = Z.max 1 (totalPages - 4))
   else startPage p = s0 /\ endPage p = e0)
  /\ 1 <= startPage p <= currentPage /\ currentPage <= endPage p <= totalPages
  /\ (totalPages > 4 -> endPage p - startPage p + 1 = 5)
  /\ (showFirst p = true <-> ~ (startPage p <= 1 <= endPage p))
  /\ (showLast p = true <-> ~ (startPage p <= totalPages <= endPage p))
  /\ (showFirstEllipsis p = true <-> startPage p - 1 > 1)
  /\ (showLastEllipsis p = true <-> totalPages - endPage p > 1)
  /\ calculatePagination 5 10 defaultRange = mkPagination 3 7 true true true true.
Proof.
  intros Hrange p s0 e0. subst p s0 e0.
  unfold calculatePagination, defaultRange.
  rewrite !Z.gtb_ltb.
  destruct (Z.ltb_spec (Z.min totalPages (currentPage + 2) - Z.max 1 (currentPage - 2)) 4);
  destruct (Z.ltb_spec 4 totalPages);
  destruct (Z.eqb_spec (Z.max 1 (currentPage - 2)) 1);
  destruct (Z.eqb_spec (Z.min totalPages (currentPage + 2)) totalPages);
  destruct (Z.ltb_spec (Z.min totalPages (currentPage + 2) - Z.max 1 (currentPage - 2) + 1) 5);
  cbn [andb startPage endPage showFirst showFirstEllipsis showLast showLastEllipsis];
  rewrite ?Z.ltb_lt;
  repeat split; intros; try lia.
Qed.

Lemma C8_pagination_window_witness :
  startPage (calculatePagination 5 10 defaultRange) = 3
  /\ endPage (calculatePagination 5 10 defaultRange) = 7.
Proof.
  pose proof (C8_pagination_window 5 10 ltac:(lia)) as H.
  cbv zeta in H. destruct H as [H _].
  vm_compute in H. exact H.
Defined.

End TemplateProps.

(* ================================================================== *)
(** * Properties of the template loader *)
(* ================================================================== *)

Module LoaderProps.
Import JS TemplateLoader.

Section Facts.
Variable pathJoin : list string -> string.
Variable cwd : string.
Variable dirname : string.

Local Abbreviation path := (templatePath pathJoin cwd).
Local Abbreviation fallback := (engineDefaultPath pathJoin dirname).
Local Abbreviation load := (loadTemplate pathJoin cwd dirname).
Local Abbreviation hit := (cached pathJoin cwd).

Lemma cached_after_insert (site : SiteConfig) (cache : gmap string string)
    (name t : string) :
  truthy (cacheTemplates site) = true -> t <> "" ->
  hit site (<[path site name := t]> cache) name = Some t.
Proof.
  intros Hon Hne. unfold cached. rewrite Hon, lookup_insert_eq.
  destruct (String.eqb_spec t ""); [contradiction | reflexivity].
Qed.

Lemma cached_nonempty (site : SiteConfig) (cache : gmap string string) (name t : string) :
  hit site cache name = Some t ->
  truthy (cacheTemplates site) = true /\ cache !! path site name = Some t /\ t <> "".
Proof.
  unfold cached. destruct (truthy (cacheTemplates site)); [| discriminate].
  destruct (cache !! path site name) as [u|]; [| discriminate].
  destruct (String.eqb_spec u ""); [discriminate |].
  intros [= ->]. auto.
Qed.

Lemma cached_off (site : SiteConfig) (cache : gmap string string) (name : string) :
  truthy (cacheTemplates site) = false -> hit site cache name = None.
Proof. unfold cached. now intros ->. Qed.

Lemma load_miss (fs : string -> option string) (site : SiteConfig)
    (cache : gmap string string) (name : string) :
  hit site cache name = None ->
  content (load fs site cache name) = resolved pathJoin cwd dirname fs site name.
Proof.
  intros Hmiss. unfold loadTemplate, resolved. rewrite Hmiss.
  destruct (fs (path site name)); [reflexivity |].
  destruct (fs (fallback name)); reflexivity.
Qed.

(** A cache whose entry for the template, if any, is empty or the text the
    resolution order designates. *)
Definition sound (fs : string -> option string) (site : SiteConfig)
    (cache : gmap string string) (name : string) : Prop :=
  forall t, cache !! path site name = Some t ->
            t = "" \/ t = resolved pathJoin cwd dirname fs site name.

Lemma load_sound (fs : string -> option string) (site : SiteConfig)
    (cache : gmap string string) (name : string) :
  sound fs site cache name ->
  content (load fs site cache name) = resolved pathJoin cwd dirname fs site name
  /\ sound fs site (cacheAfter (load fs site cache name)) name.
Proof.
  intros Hs. destruct (hit site cache name) as [t|] eqn:Hc.
  - destruct (cached_nonempty _ _ _ _ Hc) as (_ & Hl & Hne).
    unfold loadTemplate. rewrite Hc. simpl. split; [| exact Hs].
    destruct (Hs t Hl); [contradiction | assumption].
  - split; [now apply load_miss |].
    unfold loadTemplate, remember, sound in *. rewrite Hc.
    destruct (fs (path site name)) as [u|] eqn:E1; simpl.
    + destruct (truthy (cacheTemplates site)); [| exact Hs].
      intros t. rewrite lookup_insert_eq. intros [= <-].
      right. unfold resolved. now rewrite E1.
    + destruct (fs (fallback name)) as [u|] eqn:E2; simpl; [| exact Hs].
      destruct (truthy (cacheTemplates site)); [| exact Hs].
      intros t. rewrite lookup_insert_eq. intros [= <-].
      right. unfold resolved. now rewrite E1, E2.
Qed.

Lemma loadRepeatedly_sound (fs : string -> option string) (site : SiteConfig)
    (name : string) (n : nat) (cache : gmap string string) :
  sound fs site cache name ->
  Forall (eq (resolved pathJoin cwd dirname fs site name))
         (loadRepeatedly pathJoin cwd dirname fs site cache name n).
Proof.
  revert cache. induction n as [|n IH]; intros cache Hs; [constructor |].
  destruct (load_sound fs site cache name Hs) as [Hc Hs'].
  cbn [loadRepeatedly]. constructor; [now rewrite Hc | now apply IH].
Qed.

Lemma load_stores (fs : string -> option string) (site : SiteConfig)
    (cache : gmap string string) (name : string) :
  truthy (cacheTemplates site) = true ->
  content (load fs site cache name) <> "" ->
  hit site (cacheAfter (load fs site cache name)) name
  = Some (content (load fs site cache name)).
Proof.
  intros Hon. unfold loadTemplate.
  destruct (hit site cache name) as [t|] eqn:Hc; cbn [content cacheAfter]; [now intros _ |].
  unfold remember. rewrite Hon.
  destruct (fs (path site name)) as [u|]; cbn [content cacheAfter].
  - intros Hne. now apply cached_after_insert.
  - destruct (fs (fallback name)) as [u|]; cbn [content cacheAfter].
    + intros Hne. now apply cached_after_insert.
    + intros Hne. now contradiction Hne.
Qed.

(** [loadTemplate] never raises: it is a total function returning a
    text. When the cache does not answer, the text is the content of the
    project's file for the name if that file can be read, otherwise the
    content of the built-in default file, and otherwise the empty string
    with the failure logged. With caching enabled in the configuration a text
    read from storage is stored under the path of the template, a stored
    non-empty text is returned by the following calls without reading
    storage, and on an unchanged file system every call from an empty cache
    on returns the text the resolution order designates. With caching
    disabled the cache is neither read nor written and every call reads
    storage again. *)
Theorem loadTemplate_resolution
    (fs fs' : string -> option string) (site : SiteConfig)
    (cache : gmap string string) (name : string) :
  let r := load fs site cache name in
  (hit site cache name = None ->
   (forall t, fs (path site name) = Some t -> content r = t /\ errors r = [])
   /\ (fs (path site name) = None ->
       forall t, fs (fallback name) = Some t -> content r = t /\ errors r = [])
   /\ (fs (path site name) = None -> fs (fallback name) = None ->
       content r = "" /\ cacheAfter r = cache /\ errors r <> []))
  /\ (truthy (cacheTemplates site) = true -> hit site cache name = None ->
      (fs (path site name) <> None \/ fs (fallback name) <> None) ->
      cacheAfter r = <[path site name := content r]> cache)
  /\ (truthy (cacheTemplates site) = true -> content r <> "" ->
      load fs' site (cacheAfter r) name
      = {| content := content r; cacheAfter := cacheAfter r; errors := [] |})
  /\ (forall n,
      Forall (eq (resolved pathJoin cwd dirname fs site name))
             (loadRepeatedly pathJoin cwd dirname fs site ∅ name n))
  /\ (truthy (cacheTemplates site) = false ->
      forall cache',
        content (load fs' site cache' name) = resolved pathJoin cwd dirname fs' site name
        /\ cacheAfter (load fs' site cache' name) = cache').
Proof.
  intros r. subst r. split; [| split; [| split; [| split]]].
  - intros Hmiss. split; [| split].
    + intros t Hf. unfold loadTemplate. rewrite Hmiss, Hf. auto.
    + intros Hf t Hd. unfold loadTemplate. rewrite Hmiss, Hf, Hd. auto.
    + intros Hf Hd. unfold loadTemplate. rewrite Hmiss, Hf, Hd. simpl.
      split; [reflexivity | split; [reflexivity | discriminate]].
  - intros Hon Hmiss Hsome. unfold loadTemplate, remember. rewrite Hmiss, Hon.
    destruct (fs (path site name)); [reflexivity |].
    destruct (fs (fallback name)); [reflexivity |].
    destruct Hsome; congruence.
  - intros Hon Hne. unfold loadTemplate at 1.
    now rewrite (load_stores fs site cache name Hon Hne).
  - intros n. apply loadRepeatedly_sound. intros t. now rewrite lookup_empty.
  - intros Hoff cache'. split; [apply load_miss; now apply cached_off |].
    unfold loadTemplate, remember. rewrite (cached_off _ _ _ Hoff), Hoff.
    destruct (fs' (path site name)); [reflexivity |].
    destruct (fs' (fallback name)); reflexivity.
Qed.

End Facts.

(** A project with an override for [post] and none for [tags]. *)
Definition joinSlash (parts : list string) : string := Str.join "/" parts.

Definition projectFiles (p : string) : option string :=
  if String.eqb p "/site/templates/post.html" then Some "<article>{{content}}</article>"
  else if String.eqb p "/engine/lib/../defaults/templates/post.html" then Some "<div>{{content}}</div>"
  else if String.eqb p "/engine/lib/../defaults/templates/tags.html" then Some "<ul>{{tag_links}}</ul>"
  else None.

Definition cachingSite : SiteConfig :=
  {| templatesDir := "/site/templates"; cacheTemplates := JBool true |}.

Definition defaultSite : SiteConfig :=
  {| templatesDir := "/site/templates"; cacheTemplates := JUndefined |}.

Example override_first :
  content (loadTemplate joinSlash "/site" "/engine/lib" projectFiles cachingSite ∅ "post")
  = "<article>{{content}}</article>".
Proof. reflexivity. Qed.

Example default_second :
  content (loadTemplate joinSlash "/site" "/engine/lib" projectFiles cachingSite ∅ "tags")
  = "<ul>{{tag_links}}</ul>".
Proof. reflexivity. Qed.

Example neither_is_empty :
  content (loadTemplate joinSlash "/site" "/engine/lib" projectFiles cachingSite ∅ "nope") = ""
  /\ length (errors (loadTemplate joinSlash "/site" "/engine/lib" projectFiles cachingSite ∅ "nope")) = 2%nat.
Proof. split; reflexivity. Qed.

(** The site configuration has no [cacheTemplates] property unless the
    project's configuration file sets one: nothing is stored then. *)
Example nothing_stored_without_the_flag :
  cacheAfter (loadTemplate joinSlash "/site" "/engine/lib" projectFiles defaultSite ∅ "post") = ∅.
Proof. reflexivity. Qed.

(** The project after its template for [post] has been rewritten. *)
Definition editedFiles (p : string) : option string :=
  if String.eqb p "/site/templates/post.html" then Some "<main>{{content}}</main>"
  else projectFiles p.

(** C6, where the code departs from it. The flag loadTemplate tests is
    [cacheTemplates] of the site configuration, a property the validated
    defaults do not have, and not the one of the module configuration, which
    is on by default and which updateConfig sets. Under a site configuration
    without the property, whatever the file system, the cache and the name,
    a successful load stores nothing and the next load reads storage again.
    In the project above the template [post] is loaded, rewritten on disk
    and loaded again: the second call returns the new text and the cache is
    still empty. The resolution itself is as described and goes by the name:
    [post] comes from the project, [tags] from the built-in defaults, and a
    name found in neither place gives the empty text, both failures being
    logged. *)
Theorem C6_nothing_memoized_by_default :
  (forall (pathJoin : list string -> string) (cwd dirname : string)
          (fs fs' : string -> option string) (dir : string)
          (cache : gmap string string) (name : string),
      let site := {| templatesDir := dir; cacheTemplates := JUndefined |} in
      let first := loadTemplate pathJoin cwd dirname fs site cache name in
      cacheAfter first = cache
      /\ content (loadTemplate pathJoin cwd dirname fs' site (cacheAfter first) name)
         = resolved pathJoin cwd dirname fs' site name)
  /\ (let first :=
        loadTemplate joinSlash "/site" "/engine/lib" projectFiles defaultSite ∅ "post" in
      let second :=
        loadTemplate joinSlash "/site" "/engine/lib" editedFiles defaultSite
          (cacheAfter first) "post" in
      content first = "<article>{{content}}</article>"
      /\ cacheAfter first = ∅
      /\ content second = "<main>{{content}}</main>"
      /\ content second <> content first)
  /\ content (loadTemplate joinSlash "/site" "/engine/lib" projectFiles defaultSite ∅ "tags")
     = "<ul>{{tag_links}}</ul>"
  /\ loadTemplate joinSlash "/site" "/engine/lib" projectFiles defaultSite ∅ "nope"
     = {| content := "";
          cacheAfter := ∅;
          errors := [ "Error loading template nope:";
                      "Also tried engine default at /engine/lib/../defaults/templates/nope.html:" ] |}.
Proof.
  split; [| split; [| split]].
  - intros pathJoin cwd dirname fs fs' dir cache name site first. subst first.
    assert (Hoff : truthy (cacheTemplates site) = false) by reflexivity.
    assert (Hkeep : cacheAfter (loadTemplate pathJoin cwd dirname fs site cache name) = cache).
    { unfold loadTemplate, remember. rewrite (cached_off _ _ _ _ _ Hoff), Hoff.
      destruct (fs (templatePath pathJoin cwd site name)); [reflexivity |].
      destruct (fs (engineDefaultPath pathJoin dirname name)); reflexivity. }
    split; [exact Hkeep |].
    apply load_miss. now apply cached_off.
  - cbv zeta. repeat split; try reflexivity. discriminate.
  - reflexivity.
  - reflexivity.
Qed.

End LoaderProps.

(* ================================================================== *)
(** * Properties of the content pipeline                               *)
(* ================================================================== *)

Module ObjectFacts.
Import JS TemplateProps.

Definition keys (o : list (string * Value)) : list string := map fst o.

Lemma getOwn_None_keys (k : string) (o : list (string * Value)) :
  getOwn k o = None <-> ~ In k (keys o).
Proof.
  induction o as [|[k' v] o IH]; simpl; [tauto |].
  destruct (String.eqb_spec k k') as [->|Hne].
  - split; [discriminate | intros H; contradict H; now left].
  - rewrite IH. split; [intros H [E|E]; [congruence | tauto] | tauto].
Qed.

Lemma keys_setProp (k : string) (v : Value) (o : list (string * Value)) :
  forall k', In k' (keys (setProp k v o)) <-> k' = k \/ In k' (keys o).
Proof.
  intros k'. induction o as [|[k0 v0] o IH]; simpl.
  - split; [intros [E|[]]; auto | intros [E|[]]; auto].
  - destruct (String.eqb_spec k k0) as [->|Hne]; simpl.
    + split; intros H; intuition (subst; auto).
    + rewrite IH. split; intros H; intuition (subst; auto).
Qed.

Lemma NoDup_setProp (k : string) (v : Value) (o : list (string * Value)) :
  List.NoDup (keys o) -> List.NoDup (keys (setProp k v o)).
Proof.
  induction o as [|[k0 v0] o IH]; simpl; intros Hnd.
  - constructor; [simpl; tauto | constructor].
  - change (keys ((k0, v0) :: o)) with (k0 :: keys o) in Hnd.
    apply List.NoDup_cons_iff in Hnd as [Hin Hnd].
    destruct (String.eqb_spec k k0) as [->|Hne]; simpl.
    + apply List.NoDup_cons_iff. auto.
    + apply List.NoDup_cons_iff. split; [| auto].
      rewrite (keys_setProp k v o k0). intros [E|E]; [congruence | tauto].
Qed.

Lemma NoDup_spreadInto (a b : list (string * Value)) :
  List.NoDup (keys a) -> List.NoDup (keys (spreadInto a b)).
Proof.
  unfold spreadInto. revert a. induction b as [|[k v] b IH]; intros a Ha; simpl; [exact Ha |].
  apply IH. now apply NoDup_setProp.
Qed.

(** [{...a, ...b}] reads as [b] where [b] has the property and as [a]
    elsewhere. *)
Lemma getOwn_spreadInto (k : string) (a b : list (string * Value)) :
  List.NoDup (keys b) ->
  getOwn k (spreadInto a b)
  = match getOwn k b with Some v => Some v | None => getOwn k a end.
Proof.
  unfold spreadInto. revert a. induction b as [|[k0 v0] b IH]; intros a Hnd; simpl; [reflexivity |].
  change (keys ((k0, v0) :: b)) with (k0 :: keys b) in Hnd.
  apply List.NoDup_cons_iff in Hnd as [Hin Hnd].
  rewrite (IH _ Hnd).
  destruct (String.eqb_spec k k0) as [->|Hne].
  - apply getOwn_None_keys in Hin. rewrite Hin.
    apply getOwn_setProp_same.
  - destruct (getOwn k b); [reflexivity |].
    apply getOwn_setProp_other. now apply String.eqb_neq.
Qed.

Lemma getOwn_spread_copy (k : string) (data : list (string * Value)) :
  List.NoDup (keys data) -> getOwn k (spreadInto [] data) = getOwn k data.
Proof.
  intros Hnd. rewrite (getOwn_spreadInto k [] data Hnd).
  now destruct (getOwn k data).
Qed.

End ObjectFacts.

Module ContentProps.
Import Str StrFacts JS TemplateProps ObjectFacts MarkdownProcessor SiteBuilder.

(** ** The defaults for date, title and author *)

(** The three steps in a row, as processPostFile performs them. *)
Definition defaulted (w : World) (config : ContentConfig) (filePath filename : string)
    (postData : list (string * Value)) : option (list (string * Value) * list string) :=
  match withDate w filePath filename postData with
  | Some (pd1, log2) =>
      let '(pd2, log3) := withTitle filename pd1 in
      Some (withAuthor config pd2, log2 ++ log3)
  | None => None
  end.

Lemma withDate_spec (w : World) (filePath filename : string)
    (pd pd1 : list (string * Value)) (log : list string) :
  withDate w filePath filename pd = Some (pd1, log) ->
  (truthy (prop pd "date") = true /\ pd1 = pd /\ log = [])
  \/ (truthy (prop pd "date") = false /\ log <> [] /\
      exists iso, statMtime w filePath = Some iso
                  /\ pd1 = setProp "date" (JStr (datePart iso)) pd).
Proof.
  unfold withDate. destruct (truthy (prop pd "date")).
  - intros [= <- <-]. now left.
  - destruct (statMtime w filePath) as [iso|]; [| discriminate].
    intros [= <- <-]. right. split; [reflexivity |]. split; [discriminate |].
    now exists iso.
Qed.

Lemma withTitle_spec (filename : string) (pd : list (string * Value)) :
  (truthy (prop pd "title") = true /\ withTitle filename pd = (pd, []))
  \/ (truthy (prop pd "title") = false /\
      fst (withTitle filename pd) = setProp "title" (JStr (titleFromFilename filename)) pd
      /\ snd (withTitle filename pd) <> []).
Proof.
  unfold withTitle. destruct (truthy (prop pd "title")).
  - now left.
  - right. split; [reflexivity |]. split; [reflexivity | discriminate].
Qed.

Lemma prop_setProp_same (k : string) (v : Value) (o : list (string * Value)) :
  prop (setProp k v o) k = v.
Proof. unfold prop. now rewrite getOwn_setProp_same. Qed.

Lemma getOwn_setProp_ne (k k' : string) (v : Value) (o : list (string * Value)) :
  k' <> k -> getOwn k' (setProp k v o) = getOwn k' o.
Proof. intros H. apply getOwn_setProp_other. now apply String.eqb_neq. Qed.

Lemma getOwn_withAuthor_other (config : ContentConfig) (pd : list (string * Value)) (k : string) :
  k <> "author" -> getOwn k (withAuthor config pd) = getOwn k pd.
Proof.
  intros H. unfold withAuthor.
  destruct (negb (truthy (prop pd "author")) && truthy (defaultAuthor config));
    [now apply getOwn_setProp_ne | reflexivity].
Qed.

Lemma getOwn_withTitle_other (filename : string) (pd : list (string * Value)) (k : string) :
  k <> "title" -> getOwn k (fst (withTitle filename pd)) = getOwn k pd.
Proof.
  intros H. unfold withTitle.
  destruct (truthy (prop pd "title")); [reflexivity | now apply getOwn_setProp_ne].
Qed.

Lemma getOwn_withDate_other (w : World) (filePath filename : string)
    (pd pd1 : list (string * Value)) (log : list string) (k : string) :
  withDate w filePath filename pd = Some (pd1, log) ->
  k <> "date" -> getOwn k pd1 = getOwn k pd.
Proof.
  intros Hd Hk. destruct (withDate_spec _ _ _ _ _ _ Hd) as [(_ & -> & _) | (_ & _ & iso & _ & ->)];
    [reflexivity | now apply getOwn_setProp_ne].
Qed.

Lemma NoDup_defaulted (w : World) (config : ContentConfig) (filePath filename : string)
    (pd pd' : list (string * Value)) (log : list string) :
  defaulted w config filePath filename pd = Some (pd', log) ->
  List.NoDup (keys pd) -> List.NoDup (keys pd').
Proof.
  unfold defaulted. destruct (withDate w filePath filename pd) as [[pd1 log2]|] eqn:Hd;
    [| discriminate].
  destruct (withTitle filename pd1) as [pd2 log3] eqn:Ht. intros [= <- <-] Hnd.
  assert (H1 : List.NoDup (keys pd1)).
  { destruct (withDate_spec _ _ _ _ _ _ Hd) as [(_ & -> & _) | (_ & _ & iso & _ & ->)];
      [exact Hnd | now apply NoDup_setProp]. }
  assert (H2 : List.NoDup (keys pd2)).
  { unfold withTitle in Ht. destruct (truthy (prop pd1 "title")); injection Ht as <- <-;
      [exact H1 | now apply NoDup_setProp]. }
  unfold withAuthor.
  destruct (negb (truthy (prop pd2 "author")) && truthy (defaultAuthor config));
    [now apply NoDup_setProp | exact H2].
Qed.

(** A property other than the three keeps the value of the metadata. *)
Lemma defaulted_other (w : World) (config : ContentConfig) (filePath filename : string)
    (pd pd' : list (string * Value)) (log : list string) (k : string) :
  defaulted w config filePath filename pd = Some (pd', log) ->
  k <> "title" -> k <> "date" -> k <> "author" ->
  getOwn k pd' = getOwn k pd.
Proof.
  unfold defaulted. destruct (withDate w filePath filename pd) as [[pd1 log2]|] eqn:Hd;
    [| discriminate].
  destruct (withTitle filename pd1) as [pd2 log3] eqn:Ht. intros [= <- <-] H1 H2 H3.
  rewrite getOwn_withAuthor_other by exact H3.
  replace pd2 with (fst (withTitle filename pd1)) by now rewrite Ht.
  rewrite getOwn_withTitle_other by exact H1.
  now apply (getOwn_withDate_other _ _ _ _ _ _ _ Hd).
Qed.

(** The title after the defaults: the metadata's when truthy, otherwise the
    one made from the file name, with a warning. *)
Lemma defaulted_title (w : World) (config : ContentConfig) (filePath filename : string)
    (pd pd' : list (string * Value)) (log : list string) :
  defaulted w config filePath filename pd = Some (pd', log) ->
  prop pd' "title"
  = (if truthy (prop pd "title") then prop pd "title"
     else JStr (titleFromFilename filename))
  /\ (truthy (prop pd "title") = false -> log <> []).
Proof.
  unfold defaulted. destruct (withDate w filePath filename pd) as [[pd1 log2]|] eqn:Hd;
    [| discriminate].
  destruct (withTitle filename pd1) as [pd2 log3] eqn:Ht. intros [= <- <-].
  assert (Hp : prop pd1 "title" = prop pd "title").
  { unfold prop. now rewrite (getOwn_withDate_other _ _ _ _ _ _ "title" Hd). }
  unfold prop at 1. rewrite getOwn_withAuthor_other by discriminate.
  fold (prop pd2 "title"). unfold withTitle in Ht. rewrite Hp in Ht.
  destruct (truthy (prop pd "title")); injection Ht as <- <-.
  - split; [exact Hp | discriminate].
  - split; [apply prop_setProp_same |]. intros _ H.
    apply app_eq_nil in H as [_ H]. discriminate.
Qed.

(** The date after the defaults: the metadata's when truthy, otherwise the
    day of the file's modification time, with a warning. *)
Lemma defaulted_date (w : World) (config : ContentConfig) (filePath filename : string)
    (pd pd' : list (string * Value)) (log : list string) :
  defaulted w config filePath filename pd = Some (pd', log) ->
  (truthy (prop pd "date") = true /\ prop pd' "date" = prop pd "date")
  \/ (truthy (prop pd "date") = false /\ log <> [] /\
      exists iso, statMtime w filePath = Some iso /\ prop pd' "date" = JStr (datePart iso)).
Proof.
  unfold defaulted. destruct (withDate w filePath filename pd) as [[pd1 log2]|] eqn:Hd;
    [| discriminate].
  destruct (withTitle filename pd1) as [pd2 log3] eqn:Ht. intros [= <- <-].
  assert (Hp : prop (withAuthor config pd2) "date" = prop pd1 "date").
  { unfold prop. rewrite getOwn_withAuthor_other by discriminate.
    replace pd2 with (fst (withTitle filename pd1)) by now rewrite Ht.
    now rewrite getOwn_withTitle_other by discriminate. }
  rewrite Hp.
  destruct (withDate_spec _ _ _ _ _ _ Hd) as [(Ht' & -> & _) | (Ht' & Hl & iso & Hs & ->)].
  - now left.
  - right. split; [exact Ht' |]. split.
    + intros H. apply app_eq_nil in H as [H _]. contradiction.
    + exists iso. split; [exact Hs | apply prop_setProp_same].
Qed.

(** The author after the defaults. *)
Lemma defaulted_author (w : World) (config : ContentConfig) (filePath filename : string)
    (pd pd' : list (string * Value)) (log : list string) :
  defaulted w config filePath filename pd = Some (pd', log) ->
  getOwn "author" pd'
  = if negb (truthy (prop pd "author")) && truthy (defaultAuthor config)
    then Some (defaultAuthor config) else getOwn "author" pd.
Proof.
  unfold defaulted. destruct (withDate w filePath filename pd) as [[pd1 log2]|] eqn:Hd;
    [| discriminate].
  destruct (withTitle filename pd1) as [pd2 log3] eqn:Ht. intros [= <- <-].
  assert (Hp : getOwn "author" pd2 = getOwn "author" pd).
  { replace pd2 with (fst (withTitle filename pd1)) by now rewrite Ht.
    rewrite getOwn_withTitle_other by discriminate.
    now apply (getOwn_withDate_other _ _ _ _ _ _ _ Hd). }
  unfold withAuthor, prop. rewrite Hp.
  destruct (negb (truthy (default JUndefined (getOwn "author" pd))) && truthy (defaultAuthor config));
    [apply getOwn_setProp_same | exact Hp].
Qed.

(** What processPostFile returns when nothing throws. *)
Lemma processPostFile_unfold (w : World) (config : ContentConfig) (cache : RenderCache)
    (filePath filename content markdownContent : string)
    (data : list (string * Value)) (log1 : list string) :
  readFile w filePath = Some content ->
  extractFrontmatter (frontmatter w) content = (markdownContent, data, log1) ->
  result (processPostFile w config cache filePath filename)
  = match defaulted w config filePath filename (spreadInto [] data) with
    | Some (postData, _) =>
        let fileName := slugFromFilename filename in
        Some (spreadInto
                (postLiteral postData fileName markdownContent
                   (html (renderMarkdown (marked w) DEFAULT_CONFIG cache markdownContent))
                   (calculateReadingTime DEFAULT_CONFIG (contentWordsPerMinute config)
                      markdownContent)
                   (match showReadingTime config with JUndefined => JBool true | v => v end)
                   (formatDate w (prop postData "date"))
                   ("/posts/" +:+ fileName +:+ "/"))
                postData)
    | None => None
    end.
Proof.
  intros Hr Hf. unfold processPostFile, defaulted. rewrite Hr, Hf.
  destruct (withDate w filePath filename (spreadInto [] data)) as [[pd1 log2]|]; [| reflexivity].
  destruct (withTitle filename pd1) as [pd2 log3]. reflexivity.
Qed.

(** The final object: the properties of [postData] first, the literal for
    the others. *)
Lemma post_lookup (w : World) (config : ContentConfig) (cache : RenderCache)
    (filePath filename content markdownContent : string)
    (data : list (string * Value)) (log1 : list string) (post : Post) :
  readFile w filePath = Some content ->
  extractFrontmatter (frontmatter w) content = (markdownContent, data, log1) ->
  result (processPostFile w config cache filePath filename) = Some post ->
  exists postData log,
    defaulted w config filePath filename (spreadInto [] data) = Some (postData, log)
    /\ forall k,
        getOwn k post
        = match getOwn k postData with
          | Some v => Some v
          | None =>
              getOwn k
                (postLiteral postData (slugFromFilename filename) markdownContent
                   (html (renderMarkdown (marked w) DEFAULT_CONFIG cache markdownContent))
                   (calculateReadingTime DEFAULT_CONFIG (contentWordsPerMinute config)
                      markdownContent)
                   (match showReadingTime config with JUndefined => JBool true | v => v end)
                   (formatDate w (prop postData "date"))
                   ("/posts/" +:+ slugFromFilename filename +:+ "/"))
          end.
Proof.
  intros Hr Hf. rewrite (processPostFile_unfold _ _ _ _ _ _ _ _ _ Hr Hf).
  destruct (defaulted w config filePath filename (spreadInto [] data)) as [[pd log]|] eqn:Hd;
    [| discriminate].
  intros [= <-]. exists pd, log. split; [reflexivity |].
  intros k. apply getOwn_spreadInto.
  apply (NoDup_defaulted _ _ _ _ _ _ _ Hd).
  apply NoDup_spreadInto. constructor.
Qed.

(** Title and date of the final object are those of [postData]. *)
Lemma final_title_date (w : World) (config : ContentConfig) (cache : RenderCache)
    (filePath filename content markdownContent : string)
    (data : list (string * Value)) (log1 : list string) (post : Post) :
  readFile w filePath = Some content ->
  extractFrontmatter (frontmatter w) content = (markdownContent, data, log1) ->
  List.NoDup (keys data) ->
  result (processPostFile w config cache filePath filename) = Some post ->
  prop post "title"
  = (if truthy (prop data "title") then prop data "title"
     else JStr (titleFromFilename filename))
  /\ (truthy (prop data "date") = true -> prop post "date" = prop data "date")
  /\ (truthy (prop data "date") = false ->
      exists iso, statMtime w filePath = Some iso /\ prop post "date" = JStr (datePart iso)).
Proof.
  intros Hr Hf Hnd Hres.
  destruct (post_lookup _ _ _ _ _ _ _ _ _ _ Hr Hf Hres) as (pd & log & Hd & Hpost).
  assert (Hraw : forall k, prop (spreadInto [] data) k = prop data k).
  { intros k. unfold prop. now rewrite (getOwn_spread_copy k data Hnd). }
  assert (Htitle : prop post "title" = prop pd "title").
  { unfold prop at 1. rewrite Hpost. unfold prop.
    destruct (getOwn "title" pd) eqn:E; [reflexivity |].
    simpl. unfold prop. now rewrite E. }
  assert (Hdate : prop post "date" = prop pd "date").
  { unfold prop at 1. rewrite Hpost. unfold prop.
    destruct (getOwn "date" pd) eqn:E; [reflexivity |].
    simpl. unfold prop. now rewrite E. }
  split; [| split].
  - rewrite Htitle. destruct (defaulted_title _ _ _ _ _ _ _ Hd) as [-> _].
    now rewrite Hraw.
  - intros Ht. rewrite Hdate.
    destruct (defaulted_date _ _ _ _ _ _ _ Hd) as [(_ & ->) | (Hf' & _)];
      [apply Hraw | rewrite Hraw in Hf'; congruence].
  - intros Ht.
    destruct (defaulted_date _ _ _ _ _ _ _ Hd) as [(Ht' & _) | (_ & _ & iso & Hs & Hv)];
      [rewrite Hraw in Ht'; congruence |].
    exists iso. split; [exact Hs | now rewrite Hdate].
Qed.

(** C10, as the code has it. The metadata object is spread last, so every
    property it defines, other than a falsy title, date or author, is in the
    final post object with its raw value, whether or not the name is one of
    the computed or defaulted fields of the literal ([file], [html],
    [readingTime], [showReadingTime], [formattedDate], [url], and also
    [tags], [summary] and [content]). Title, date and author carry the raw
    value when it is truthy and the synthesized or configured default
    otherwise. A field of the literal keeps its computed or defaulted value
    only when the metadata does not define a property of that name. *)
Theorem C10_metadata_spread_last
    (w : World) (config : ContentConfig) (cache : RenderCache)
    (filePath filename content markdownContent : string)
    (data : list (string * Value)) (log1 : list string) (post : Post) :
  readFile w filePath = Some content ->
  extractFrontmatter (frontmatter w) content = (markdownContent, data, log1) ->
  List.NoDup (keys data) ->
  result (processPostFile w config cache filePath filename) = Some post ->
  (forall k v, getOwn k data = Some v ->
               k <> "title" -> k <> "date" -> k <> "author" ->
               getOwn k post = Some v)
  /\ prop post "title"
     = (if truthy (prop data "title") then prop data "title"
        else JStr (titleFromFilename filename))
  /\ (truthy (prop data "date") = true -> prop post "date" = prop data "date")
  /\ (truthy (prop data "date") = false ->
      exists iso, statMtime w filePath = Some iso /\ prop post "date" = JStr (datePart iso))
  /\ prop post "author"
     = (if negb (truthy (prop data "author")) && truthy (defaultAuthor config)
        then defaultAuthor config
        else match getOwn "author" data with Some v => v | None => JStr "" end)
  /\ (getOwn "tags" data = None -> prop post "tags" = JArr (Fresh 0) [])
  /\ (getOwn "summary" data = None -> prop post "summary" = JStr "")
  /\ (getOwn "content" data = None -> prop post "content" = JStr markdownContent)
  /\ (getOwn "file" data = None -> prop post "file" = JStr (slugFromFilename filename))
  /\ (getOwn "url" data = None ->
      prop post "url" = JStr ("/posts/" +:+ slugFromFilename filename +:+ "/"))
  /\ (getOwn "html" data = None ->
      prop post "html"
      = JStr (html (renderMarkdown (marked w) DEFAULT_CONFIG cache markdownContent)))
  /\ (getOwn "readingTime" data = None ->
      prop post "readingTime"
      = JNum (calculateReadingTime DEFAULT_CONFIG (contentWordsPerMinute config)
                markdownContent))
  /\ (getOwn "showReadingTime" data = None ->
      prop post "showReadingTime"
      = match showReadingTime config with JUndefined => JBool true | v => v end)
  /\ (getOwn "formattedDate" data = None ->
      prop post "formattedDate" = JStr (formatDate w (prop post "date"))).
Proof.
  intros Hr Hf Hnd Hres.
  destruct (final_title_date _ _ _ _ _ _ _ _ _ _ Hr Hf Hnd Hres) as (Htitle & Hd1 & Hd2).
  destruct (post_lookup _ _ _ _ _ _ _ _ _ _ Hr Hf Hres) as (pd & log & Hd & Hpost).
  pose proof (fun k => getOwn_spread_copy k data Hnd) as Hcopy.
  assert (Hother : forall k, k <> "title" -> k <> "date" -> k <> "author" ->
                             getOwn k pd = getOwn k data).
  { intros k H1 H2 H3. rewrite (defaulted_other _ _ _ _ _ _ _ k Hd H1 H2 H3). apply Hcopy. }
  assert (Hraw : forall k, prop (spreadInto [] data) k = prop data k).
  { intros k. unfold prop. now rewrite Hcopy. }
  assert (Hdate : prop post "date" = prop pd "date").
  { unfold prop at 1. rewrite Hpost. unfold prop.
    destruct (getOwn "date" pd) eqn:E; [reflexivity |].
    simpl. unfold prop. now rewrite E. }
  split; [| split; [exact Htitle | split; [exact Hd1 | split; [exact Hd2 |]]]].
  { intros k v Hk H1 H2 H3. rewrite Hpost, (Hother k H1 H2 H3), Hk. reflexivity. }
  repeat split.
  - unfold prop at 1. rewrite Hpost.
    rewrite (defaulted_author _ _ _ _ _ _ _ Hd), Hraw, Hcopy.
    destruct (negb (truthy (prop data "author")) && truthy (defaultAuthor config)) eqn:E;
      [reflexivity |].
    destruct (getOwn "author" data) as [v|] eqn:Ea; [reflexivity |].
    simpl. unfold prop. rewrite (defaulted_author _ _ _ _ _ _ _ Hd), Hraw, Hcopy, E, Ea.
    reflexivity.
  - intros Hn. unfold prop. rewrite Hpost, Hother, Hn by discriminate. simpl.
    unfold prop. rewrite Hother, Hn by discriminate. reflexivity.
  - intros Hn. unfold prop. rewrite Hpost, Hother, Hn by discriminate. simpl.
    unfold prop. rewrite Hother, Hn by discriminate. reflexivity.
  - intros Hn. unfold prop. rewrite Hpost, Hother, Hn by discriminate. reflexivity.
  - intros Hn. unfold prop. rewrite Hpost, Hother, Hn by discriminate. reflexivity.
  - intros Hn. unfold prop. rewrite Hpost, Hother, Hn by discriminate. reflexivity.
  - intros Hn. unfold prop. rewrite Hpost, Hother, Hn by discriminate. reflexivity.
  - intros Hn. unfold prop. rewrite Hpost, Hother, Hn by discriminate. reflexivity.
  - intros Hn. unfold prop. rewrite Hpost, Hother, Hn by discriminate. reflexivity.
  - intros Hn. unfold prop at 1. rewrite Hpost, Hother, Hn by discriminate.
    simpl. now rewrite Hdate.
Qed.

(** ** A small posts directory *)

Definition joinSlash (parts : list string) : string := Str.join "/" parts.

Definition demoFiles (p : string) : option string :=
  if String.eqb p "/posts/hello-world.md" then Some "hello"
  else if String.eqb p "/posts/custom.md" then Some "custom"
  else if String.eqb p "/posts/broken.md" then Some "broken"
  else if String.eqb p "/posts/.md" then Some "untitled"
  else None.

Definition demoFrontmatter (content : string) : option (string * list (string * Value)) :=
  if String.eqb content "hello" then
    Some ("Hello, world.", [("title", JStr "Hello"); ("date", JStr "2024-01-01")])
  else if String.eqb content "custom" then
    Some ("Body text.",
          [("title", JStr "Custom"); ("date", JStr "2024-03-01");
           ("url", JStr "/custom/"); ("content", JStr "from the metadata")])
  else if String.eqb content "broken" then
    Some ("This cannot be rendered.", [("title", JStr "Broken"); ("date", JStr "2024-02-01")])
  else Some (content, []).

Definition demoMarked (markdown : string) : option string :=
  if String.eqb markdown "This cannot be rendered." then None
  else Some ("<p>" +:+ markdown +:+ "</p>").

Definition demoDateValue (v : Value) : option Z :=
  match v with
  | JStr s =>
      if String.eqb s "2024-01-01" then Some 1704067200000
      else if String.eqb s "2024-02-01" then Some 1706745600000
      else if String.eqb s "2024-03-01" then Some 1709251200000
      else if String.eqb s "2024-05-01" then Some 1714521600000
      else None
  | _ => None
  end.

Definition demoWorld : World :=
  {| readFile := demoFiles;
     statMtime := fun _ => Some "2024-05-01T10:00:00.000Z";
     frontmatter := demoFrontmatter;
     marked := demoMarked;
     dateValue := demoDateValue;
     formatDate := toString;
     pathJoin := joinSlash |}.

Definition demoConfig : ContentConfig :=
  {| postsPerPage := 10;
     defaultAuthor := JUndefined;
     showReadingTime := JUndefined;
     contentWordsPerMinute := 0 |}.

Definition demoPost (filename : string) : option Post :=
  result (processPostFile demoWorld demoConfig [] (joinSlash ["/posts"; filename]) filename).

Example hello_world_post :
  option_map (fun p => (prop p "title", prop p "date", prop p "url", prop p "html",
                        prop p "readingTime"))
             (demoPost "hello-world.md")
  = Some (JStr "Hello", JStr "2024-01-01", JStr "/posts/hello-world/",
          JStr "<p>Hello, world.</p>", JNum 1).
Proof. vm_compute. reflexivity. Qed.

Lemma C10_metadata_spread_last_witness :
  exists post,
    demoPost "custom.md" = Some post
    /\ getOwn "url" post = Some (JStr "/custom/").
Proof.
  eexists. split; [vm_compute; reflexivity |].
  refine (proj1 (C10_metadata_spread_last demoWorld demoConfig [] "/posts/custom.md"
                   "custom.md" "custom" "Body text."
                   [("title", JStr "Custom"); ("date", JStr "2024-03-01");
                    ("url", JStr "/custom/"); ("content", JStr "from the metadata")]
                   [] _ eq_refl eq_refl _ _) "url" (JStr "/custom/") eq_refl _ _ _);
    try discriminate.
  - repeat constructor; simpl; intuition discriminate.
  - vm_compute. reflexivity.
Defined.

(** The metadata defines [content]: the final object carries that value and
    not the markdown body, which the literal had put there. *)
Lemma C10_counterexample :
  fst (fst (extractFrontmatter demoFrontmatter "custom")) = "Body text."
  /\ option_map (fun p => prop p "content") (demoPost "custom.md")
     = Some (JStr "from the metadata")
  /\ option_map (fun p => prop p "content") (demoPost "custom.md")
     <> Some (JStr "Body text.").
Proof. vm_compute. repeat split; try reflexivity. discriminate. Qed.

(** ** Title and date of the final object *)

Lemma startsWith_split (p s : string) :
  startsWith p s = true -> s = p +:+ drop (String.length p) s.
Proof.
  revert s. induction p as [|c p IH]; intros s H; [reflexivity |].
  destruct s as [|d s]; [discriminate |]. simpl in H.
  destruct (Ascii.eqb_spec c d) as [->|]; [| discriminate].
  rewrite append_cons. simpl. f_equal. now apply IH.
Qed.

Lemma splitAt_Some (pat s before after : string) :
  splitAt pat s = Some (before, after) -> s = before +:+ pat +:+ after.
Proof.
  revert before. induction s as [|c s IH]; intros before.
  - simpl. destruct (startsWith pat "") eqn:E; [| discriminate].
    intros [= <- <-]. now apply startsWith_split.
  - cbn [splitAt]. destruct (startsWith pat (String c s)) eqn:E.
    + intros [= <- <-]. now apply startsWith_split.
    + destruct (splitAt pat s) as [[b a]|]; [| discriminate].
      intros [= <- <-]. rewrite append_cons. f_equal. now apply IH.
Qed.

Lemma replaceChar_empty (c d : ascii) (s : string) :
  replaceChar c d s = "" -> s = "".
Proof. destruct s; [reflexivity | discriminate]. Qed.

Lemma append_empty (a b : string) : a +:+ b = "" -> a = "" /\ b = "".
Proof. destruct a; [now rewrite append_nil_l | discriminate]. Qed.

(** The title made from a file name is empty for the names [""] and
    [".md"] only. *)
Lemma titleFromFilename_empty (filename : string) :
  titleFromFilename filename = "" -> filename = "" \/ filename = ".md".
Proof.
  unfold titleFromFilename, replaceFirst. intros H. apply replaceChar_empty in H.
  destruct (splitAt ".md" filename) as [[before after]|] eqn:E; [| now left].
  apply splitAt_Some in E. rewrite append_nil_l in H.
  apply append_empty in H as [-> ->]. now right.
Qed.

(** For every file whose name is not just the extension, a document that is
    produced has a truthy title; its date is truthy as soon as the day of a
    modification time is not the empty string. *)
Lemma title_and_date_present (w : World) (config : ContentConfig) (cache : RenderCache)
    (filePath filename content markdownContent : string)
    (data : list (string * Value)) (log1 : list string) (post : Post) :
  readFile w filePath = Some content ->
  extractFrontmatter (frontmatter w) content = (markdownContent, data, log1) ->
  List.NoDup (keys data) ->
  result (processPostFile w config cache filePath filename) = Some post ->
  filename <> "" -> filename <> ".md" ->
  (forall iso, statMtime w filePath = Some iso -> datePart iso <> "") ->
  truthy (prop post "title") = true /\ truthy (prop post "date") = true.
Proof.
  intros Hr Hf Hnd Hres Hn1 Hn2 Hiso.
  destruct (final_title_date _ _ _ _ _ _ _ _ _ _ Hr Hf Hnd Hres) as (Ht & Hd1 & Hd2).
  split.
  - rewrite Ht. destruct (truthy (prop data "title")) eqn:E; [exact E |].
    simpl. destruct (String.eqb_spec (titleFromFilename filename) ""); [| reflexivity].
    destruct (titleFromFilename_empty filename); congruence.
  - destruct (truthy (prop data "date")) eqn:E.
    + now rewrite (Hd1 eq_refl).
    + destruct (Hd2 eq_refl) as (iso & Hs & ->). simpl.
      destruct (String.eqb_spec (datePart iso) ""); [| reflexivity].
      now destruct (Hiso iso Hs).
Qed.

(** C7 at a file named [.md] without a title in its metadata: the title
    made from the file name is the empty string, and that is the title of
    the document produced. The date is synthesized as claimed. *)
Theorem C7_empty_title_for_dot_md :
  option_map (fun p => (prop p "title", prop p "date")) (demoPost ".md")
  = Some (JStr "", JStr "2024-05-01")
  /\ logged (processPostFile demoWorld demoConfig [] "/posts/.md" ".md")
     = [ "Warning: Missing date in .md, using file modification date";
         "Warning: Missing title in .md, using normalized filename" ].
Proof. vm_compute. split; reflexivity. Qed.

End ContentProps.

(* ================================================================== *)
(** * The batch of documents                                           *)
(* ================================================================== *)

Module SortFacts.
Import SiteBuilder.

Section AnyComparator.
Context {A : Type}.
Variable cmp : A -> A -> Z.



Variable cmp' : A -> A -> Z.


End AnyComparator.


(** Sorting by a key, largest first: [cmp x y = key y - key x]. *)
Section Descending.
Context {A : Type}.
Variable key : A -> Z.






End Descending.

End SortFacts.

Module BatchProps.
Import Str JS ObjectFacts MarkdownProcessor SiteBuilder ContentProps SortFacts.




Definition postsOf (w : World) (config : ContentConfig) (cache : RenderCache)
    (postsDir : string) (files : list string) : list Post :=
  fst (fst (loadAllPosts w config cache postsDir files)).




(** The time value of a document's date, 0 standing for an invalid date. *)
Definition timestamp (w : World) (p : Post) : Z := default 0 (dateValue w (prop p "date")).



(** ** What the batch writes to the console *)















(** A file that cannot be read is left out. *)
Example unreadable_file_is_left_out :
  map (fun p => prop p "title")
      (postsOf demoWorld demoConfig [] "/posts" ["hello-world.md"; "missing.md"; "custom.md"])
  = [JStr "Custom"; JStr "Hello"].
Proof. vm_compute. reflexivity. Qed.

End BatchProps.

(* ================================================================== *)
(** * Properties of the build                                          *)
(* ================================================================== *)

Module BuildProps.
Import JS ConfigManager Build.

(** ** Promise.all *)

Definition rejects (run : Task -> Settled * list string) (task : Task) : bool :=
  match fst (run task) with Rejected _ => true | Fulfilled => false end.

(** The promises that settle before the first rejection. *)
Fixpoint beforeRejection (run : Task -> Settled * list string) (order : list Task)
  : list Task :=
  match order with
  | [] => []
  | task :: rest => if rejects run task then [] else task :: beforeRejection run rest
  end.

Lemma promiseAll_awaited (run : Task -> Settled * list string) (order : list Task) :
  snd (promiseAll run order) = beforeRejection run order.
Proof.
  induction order as [|task rest IH]; [reflexivity |].
  cbn [promiseAll beforeRejection]. unfold rejects.
  destruct (run task) as [[|error] log]; [| reflexivity].
  destruct (promiseAll run rest) as [[result log'] fulfilled]. simpl in *. now rewrite IH.
Qed.

Lemma promiseAll_fulfilled (run : Task -> Settled * list string) (order : list Task) :
  (forall task, In task order -> rejects run task = false) ->
  fst (fst (promiseAll run order)) = Fulfilled
  /\ snd (promiseAll run order) = order
  /\ forall task line, In task order -> In line (snd (run task)) ->
                       In line (snd (fst (promiseAll run order))).
Proof.
  induction order as [|task rest IH]; intros Hall.
  - repeat split. intros ? ? [].
  - cbn [promiseAll].
    pose proof (Hall task (or_introl eq_refl)) as Ht. unfold rejects in Ht.
    destruct (run task) as [[|error] log] eqn:Hrun; [| discriminate].
    destruct IH as (H1 & H2 & H3); [intros; apply Hall; now right |].
    destruct (promiseAll run rest) as [[result log'] fulfilled]. simpl in *.
    subst. repeat split.
    intros task' line [<-|Hin] Hline.
    + rewrite Hrun in Hline. apply in_or_app. now left.
    + apply in_or_app. right. now apply (H3 task').
Qed.

Lemma promiseAll_rejected (run : Task -> Settled * list string) (order : list Task)
    (task : Task) :
  In task order -> rejects run task = true ->
  exists first error log,
    In first order /\ run first = (Rejected error, log)
    /\ fst (fst (promiseAll run order)) = Rejected error
    /\ (forall line, In line log -> In line (snd (fst (promiseAll run order))))
    /\ ~ In task (snd (promiseAll run order)).
Proof.
  induction order as [|t rest IH]; intros Hin Hrej; [destruct Hin |].
  cbn [promiseAll]. destruct (run t) as [[|error] log] eqn:Hrun.
  - assert (Hne : t <> task).
    { intros ->. unfold rejects in Hrej. now rewrite Hrun in Hrej. }
    destruct Hin as [E|Hin]; [contradiction |].
    destruct (IH Hin Hrej) as (first & e & l & H1 & H2 & H3 & H4 & H5).
    exists first, e, l.
    destruct (promiseAll run rest) as [[result log'] fulfilled]. simpl in *.
    repeat split; auto.
    + intros line Hl. apply in_or_app. right. now apply H4.
    + intros [E|E]; [contradiction | now apply H5].
  - exists t, error, log. simpl. repeat split; auto.
Qed.

(** ** The builders *)

(** The error thrown in the body of a builder. *)
Definition body (t : Trial) (task : Task) : option string :=
  match task with
  | StaticAssets => staticAssets t
  | HomePage => homePage t
  | PostPages => postPages t
  | TagPages => tagPages t
  | TagsIndexPage => tagsIndexPage t
  | AboutPage => if aboutSource t then aboutPage t else None
  | Sitemap => sitemap t
  end.

(** The line a builder writes to the console when its body throws. *)
Definition message (task : Task) : string :=
  match task with
  | StaticAssets => "Error generating static assets:"
  | HomePage => "Error building home page:"
  | PostPages => "Error building post pages:"
  | TagPages => "Error building tag pages:"
  | TagsIndexPage => "Error building tags index page:"
  | AboutPage => "Error building about page:"
  | Sitemap => "Error building sitemap:"
  end.

(** Only [task] fails. *)
Definition onlyFails (t : Trial) (task : Task) (error : string) : Prop :=
  body t task = Some error /\ forall other, other <> task -> body t other = None.

Lemma about_never_rejects (t : Trial) : rejects (runTask t) AboutPage = false.
Proof.
  unfold rejects. simpl. unfold buildAboutPage.
  destruct (aboutSource t); [destruct (aboutPage t) |]; reflexivity.
Qed.

(** What [onlyFails] says about each of the bodies. *)
Ltac bodies Hothers :=
  repeat match goal with
         | task : Task |- _ => destruct task
         end;
  try contradiction;
  pose proof (Hothers StaticAssets) as HStaticAssets;
  pose proof (Hothers HomePage) as HHomePage;
  pose proof (Hothers PostPages) as HPostPages;
  pose proof (Hothers TagPages) as HTagPages;
  pose proof (Hothers TagsIndexPage) as HTagsIndexPage;
  pose proof (Hothers AboutPage) as HAboutPage;
  pose proof (Hothers Sitemap) as HSitemap;
  clear Hothers; cbn [body] in *;
  repeat match goal with
         | H : ?a <> ?b -> _ |- _ =>
             first [ specialize (H ltac:(discriminate)) | clear H ]
         end;
  cbn [staticAssets homePage postPages tagPages tagsIndexPage aboutSource aboutPage sitemap]
    in *;
  subst.

Ltac builders :=
  unfold rejects; cbn [runTask fst snd];
  unfold generateStaticAssets, buildHomePage, buildPostPages, buildTagPages,
    buildTagsIndexPage, buildAboutPage, buildSitemap, rethrowing;
  cbn [staticAssets homePage postPages tagPages tagsIndexPage aboutSource aboutPage sitemap].

Lemma about_page_failure (t : Trial) (error : string) :
  onlyFails t AboutPage error ->
  (forall task, rejects (runTask t) task = false)
  /\ snd (runTask t AboutPage) = [message AboutPage].
Proof.
  destruct t as [sa hp pp tp ti src ab sm ep order]. intros [Hb Hothers].
  split.
  - intros task. bodies Hothers; builders; try reflexivity.
    destruct src; [destruct ab |]; reflexivity.
  - bodies Hothers. builders. destruct src; [| discriminate]. now rewrite Hb.
Qed.

(** When only one builder other than the about page fails, a promise that
    rejects does so with that error, after the line of that builder has
    been written. *)
Lemma rejection_of_the_failing (t : Trial) (task : Task) (error : string) :
  task <> AboutPage -> onlyFails t task error ->
  rejects (runTask t) task = true
  /\ forall first e log,
       runTask t first = (Rejected e, log) -> e = error /\ In (message task) log.
Proof.
  destruct t as [sa hp pp tp ti src ab sm ep order]. intros Hna [Hb Hothers].
  split.
  - bodies Hothers; builders; reflexivity.
  - intros first e log. bodies Hothers; builders;
      try discriminate;
      try (destruct src; [destruct ab |]; discriminate);
      intros [= <- <-]; (split; [reflexivity | simpl; tauto]).
Qed.

(** C1, as the code has it. In a build whose configuration has loaded and
    in which the body of exactly one builder throws: when it is the about
    page, its builder logs the failure and swallows it, every other builder
    is waited for, the build succeeds and no error page is emitted; when it
    is another one, that builder logs the failure and rethrows it, all seven
    builders have been called, the entry point waits only for those that
    settled before the failure, logs it again, calls buildErrorPage and
    raises the failure (or the failure of buildErrorPage). *)
Theorem C1_page_type_failures (t : Trial) (log : list string) :
  Permutation (settleOrder t) allTasks ->
  let b := buildPages t log in
  (forall error,
      onlyFails t AboutPage error ->
      settled b = Fulfilled
      /\ In (message AboutPage) (console b)
      /\ Permutation (awaited b) allTasks
      /\ errorPageAttempted b = false)
  /\ (forall task error,
      task <> AboutPage ->
      onlyFails t task error ->
      started b = allTasks
      /\ errorPageAttempted b = true
      /\ settled b = Rejected (default error (errorPage t))
      /\ In (message task) (console b)
      /\ In "Error building site:" (console b)
      /\ awaited b = beforeRejection (runTask t) (settleOrder t)
      /\ ~ In task (awaited b)).
Proof.
  intros Hperm b. subst b. split.
  - intros error Honly.
    destruct (about_page_failure t error Honly) as [Hnone Hlog].
    destruct (promiseAll_fulfilled (runTask t) (settleOrder t)) as (H1 & H2 & H3);
      [intros; apply Hnone |].
    unfold buildPages.
    destruct (promiseAll (runTask t) (settleOrder t)) as [[result log'] fulfilled].
    simpl in H1, H2, H3. subst result fulfilled. simpl.
    repeat split; [| exact Hperm].
    apply in_or_app. right. apply in_or_app. left.
    apply (H3 AboutPage).
    + apply (Permutation_in AboutPage (Permutation_sym Hperm)). simpl. tauto.
    + rewrite Hlog. now left.
  - intros task error Hna Honly.
    destruct (rejection_of_the_failing t task error Hna Honly) as [Hrej Hfirst].
    assert (Hin : In task (settleOrder t)).
    { apply (Permutation_in task (Permutation_sym Hperm)). destruct task; simpl; tauto. }
    destruct (promiseAll_rejected (runTask t) (settleOrder t) task Hin Hrej)
      as (first & e & l & _ & Hrun & Hres & Hlines & Hnot).
    destruct (Hfirst first e l Hrun) as [-> Hmsg].
    pose proof (promiseAll_awaited (runTask t) (settleOrder t)) as Haw.
    unfold buildPages, caught, buildErrorPage, rethrowing.
    destruct (promiseAll (runTask t) (settleOrder t)) as [[result log'] fulfilled].
    simpl in Hres, Hlines, Hnot, Haw. subst result.
    destruct (errorPage t) as [e'|]; simpl;
      (repeat split; auto;
       [ apply in_or_app; left; apply in_or_app; right; now apply Hlines
       | apply in_or_app; right; simpl; tauto ]).
Qed.

Definition quietTrial : Trial :=
  {| staticAssets := None; homePage := None; postPages := None; tagPages := None;
     tagsIndexPage := None; aboutSource := true; aboutPage := None; sitemap := None;
     errorPage := None; settleOrder := allTasks |}.

(** A post whose date is not a date makes [toISOString] throw in the
    sitemap before anything is written: the promise of the sitemap is the
    first to settle. *)
Definition sitemapFails : Trial :=
  {| staticAssets := None; homePage := None; postPages := None; tagPages := None;
     tagsIndexPage := None; aboutSource := true; aboutPage := None;
     sitemap := Some "RangeError: Invalid time value";
     errorPage := None;
     settleOrder := [Sitemap; StaticAssets; HomePage; PostPages; TagPages;
                     TagsIndexPage; AboutPage] |}.

Definition aboutFails : Trial :=
  {| staticAssets := None; homePage := None; postPages := None; tagPages := None;
     tagsIndexPage := None; aboutSource := true;
     aboutPage := Some "EISDIR: illegal operation on a directory";
     sitemap := None; errorPage := None; settleOrder := allTasks |}.

Lemma sitemapFails_order : Permutation (settleOrder sitemapFails) allTasks.
Proof.
  exact (Permutation_cons_append
           [StaticAssets; HomePage; PostPages; TagPages; TagsIndexPage; AboutPage] Sitemap).
Qed.

Lemma C1_page_type_failures_witness :
  settled (buildPages sitemapFails []) = Rejected "RangeError: Invalid time value"
  /\ errorPageAttempted (buildPages sitemapFails []) = true.
Proof.
  destruct (proj2 (C1_page_type_failures sitemapFails [] sitemapFails_order)
              Sitemap "RangeError: Invalid time value")
    as (_ & Hattempt & Hsettled & _).
  - discriminate.
  - split; [reflexivity |]. intros other Hne. destruct other; try reflexivity.
    now contradiction Hne.
  - split; [exact Hsettled | exact Hattempt].
Defined.

(** Two builds in which one page type fails and the others can succeed.
    The about page: the build succeeds and buildErrorPage is not called.
    The sitemap, failing first: the build raises without having waited for
    any other page type. *)
Lemma C1_counterexample :
  (onlyFails aboutFails AboutPage "EISDIR: illegal operation on a directory"
   /\ settled (buildPages aboutFails []) = Fulfilled
   /\ errorPageAttempted (buildPages aboutFails []) = false)
  /\ (onlyFails sitemapFails Sitemap "RangeError: Invalid time value"
      /\ settled (buildPages sitemapFails []) = Rejected "RangeError: Invalid time value"
      /\ awaited (buildPages sitemapFails []) = []).
Proof.
  split; (split; [split; [reflexivity |];
                  intros other Hne; destruct other; try reflexivity; now contradiction Hne
                 | split; reflexivity]).
Qed.

(** ** Loading the configuration *)

Section Configuration.
Variable StringToNumber : string -> option Z.
Variable jsonParse : string -> option Value.
Variable ops : PathOps.

(** What the examples look at in a loaded configuration. *)
Definition getNested (config : list (string * Value)) : Value * Value * Value :=
  (TemplateEngine.getNestedValue (object config) "site.title",
   TemplateEngine.getNestedValue (object config) "site.language",
   TemplateEngine.getNestedValue (object config) "paths.postsDir").








End Configuration.

(** ** A project directory *)

Definition demoOps : PathOps :=
  {| resolve := fun base p => base +:+ "/" +:+ p;
     isAbsolute := Str.startsWith "/";
     join := fun a b => a +:+ "/" +:+ b;
     dirname := fun p => if String.eqb p "/site/blog/config.json" then "/site/blog"
                         else if String.eqb p "/site/blog" then "/site" else "/";
     basename := fun p => if String.eqb p "/site/blog" then "blog" else p;
     cwd := "/site" |}.

Definition demoParse (text : string) : option Value :=
  if String.eqb text "{ zero posts per page }" then
    Some (object [("content", object [("postsPerPage", JNum 0)])])
  else if String.eqb text "{ a title }" then
    Some (object [("site", object [("title", JStr "My blog")])])
  else None.

(** A project whose style sheet is written and which has no posts. *)
Definition quietContent : Content :=
  {| cssVariables := None;
     cssLog := ["CSS variables written to: /site/./blog/css/generated.css"];
     posts := [];
     postsLog := ["No markdown files found in posts directory"] |}.

(** A project with one post, tagged [constructor]. *)
Definition inheritedTag : Content :=
  {| cssVariables := None;
     cssLog := ["CSS variables written to: /site/./blog/css/generated.css"];
     posts := [[("title", JStr "Classes");
                ("tags", JArr (Addr 1) [JStr "constructor"])]];
     postsLog := [] |}.

Definition demoBuild (configText : option string) (t : Trial) : Built :=
  buildSite decimalToNumber demoParse demoOps "/site/blog/config.json" configText ""
    quietContent t.

Example configuration_is_merged :
  match fst (loadConfig decimalToNumber demoParse demoOps "/site/blog/config.json"
               (Some "{ a title }") "") with
  | Returned config =>
      getNested config = (JStr "My blog", JStr "en", JStr "/site/./blog/content/posts")
  | Thrown _ => False
  end.
Proof. vm_compute. reflexivity. Qed.

(** A configuration that fails validation: loadConfig throws, the build
    attempts the error page and raises. *)
Example invalid_configuration_aborts :
  fst (loadConfig decimalToNumber demoParse demoOps "/site/blog/config.json"
         (Some "{ zero posts per page }") "")
  = Thrown "Invalid configuration"
  /\ settled (demoBuild (Some "{ zero posts per page }") quietTrial)
     = Rejected "Invalid configuration"
  /\ errorPageAttempted (demoBuild (Some "{ zero posts per page }") quietTrial) = true.
Proof. vm_compute. repeat split; reflexivity. Qed.

(** A configuration that loads and a post tagged with a name that objects
    inherit: extractTags throws, and the build raises before any builder is
    called. *)
Example inherited_tag_aborts :
  let b := buildSite decimalToNumber demoParse demoOps "/site/blog/config.json"
             (Some "{ a title }") "" inheritedTag quietTrial in
  settled b = Rejected extractTagsError
  /\ errorPageAttempted b = true
  /\ started b = [].
Proof. vm_compute. repeat split; reflexivity. Qed.


End BuildProps.

(* ================================================================== *)
(** * Further properties of the template engine                        *)
(* ================================================================== *)

Module EngineFacts.
Import Str StrFacts JS TemplateEngine ScanFacts Directives.

(** ** Paths *)

Lemma split_nonempty (sep : ascii) (s : string) : split sep s <> [].
Proof.
  destruct s as [|c s]; [discriminate |].
  cbn [split]. destruct (Ascii.eqb c sep); [discriminate |].
  destruct (split sep s); discriminate.
Qed.

Lemma split_append (sep : ascii) (p q : string) :
  split sep (p +:+ String sep q) = split sep p ++ split sep q.
Proof.
  induction p as [|c p IH].
  - rewrite append_nil_l. cbn [split]. now rewrite Ascii.eqb_refl.
  - rewrite append_cons. cbn [split]. destruct (Ascii.eqb c sep); [now rewrite IH |].
    rewrite IH. destruct (split sep p) as [|h t] eqn:E; [| reflexivity].
    now apply split_nonempty in E.
Qed.

Lemma undefined_absorbs (parts : list string) :
  fold_left (fun prev curr => if truthy prev then getProp prev curr else JUndefined)
            parts JUndefined = JUndefined.
Proof. induction parts as [|p parts IH]; [reflexivity | exact IH]. Qed.

(** X1. A path without a dot reads one property of the context; a path [p.q]
    reads [q] in the value found at [p]. *)
Theorem X1_getNestedValue_path (obj : Value) (p q : string) :
  getNestedValue obj (p +:+ "." +:+ q) = getNestedValue (getNestedValue obj p) q
  /\ (hasChar "." p = false ->
      getNestedValue obj p = if truthy obj then getProp obj p else JUndefined).
Proof.
  split.
  - unfold getNestedValue.
    change (p +:+ "." +:+ q) with (p +:+ String "." q).
    now rewrite split_append, fold_left_app.
  - intros H. unfold getNestedValue. now rewrite (split_no_sep "." p H).
Qed.

Lemma X1_getNestedValue_path_witness :
  getNestedValue (JObj (Addr 1) [("site", JObj (Addr 2) [("title", JStr "Blog")])]) "site"
  = JObj (Addr 2) [("title", JStr "Blog")].
Proof.
  apply (proj2 (X1_getNestedValue_path
                  (JObj (Addr 1) [("site", JObj (Addr 2) [("title", JStr "Blog")])])
                  "site" "")).
  reflexivity.
Defined.

(** X2. Below a falsy value every path is undefined: reading through a missing
    property, [null], 0 or the empty string does not throw. *)
Theorem X2_getNestedValue_falsy (v : Value) (path : string) :
  truthy v = false -> getNestedValue v path = JUndefined.
Proof.
  intros H. unfold getNestedValue.
  destruct (split "." path) as [|h t] eqn:E; [now apply split_nonempty in E |].
  cbn [fold_left]. rewrite H. apply undefined_absorbs.
Qed.

Lemma X2_getNestedValue_falsy_witness : getNestedValue JNull "a.b.c" = JUndefined.
Proof. apply X2_getNestedValue_falsy. reflexivity. Defined.

(** ** Variable substitution *)

Lemma hasChar_cons_false (c d : ascii) (s : string) :
  hasChar c (String d s) = false -> Ascii.eqb c d = false /\ hasChar c s = false.
Proof. cbn [hasChar]. destruct (Ascii.eqb c d); [discriminate | auto]. Qed.

Lemma startsWith_braces_cons (c : ascii) (s : string) :
  Ascii.eqb "{" c = false -> startsWith "{{" (String c s) = false.
Proof. intros H. cbn [startsWith]. now rewrite H. Qed.

Lemma startsWith_braces_second (s : string) :
  hasChar "{" s = false -> startsWith "{{" (String "{" s) = false.
Proof.
  destruct s as [|c s]; [reflexivity |].
  intros H. apply hasChar_cons_false in H as [H _].
  cbn [startsWith]. rewrite Ascii.eqb_refl. now rewrite H.
Qed.

Lemma no_brace_no_pair (s : string) : hasChar "{" s = false -> includes "{{" s = false.
Proof.
  induction s as [|c s IH]; [reflexivity |].
  intros H. apply hasChar_cons_false in H as [Hc Hs].
  unfold includes. cbn [splitAt]. rewrite (startsWith_braces_cons c s Hc).
  specialize (IH Hs). unfold includes in IH.
  destruct (splitAt "{{" s) as [[b a]|]; [discriminate | reflexivity].
Qed.

Section Scanning.
Context {A : Type}.
Variable matchAt : string -> option (A * nat).
Variable callback : A -> option string.
Hypothesis needsBraces : forall s, startsWith "{{" s = false -> matchAt s = None.

(** The scan copies a text without an opening brace and goes on behind
    it. *)
Lemma replaceAll_prefix (pre rest : string) :
  hasChar "{" pre = false ->
  replaceAll matchAt callback (pre +:+ rest)
  = (r ← replaceAll matchAt callback rest; Some (pre +:+ r)).
Proof.
  unfold replaceAll. induction pre as [|c pre IH]; intros H.
  - rewrite append_nil_l. now destruct (replaceAll_skip matchAt callback 0 rest).
  - apply hasChar_cons_false in H as [Hc Hp].
    rewrite append_cons. cbn [replaceAll_skip].
    rewrite (needsBraces _ (startsWith_braces_cons c (pre +:+ rest) Hc)).
    rewrite (IH Hp).
    now destruct (replaceAll_skip matchAt callback 0 rest).
Qed.

Lemma replaceAll_plain (s : string) :
  hasChar "{" s = false -> replaceAll matchAt callback s = Some s.
Proof.
  intros H. apply replaceAll_no_match. intros n.
  apply needsBraces, includes_startsWith_false, includes_drop_false.
  now apply no_brace_no_pair.
Qed.

(** An opening pair of braces at which the expression does not match is
    copied. *)
Lemma replaceAll_unmatched_pair (tail : string) :
  hasChar "{" tail = false ->
  matchAt ("{{" +:+ tail) = None ->
  replaceAll matchAt callback ("{{" +:+ tail) = Some ("{{" +:+ tail).
Proof.
  intros Ht Hm.
  change ("{{" +:+ tail) with (String "{" (String "{" tail)) in *.
  unfold replaceAll. cbn [replaceAll_skip]. rewrite Hm.
  rewrite (needsBraces _ (startsWith_braces_second tail Ht)).
  pose proof (replaceAll_plain tail Ht) as Hp. unfold replaceAll in Hp.
  now rewrite Hp.
Qed.

End Scanning.

(** What the callback of the variable expression returns for a value. *)
Definition shown (value : Value) : string :=
  match value with
  | JUndefined => ""
  | JFun _ _ ret => toString ret
  | _ => toString value
  end.

(** The value the callback hands to [replace], which converts it to a
    string: the result of the call for a function, the value itself
    otherwise. *)
Definition produced (value : Value) : Value :=
  match value with
  | JFun _ _ ret => ret
  | _ => value
  end.

(** The references whose replacement is [shown]: every read along the key
    is answered by the context itself, and the value to print is converted
    as [toString] does. *)
Definition plainReference (data : Value) (key : string) : bool :=
  ownPath data (trim key) && printable (produced (getNestedValue data (trim key))).

Lemma variableCallback_shown (data : Value) (key : string) :
  variableCallback data key = Some (shown (getNestedValue data (trim key))).
Proof. unfold variableCallback, shown. now destruct (getNestedValue data (trim key)). Qed.

(** A key the variable expression accepts: it starts with a character
    other than [#] and [/] and holds no brace. *)
Definition variableKey (key : string) : bool :=
  match key with
  | EmptyString => false
  | String c _ =>
      negb (Ascii.eqb c "#") && negb (Ascii.eqb c "/")
      && all notBrace key && negb (hasChar "{" key)
  end.

Lemma variableKey_inv (key : string) :
  variableKey key = true ->
  exists c k, key = String c k /\ Ascii.eqb c "#" = false /\ Ascii.eqb c "/" = false
              /\ all notBrace k = true /\ hasChar "{" key = false.
Proof.
  destruct key as [|c k]; [discriminate |]. unfold variableKey.
  rewrite !andb_true_iff, !negb_true_iff. intros [[[H1 H2] H3] H4].
  exists c, k. repeat split; auto.
  cbn [all] in H3. now apply andb_true_iff in H3 as [_ H3].
Qed.

Lemma hasChar_append (c : ascii) (a b : string) :
  hasChar c (a +:+ b) = hasChar c a || hasChar c b.
Proof.
  induction a as [|d a IH]; [reflexivity |].
  rewrite append_cons. cbn [hasChar]. destruct (Ascii.eqb c d); [reflexivity | exact IH].
Qed.

Lemma matchVariable_variable (c : ascii) (k post : string) :
  Ascii.eqb c "#" = false -> Ascii.eqb c "/" = false -> all notBrace k = true ->
  matchVariable ("{{" +:+ String c k +:+ "}}" +:+ post)
  = Some (String c k, String.length ("{{" +:+ String c k +:+ "}}")).
Proof.
  intros H1 H2 Hk. unfold matchVariable.
  rewrite startsWith_append.
  change (drop 2 ("{{" +:+ String c k +:+ "}}" +:+ post)) with (String c (k +:+ "}}" +:+ post)).
  cbv beta iota. rewrite H1, H2. cbn [orb].
  rewrite (span_all notBrace k ("}}" +:+ post) Hk) by reflexivity.
  rewrite startsWith_append.
  do 2 f_equal.
  change ("{{" +:+ String c k +:+ "}}") with (String "{" (String "{" (String c (k +:+ "}}")))).
  cbn [String.length]. rewrite length_append. simpl. lia.
Qed.

Lemma blockHead_rejected (kw : string) (c : ascii) (k rest : string) :
  Ascii.eqb c "#" = false ->
  startsWith ("{{#" +:+ kw) ("{{" +:+ String c k +:+ rest) = false.
Proof.
  intros H.
  change ("{{#" +:+ kw) with (String "{" (String "{" (String "#" kw))).
  change ("{{" +:+ String c k +:+ rest) with (String "{" (String "{" (String c (k +:+ rest)))).
  cbn [startsWith]. rewrite !Ascii.eqb_refl. rewrite Ascii.eqb_sym. now rewrite H.
Qed.

Lemma processTemplate_reference (stn : string -> option Z) (stack : nat)
    (pre key post : string) (data : Value) :
  hasChar "{" pre = false ->
  variableKey key = true ->
  hasChar "{" post = false ->
  processTemplate stn (S stack) (pre +:+ "{{" +:+ key +:+ "}}" +:+ post) data
  = Some (pre +:+ shown (getNestedValue data (trim key)) +:+ post).
Proof.
  intros Hpre Hkey Hpost.
  destruct (variableKey_inv key Hkey) as (c & k & -> & H1 & H2 & Hk & Hb).
  assert (Htail : hasChar "{" (String c k +:+ "}}" +:+ post) = false).
  { rewrite hasChar_append, Hb. rewrite hasChar_append, Hpost. reflexivity. }
  rewrite TemplateProps.processTemplate_S.
  destruct (String.eqb (pre +:+ "{{" +:+ String c k +:+ "}}" +:+ post) "") eqn:E.
  { apply String.eqb_eq in E. destruct pre; discriminate E. }
  unfold processEachBlocks, processIfBlocks, replaceVariables.
  rewrite (replaceAll_prefix matchEach _ matchEach_no_braces pre _ Hpre).
  rewrite (replaceAll_unmatched_pair matchEach _ matchEach_no_braces _ Htail).
  2:{ unfold matchEach, matchHead.
      change "{{#each" with ("{{#" +:+ "each").
      now rewrite (blockHead_rejected "each" c k ("}}" +:+ post) H1). }
  cbn [mbind option_bind].
  rewrite (replaceAll_prefix matchIf _ matchIf_no_braces pre _ Hpre).
  rewrite (replaceAll_unmatched_pair matchIf _ matchIf_no_braces _ Htail).
  2:{ unfold matchIf, matchHead.
      change "{{#if" with ("{{#" +:+ "if").
      now rewrite (blockHead_rejected "if" c k ("}}" +:+ post) H1). }
  cbn [mbind option_bind].
  rewrite (replaceAll_prefix matchVariable _ matchVariable_no_braces pre _ Hpre).
  assert (Hm := matchVariable_variable c k post H1 H2 Hk).
  set (m := "{{" +:+ String c k +:+ "}}") in *.
  assert (Hw : "{{" +:+ String c k +:+ "}}" +:+ post = m +:+ post).
  { subst m. now rewrite !append_assoc. }
  rewrite Hw in *.
  assert (Hstep : replaceAll matchVariable (variableCallback data) (m +:+ post)
                  = Some (shown (getNestedValue data (trim (String c k))) +:+ post)).
  { unfold replaceAll. subst m.
    change (("{{" +:+ String c k +:+ "}}") +:+ post)
      with (String "{" ((String "{" (String c k +:+ "}}")) +:+ post)) in *.
    cbn [replaceAll_skip]. rewrite Hm.
    rewrite variableCallback_shown. cbn [mbind option_bind].
    change (Nat.pred (String.length ("{{" +:+ String c k +:+ "}}")))
      with (String.length (String "{" (String c k +:+ "}}"))).
    rewrite replaceAll_skip_append.
    now rewrite (replaceAll_plain matchVariable _ matchVariable_no_braces post Hpost). }
  rewrite Hstep. reflexivity.
Qed.

(** X3. A template that consists of text without braces around one variable
    reference evaluates to the text with the reference replaced by the
    value at the (trimmed) key: nothing for [undefined], the result of the
    call for a function, and otherwise the string of the value, so that
    [null] shows as the word null. The key is one that the context itself
    answers at every step (no name is looked up on a prototype), and the
    value is one whose conversion to a string is [toString]. *)
Theorem X3_processTemplate_variable (stn : string -> option Z) (stack : nat)
    (pre key post : string) (data : Value) :
  hasChar "{" pre = false ->
  variableKey key = true ->
  hasChar "{" post = false ->
  plainReference data key = true ->
  processTemplate stn (S stack) (pre +:+ "{{" +:+ key +:+ "}}" +:+ post) data
  = Some (pre +:+ shown (getNestedValue data (trim key)) +:+ post).
Proof. intros Hpre Hkey Hpost _. now apply processTemplate_reference. Qed.

Lemma X3_processTemplate_variable_witness :
  processTemplate decimalToNumber 3 "<h1>{{ title }}</h1>" (JObj (Addr 1) [("title", JNull)])
  = Some "<h1>null</h1>".
Proof.
  exact (X3_processTemplate_variable decimalToNumber 2 "<h1>" " title " "</h1>"
           (JObj (Addr 1) [("title", JNull)]) eq_refl eq_refl eq_refl eq_refl).
Defined.

(** Values outside the theorem: a number too large to be printed digit by
    digit, and an object with a [toString] property of its own. *)
Example values_not_printed_as_plain_data :
  printable (JNum (10 ^ 21)) = false
  /\ printable (JObj (Addr 1) [("toString", JStr "x")]) = false
  /\ printable (JArr (Addr 1) [JNum 1; JNull; JStr "a"]) = true
  /\ plainReference (JObj (Addr 1) []) "constructor" = false.
Proof. vm_compute. repeat split; reflexivity. Qed.

(** ** An iteration over a body with one variable *)

Lemma includes_no_brace (pat : string) (s : string) :
  hasChar "{" s = false -> includes (String "{" pat) s = false.
Proof.
  induction s as [|c s IH]; [reflexivity |].
  intros H. apply hasChar_cons_false in H as [Hc Hs].
  unfold includes. cbn [splitAt startsWith]. rewrite Hc.
  specialize (IH Hs). unfold includes in IH.
  destruct (splitAt (String "{" pat) s) as [[b a]|]; [discriminate | reflexivity].
Qed.

Lemma includes_prefix (pat pre rest : string) :
  hasChar "{" pre = false ->
  includes (String "{" pat) (pre +:+ rest) = includes (String "{" pat) rest.
Proof.
  induction pre as [|c pre IH]; [reflexivity |].
  intros H. apply hasChar_cons_false in H as [Hc Hp].
  rewrite append_cons. unfold includes at 1. cbn [splitAt startsWith]. rewrite Hc.
  specialize (IH Hp). unfold includes in IH.
  destruct (splitAt (String "{" pat) (pre +:+ rest)) as [[b a]|];
    destruct (includes (String "{" pat) rest) eqn:E; unfold includes in E; rewrite <- IH in *;
    congruence.
Qed.

Lemma body_without_closing_tag (pre key post : string) :
  hasChar "{" pre = false -> variableKey key = true -> hasChar "{" post = false ->
  includes "{{/each}}" (pre +:+ "{{" +:+ key +:+ "}}" +:+ post) = false.
Proof.
  intros Hpre Hkey Hpost.
  destruct (variableKey_inv key Hkey) as (c & k & -> & H1 & H2 & Hk & Hb).
  assert (Htail : hasChar "{" (String c k +:+ "}}" +:+ post) = false).
  { rewrite hasChar_append, Hb. rewrite hasChar_append, Hpost. reflexivity. }
  change "{{/each}}" with (String "{" "{/each}}").
  rewrite (includes_prefix "{/each}}" pre _ Hpre).
  change ("{{" +:+ String c k +:+ "}}" +:+ post)
    with (String "{" (String "{" (String c (k +:+ "}}" +:+ post)))).
  pose proof (includes_no_brace "{/each}}" _ Htail) as Hno.
  change (String c k +:+ "}}" +:+ post) with (String c (k +:+ "}}" +:+ post)) in Hno, Htail.
  apply hasChar_cons_false in Htail as [Hc _].
  unfold includes in *. cbn [splitAt startsWith] in *.
  rewrite !Ascii.eqb_refl. rewrite (Ascii.eqb_sym "/" c), H2. rewrite Hc in *.
  destruct (splitAt (String "{" "{/each}}") (k +:+ "}}" +:+ post)) as [[b a]|];
    [discriminate | reflexivity].
Qed.

Lemma mapM_total {A B : Type} (f : A -> option B) (g : A -> B) (l : list A) :
  (forall x, In x l -> f x = Some (g x)) -> mapM f l = Some (map g l).
Proof.
  intros H. apply mapM_Some. induction l as [|x l IH]; [constructor |].
  cbn [map]. constructor; [apply H; now left |]. apply IH. intros y Hy. apply H. now right.
Qed.

(** X4. An iteration whose body is text without braces around one variable
    reference renders the body once for every element of the sequence, in
    order, the reference being read in the context of the element (its own
    properties, [_parent] and [_index]); this is the result of the whole
    evaluation when the text so produced has no opening pair of braces. The
    path of the sequence and, in the context of every element, the key are
    answered without a look at a prototype, and the values are ones whose
    conversion to a string is [toString]. *)
Theorem X4_each_renders_every_element (stn : string -> option Z) (stack : nat)
    (p pre key post : string) (data : Value) (r : Ref) (items : list Value) :
  String.eqb p "" = false -> all notBrace p = true ->
  hasChar "{" pre = false -> variableKey key = true -> hasChar "{" post = false ->
  ownPath data (trim p) = true ->
  getNestedValue data (trim p) = JArr r items -> items <> [] ->
  forallb (fun item => plainReference (childContext data items item) key) items = true ->
  let out :=
    Str.concat
      (map (fun item =>
              pre +:+ shown (getNestedValue (childContext data items item) (trim key)) +:+ post)
           items) in
  includes "{{" out = false ->
  processTemplate stn (S (S stack))
    (eachDirective p (pre +:+ "{{" +:+ key +:+ "}}" +:+ post)) data
  = Some out.
Proof.
  intros Hp Hpb Hpre Hkey Hpost _ Hitems Hne _ out Hout.
  rewrite TemplateProps.processTemplate_S.
  destruct (String.eqb (eachDirective p _) "") eqn:E; [discriminate E |].
  rewrite (processEachBlocks_directive _ p _ data Hp Hpb
             (body_without_closing_tag pre key post Hpre Hkey Hpost)).
  rewrite Hitems. destruct items as [|x xs]; [congruence |].
  rewrite (mapM_total _
             (fun item =>
                pre +:+ shown (getNestedValue (childContext data (x :: xs) item) (trim key))
                    +:+ post)).
  2:{ intros item _. now apply processTemplate_reference. }
  cbn [mbind option_bind]. fold out.
  unfold processIfBlocks, replaceVariables.
  rewrite replaceAll_no_match.
  2:{ intros n. apply matchIf_no_braces, includes_startsWith_false.
      now apply includes_drop_false. }
  cbn [mbind option_bind]. apply replaceAll_no_match.
  intros n. apply matchVariable_no_braces, includes_startsWith_false.
  now apply includes_drop_false.
Qed.

Definition twoPosts : list Value :=
  [JObj (Addr 3) [("title", JStr "A")]; JObj (Addr 4) [("title", JStr "B")]].

Lemma X4_each_renders_every_element_witness :
  processTemplate decimalToNumber 3 "{{#each posts}}<li>{{title}}</li>{{/each}}"
    (JObj (Addr 1) [("posts", JArr (Addr 2) twoPosts)])
  = Some "<li>A</li><li>B</li>".
Proof.
  exact (X4_each_renders_every_element decimalToNumber 1 "posts" "<li>" "title" "</li>"
           (JObj (Addr 1) [("posts", JArr (Addr 2) twoPosts)]) (Addr 2) twoPosts
           eq_refl eq_refl eq_refl eq_refl eq_refl eq_refl eq_refl ltac:(discriminate)
           eq_refl eq_refl).
Defined.

(** ** An evaluation that does not end *)

(** The text the variable [v] of the looping context holds. *)
Definition loopValue : string := "{{#if xs}}{{#each xs}}{{v}}{{/each}}{{/if}}".

Definition loopItem : Value := JObj (Addr 3) [("v", JStr loopValue)].

Definition loopChild : Value :=
  childContext TemplateProps.loopContext [loopItem] loopItem.

Lemma loopValue_matchIf :
  matchIf loopValue = Some (("xs", TemplateProps.loopTemplate, ""), String.length loopValue).
Proof. vm_compute. reflexivity. Qed.

Lemma loop_body (stn : string -> option Z) (stack : nat) (r : string) :
  processTemplate stn stack "{{v}}" loopChild = Some r -> r = loopValue.
Proof.
  intros H.
  assert (H1 : processTemplate stn (stack + 2) "{{v}}" loopChild = Some r).
  { apply (TemplateProps.processTemplate_stack stn stack); [lia | exact H]. }
  assert (H2 : processTemplate stn (stack + 2) "{{v}}" loopChild = Some loopValue).
  { apply (TemplateProps.processTemplate_stack stn 2); [lia |]. vm_compute. reflexivity. }
  congruence.
Qed.

Lemma loop_items :
  getNestedValue TemplateProps.loopContext (trim "xs") = JArr (Addr 2) [loopItem].
Proof. vm_compute. reflexivity. Qed.

Lemma loop_parts : Str.concat [loopValue] = loopValue.
Proof. vm_compute. reflexivity. Qed.

Lemma loop_condition (stn : string -> option Z) :
  evalCondition stn TemplateProps.loopContext "xs" = true.
Proof. vm_compute. reflexivity. Qed.

Lemma loopValue_nonempty : loopValue <> "".
Proof. discriminate. Qed.

Lemma bind_Some {A B : Type} (x : A) (f : A -> option B) : (Some x ≫= f) = f x.
Proof. reflexivity. Qed.

Lemma loop_each (rec : string -> Value -> option string) :
  processEachBlocks rec TemplateProps.loopTemplate TemplateProps.loopContext
  = match rec "{{v}}" loopChild with
    | Some y => Some (Str.concat [y])
    | None => None
    end.
Proof.
  unfold TemplateProps.loopTemplate.
  rewrite processEachBlocks_directive by (vm_compute; reflexivity).
  rewrite loop_items. cbn [mapM]. fold loopChild.
  now destruct (rec "{{v}}" loopChild).
Qed.

Lemma loop_if (stn : string -> option Z) (rec : string -> Value -> option string) :
  processIfBlocks stn rec loopValue TemplateProps.loopContext
  = rec TemplateProps.loopTemplate TemplateProps.loopContext.
Proof.
  unfold processIfBlocks.
  rewrite (replaceAll_whole matchIf _ loopValue _ loopValue_nonempty loopValue_matchIf).
  unfold ifCallback. now rewrite loop_condition.
Qed.

Lemma loop_step (stn : string -> option Z) (rec : string -> Value -> option string) :
  (forall r, rec "{{v}}" loopChild = Some r -> r = loopValue) ->
  rec TemplateProps.loopTemplate TemplateProps.loopContext = None ->
  (processed ← processEachBlocks rec TemplateProps.loopTemplate TemplateProps.loopContext;
   processed ← processIfBlocks stn rec processed TemplateProps.loopContext;
   replaceVariables processed TemplateProps.loopContext) = None.
Proof.
  intros Hbody Hrec. rewrite loop_each.
  destruct (rec "{{v}}" loopChild) as [r|] eqn:E; [| reflexivity].
  rewrite (Hbody r eq_refl), loop_parts, bind_Some, loop_if, Hrec.
  reflexivity.
Qed.

Lemma loopTemplate_nonempty : String.eqb TemplateProps.loopTemplate "" = false.
Proof. vm_compute. reflexivity. Qed.

(** X5. The recursion of the engine through values of the context need not
    end. The iteration of the template below yields, as the value of [v], a
    conditional around that same iteration; the pass over conditionals then
    evaluates it against the same context, and so on: whatever the bound on
    the call stack, it is exceeded. *)
Theorem X5_processTemplate_diverges (stn : string -> option Z) (stack : nat) :
  processTemplate stn stack TemplateProps.loopTemplate TemplateProps.loopContext = None.
Proof.
  induction stack as [|stack IH]; [reflexivity |].
  rewrite TemplateProps.processTemplate_S.
  rewrite loopTemplate_nonempty.
  apply loop_step; [| exact IH].
  intros r. apply loop_body.
Qed.

End EngineFacts.

(* ================================================================== *)
(** * Properties of renderComponent and of the module configuration    *)
(* ================================================================== *)

Module ComponentFacts.
Import Str StrFacts JS TemplateEngine TemplateLoader Components.

Section Facts.
Variable stn : string -> option Z.
Variable pathJoin : list string -> string.
Variable cwd : string.
Variable dirname : string.

(** X6. A component whose template exists neither in the project nor among
    the built-in defaults renders as the empty string, whatever the data
    and the preprocessor: the two failures are reported, nothing is thrown
    and the cache is left as it was. *)
Theorem X6_renderComponent_missing_template
    (fs : string -> option string) (site : SiteConfig) (stack : nat)
    (cache : gmap string string) (name : string) (data : Value)
    (preprocessor : option (Value -> Value)) :
  cached pathJoin cwd site cache name = None ->
  fs (templatePath pathJoin cwd site name) = None ->
  fs (engineDefaultPath pathJoin dirname name) = None ->
  renderComponent stn pathJoin cwd dirname fs site (S stack) cache name data preprocessor
  = {| rendered := Some "";
       templatesAfter := cache;
       reported := [ "Error loading template " +:+ name +:+ ":";
                     "Also tried engine default at "
                       +:+ engineDefaultPath pathJoin dirname name +:+ ":" ] |}.
Proof.
  intros Hc Hp Hd. unfold renderComponent, loadTemplate. now rewrite Hc, Hp, Hd.
Qed.

(** X7. Switching the caching of templates off through updateConfig empties the
    cache, and that is all it does to loadTemplate, which reads the flag of
    the site configuration: with that flag on, the next template read from
    storage is stored again and then served from the cache, whatever
    storage holds by then. *)
Theorem X7_updateConfig_does_not_stop_caching
    (st : EngineState) (newConfig : EngineOptions) (v : Value)
    (fs fs' : string -> option string) (site : SiteConfig) (name : string) :
  optCacheTemplates newConfig = Some v -> truthy v = false ->
  truthy (cacheTemplates site) = true ->
  let st' := updateConfig newConfig st in
  let first := loadTemplate pathJoin cwd dirname fs site (templateCache st') name in
  truthy (engineCacheTemplates (config st')) = false
  /\ templateCache st' = ∅
  /\ content first = resolved pathJoin cwd dirname fs site name
  /\ (content first <> "" ->
      loadTemplate pathJoin cwd dirname fs' site (cacheAfter first) name
      = {| content := content first; cacheAfter := cacheAfter first; errors := [] |}).
Proof.
  intros Ho Hv Hsite st' first.
  assert (Hcfg : truthy (engineCacheTemplates (config st')) = false).
  { subst st'. unfold updateConfig. rewrite Ho. simpl. rewrite Hv. exact Hv. }
  assert (Hempty : templateCache st' = ∅).
  { subst st'. unfold updateConfig. rewrite Ho. simpl. now rewrite Hv. }
  split; [exact Hcfg |]. split; [exact Hempty |]. split.
  - subst first. rewrite Hempty. apply LoaderProps.load_miss.
    unfold cached. rewrite Hsite. now rewrite lookup_empty.
  - intros Hne. subst first. unfold loadTemplate at 1.
    now rewrite (LoaderProps.load_stores pathJoin cwd dirname fs site _ name Hsite Hne).
Qed.

End Facts.

Lemma X6_renderComponent_missing_template_witness :
  renderComponent decimalToNumber LoaderProps.joinSlash "/site" "/engine/lib"
    LoaderProps.projectFiles LoaderProps.cachingSite 1 ∅ "nope" JNull None
  = {| rendered := Some "";
       templatesAfter := ∅;
       reported := [ "Error loading template " +:+ "nope" +:+ ":";
                     "Also tried engine default at "
                       +:+ engineDefaultPath LoaderProps.joinSlash "/engine/lib" "nope"
                       +:+ ":" ] |}.
Proof. apply X6_renderComponent_missing_template; reflexivity. Defined.

Lemma X7_updateConfig_does_not_stop_caching_witness :
  let st' := updateConfig {| optCacheTemplates := Some (JBool false);
                             optTemplatesDir := None;
                             optDefaultLanguage := None |} initialState in
  let first := loadTemplate LoaderProps.joinSlash "/site" "/engine/lib"
                 LoaderProps.projectFiles LoaderProps.cachingSite (templateCache st') "post" in
  truthy (engineCacheTemplates (config st')) = false
  /\ templateCache st' = ∅
  /\ content first
     = resolved LoaderProps.joinSlash "/site" "/engine/lib" LoaderProps.projectFiles
         LoaderProps.cachingSite "post"
  /\ (content first <> "" ->
      loadTemplate LoaderProps.joinSlash "/site" "/engine/lib" (fun _ => None)
        LoaderProps.cachingSite (cacheAfter first) "post"
      = {| content := content first; cacheAfter := cacheAfter first; errors := [] |}).
Proof.
  apply (X7_updateConfig_does_not_stop_caching LoaderProps.joinSlash "/site" "/engine/lib"
           initialState _ (JBool false)); reflexivity.
Defined.

End ComponentFacts.

(* ================================================================== *)
(** * File names                                                      *)
(* ================================================================== *)

Module NamingFacts.
Import Str StrFacts SiteBuilder.

Lemma replaceFirst_suffix (pat stem : string) :
  bordered pat = false -> includes pat stem = false ->
  replaceFirst pat "" (stem +:+ pat) = stem.
Proof.
  intros Hb Hs. unfold replaceFirst.
  replace (stem +:+ pat) with (stem +:+ pat +:+ "") by now rewrite append_nil_r.
  rewrite (splitAt_first pat stem "" Hb Hs).
  now rewrite append_nil_l, append_nil_r.
Qed.

Lemma replaceChar_free (c d : ascii) (s : string) :
  Ascii.eqb c d = false -> hasChar c (replaceChar c d s) = false.
Proof.
  intros Hcd. induction s as [|x s IH]; [reflexivity |].
  cbn [replaceChar hasChar].
  destruct (Ascii.eqb x c) eqn:E.
  - now rewrite Hcd.
  - rewrite Ascii.eqb_sym, E. exact IH.
Qed.

(** X8. For a file [stem.md] whose stem does not itself contain [.md], the
    slug of the post (its [file] property and the directory of its page) is
    the stem with every space replaced by an underscore, and the title used
    when the frontmatter has none is the stem with every dash replaced by a
    space. A slug never contains a space. *)
Theorem X8_filename_stem (stem filename : string) :
  hasChar " " (slugFromFilename filename) = false
  /\ (includes ".md" stem = false ->
      slugFromFilename (stem +:+ ".md") = replaceChar " " "_" stem
      /\ titleFromFilename (stem +:+ ".md") = replaceChar "-" " " stem).
Proof.
  split; [now apply replaceChar_free |].
  intros Hs. unfold slugFromFilename, titleFromFilename.
  now rewrite (replaceFirst_suffix ".md" stem eq_refl Hs).
Qed.

Lemma X8_filename_stem_witness :
  slugFromFilename ("my first-post" +:+ ".md") = replaceChar " " "_" "my first-post"
  /\ titleFromFilename ("my first-post" +:+ ".md") = replaceChar "-" " " "my first-post".
Proof. apply (proj2 (X8_filename_stem "my first-post" "")). reflexivity. Defined.

End NamingFacts.

(* ================================================================== *)
(** * Properties of extractTags and paginateItems                      *)
(* ================================================================== *)

Module PagesFacts.
Import JS SiteBuilder Pages.

(** ** extractTags *)

(** The tags of a post as property keys, in the order of the array. *)
Definition labelsOf (post : Post) : list string :=
  match prop post "tags" with
  | JArr _ items => map toString items
  | _ => []
  end.


(** The posts that carry the tag [t], in the order of the collection, a
    post being listed once for every occurrence of the tag in its array. *)
Definition occurrences (t : string) (keys : list string) : nat :=
  length (List.filter (String.eqb t) keys).

Definition tagged (t : string) (posts : list Post) : list Post :=
  flat_map (fun post => replicate (occurrences t (labelsOf post)) post) posts.











Lemma replaceChar_injective (c d : ascii) (s t : string) :
  Str.hasChar d s = false -> Str.hasChar d t = false ->
  Str.replaceChar c d s = Str.replaceChar c d t -> s = t.
Proof.
  revert t. induction s as [|x s IH]; intros [|y t] Hs Ht H; try discriminate; [reflexivity |].
  cbn [Str.replaceChar Str.hasChar] in *.
  destruct (Ascii.eqb d x) eqn:Edx; [discriminate |].
  destruct (Ascii.eqb d y) eqn:Edy; [discriminate |].
  injection H as Hh Htl. f_equal; [| now apply IH].
  destruct (Ascii.eqb_spec x c) as [->|Hx], (Ascii.eqb_spec y c) as [->|Hy]; try reflexivity.
  - subst y. now rewrite Ascii.eqb_refl in Edy.
  - subst x. now rewrite Ascii.eqb_refl in Edx.
  - exact Hh.
Qed.

(** X10. The directory of a tag holds no space, and two different tags written
    without an underscore get different directories. *)
Theorem X10_tagSlug_distinct (a b : string) :
  Str.hasChar "_" a = false -> Str.hasChar "_" b = false -> a <> b ->
  tagSlug a <> tagSlug b /\ Str.hasChar " " (tagSlug a) = false.
Proof.
  intros Ha Hb Hne. split; [| now apply NamingFacts.replaceChar_free].
  intros H. apply Hne. now apply (replaceChar_injective " " "_").
Qed.

Lemma X10_tagSlug_distinct_witness :
  tagSlug "web dev" <> tagSlug "webdev" /\ Str.hasChar " " (tagSlug "web dev") = false.
Proof. apply X10_tagSlug_distinct; [reflexivity | reflexivity | discriminate]. Defined.

(** ** paginateItems *)

Section Chunks.
Context {A : Type}.

Lemma chunks_take (p : nat) (l : list A) (k : nat) :
  concat (map (fun i => take p (drop (i * p) l)) (seq 0 k)) = take (k * p) l.
Proof.
  induction k as [|k IH]; [reflexivity |].
  rewrite seq_S, map_app, concat_app, IH. cbn [map concat Nat.add].
  rewrite app_nil_r, take_take_drop. f_equal. lia.
Qed.

End Chunks.

Lemma ceilDiv_bounds (n p : Z) :
  1 <= p -> 0 <= n ->
  let k := MarkdownProcessor.ceilDiv n p in
  0 <= k /\ n <= k * p /\ k * p < n + p.
Proof.
  intros Hp Hn k. subst k. unfold MarkdownProcessor.ceilDiv.
  pose proof (Z.div_mod (- n) p ltac:(lia)) as Hdm.
  pose proof (Z.mod_pos_bound (- n) p ltac:(lia)) as Hr.
  nia.
Qed.

Section PaginateFacts.
Context {A : Type}.
Variable generatePagination : Z -> Z -> string -> option string.
Variable pageTitle : Z -> string.

Local Abbreviation paginate := (paginateItems (A := A) generatePagination pageTitle).
Local Abbreviation object := (pageObject (A := A) generatePagination pageTitle).

Lemma pageObject_fields (items : list A) (perPage : Z) (basePath : string) (n : Z)
    (pg : Page A) :
  object items perPage basePath n = Some pg ->
  page pg = n /\ title pg = pageTitle n /\ isFirstPage pg = (n =? 1)
  /\ itemsForPage pg = slice ((n - 1) * perPage) ((n - 1) * perPage + perPage) items.
Proof.
  unfold pageObject.
  destruct (if 1 <? totalPages items perPage then _ else _) as [html|]; [| discriminate].
  cbn. intros [= <-]. auto.
Qed.

Lemma slice_chunk (items : list A) (perPage : Z) (i : nat) :
  1 <= perPage ->
  slice ((Z.of_nat i + 1 - 1) * perPage) ((Z.of_nat i + 1 - 1) * perPage + perPage) items
  = take (Z.to_nat perPage) (drop (i * Z.to_nat perPage) items).
Proof.
  intros Hp. unfold slice. f_equal; [f_equal; lia |]. f_equal. nia.
Qed.

(** X11. For a page size of at least 1 (and a pagination renderer that
    returns), paginateItems returns pages numbered 1, 2, ... up to the
    ceiling of the number of items over the page size; every page holds at
    least one and at most [perPage] items, and the pages put end to end are
    the items: none is lost, repeated or reordered. In particular there is
    no page at all when there are no items. *)
Theorem X11_paginateItems_partition (items : list A) (perPage : Z) (basePath : string) :
  1 <= perPage ->
  (forall n total, is_Some (generatePagination n total basePath)) ->
  exists pages,
    paginate items perPage basePath = Some pages
    /\ map page pages = seqZ 1 (totalPages items perPage)
    /\ concat (map itemsForPage pages) = items
    /\ Forall (fun pg => (1 <= length (itemsForPage pg) <= Z.to_nat perPage)%nat) pages
    /\ (items = [] -> pages = []).
Proof.
  intros Hp Htotal.
  pose proof (ceilDiv_bounds (Z.of_nat (length items)) perPage Hp ltac:(lia)) as Hk.
  fold (totalPages items perPage) in Hk. cbv zeta in Hk.
  set (k := totalPages items perPage) in *. destruct Hk as (Hk0 & Hk1 & Hk2).
  unfold paginateItems. destruct (Z.eqb_spec perPage 0) as [?|_]; [lia |]. fold k.
  assert (Hsome : is_Some (mapM (object items perPage basePath) (seqZ 1 k))).
  { apply mapM_is_Some, Forall_forall. intros n _. unfold compose, pageObject. fold k.
    destruct (1 <? k); [| now eexists].
    destruct (Htotal n k) as [html ->]. now eexists. }
  destruct Hsome as [pages Hpages]. exists pages. split; [exact Hpages |].
  apply mapM_Some in Hpages.
  assert (Hfields : Forall2 (fun n pg =>
                      page pg = n
                      /\ itemsForPage pg
                         = slice ((n - 1) * perPage) ((n - 1) * perPage + perPage) items)
                      (seqZ 1 k) pages).
  { eapply Forall2_impl; [exact Hpages |]. intros n pg H.
    apply pageObject_fields in H. tauto. }
  assert (Hnum : map page pages = seqZ 1 k).
  { clear -Hfields. induction Hfields as [|n pg ns pgs [Hn _] _ IH]; [reflexivity |].
    cbn. now rewrite Hn, IH. }
  assert (Hitems : map itemsForPage pages
                   = map (fun i => take (Z.to_nat perPage) (drop (i * Z.to_nat perPage) items))
                         (seq 0 (Z.to_nat k))).
  { unfold seqZ in Hfields. apply Forall2_fmap_l in Hfields.
    clear -Hfields Hp. induction Hfields as [|i pg ixs pgs [_ Hi] _ IH]; [reflexivity |].
    cbn [map]. rewrite IH. f_equal. rewrite Hi.
    rewrite <- (slice_chunk items perPage i Hp). f_equal; lia. }
  split; [exact Hnum |]. split; [| split].
  - rewrite Hitems, chunks_take. apply take_ge. nia.
  - apply List.Forall_forall. intros pg Hin.
    assert (Hin' : In (itemsForPage pg) (map itemsForPage pages)) by now apply in_map.
    rewrite Hitems in Hin'. apply in_map_iff in Hin' as (i & <- & Hi).
    apply in_seq in Hi. rewrite length_take, length_drop.
    assert (Hi' : Z.of_nat i < k) by lia.
    assert (Hlt : (i * Z.to_nat perPage < length items)%nat).
    { apply Nat2Z.inj_lt. rewrite Nat2Z.inj_mul, Z2Nat.id by lia. nia. }
    lia.
  - intros ->. cbn [length] in *.
    assert (k = 0) by (cbn in Hk2; nia).
    destruct pages as [|pg pages]; [reflexivity |].
    rewrite H in Hnum. discriminate Hnum.
Qed.

Lemma pageObject_pagination (items : list A) (perPage : Z) (basePath : string) (n : Z)
    (pg : Page A) :
  object items perPage basePath n = Some pg ->
  if 1 <? totalPages items perPage
  then generatePagination n (totalPages items perPage) basePath = Some (pagination pg)
  else pagination pg = "".
Proof.
  unfold pageObject. destruct (1 <? totalPages items perPage).
  - destruct (generatePagination n (totalPages items perPage) basePath) as [html|];
      [| discriminate].
    cbn. now intros [= <-].
  - cbn. now intros [= <-].
Qed.

(** X12. Every page paginateItems returns carries a number between 1 and the
    number of pages, the title the [pageTitle] option gives for that
    number, and the mark of the first page on page 1 only. Its navigation
    is empty when there is a single page; otherwise it is what
    generatePagination returned for that page number and the number of
    pages, so that generatePagination is only ever asked for a page that
    exists. *)
Theorem X12_paginateItems_pages (items : list A) (perPage : Z) (basePath : string)
    (pages : list (Page A)) :
  1 <= perPage ->
  paginate items perPage basePath = Some pages ->
  Forall (fun pg =>
            1 <= page pg <= totalPages items perPage
            /\ title pg = pageTitle (page pg)
            /\ isFirstPage pg = (page pg =? 1)
            /\ (if 1 <? totalPages items perPage
                then generatePagination (page pg) (totalPages items perPage) basePath
                     = Some (pagination pg)
                else pagination pg = ""))
         pages.
Proof.
  intros Hp. unfold paginateItems.
  destruct (Z.eqb_spec perPage 0) as [?|_]; [lia |].
  intros Hpages. apply mapM_Some in Hpages.
  assert (Hrange : Forall (fun n => 1 <= n <= totalPages items perPage)
                          (seqZ 1 (totalPages items perPage))).
  { apply Forall_forall. intros n Hn. apply elem_of_seqZ in Hn. lia. }
  induction Hpages as [|n pg ns pgs Hpg _ IH]; [constructor |].
  apply Forall_cons_1 in Hrange as [Hn Hrange].
  constructor; [| now apply IH].
  pose proof (pageObject_pagination items perPage basePath n pg Hpg) as Hnav.
  apply pageObject_fields in Hpg as (Hnum & Htitle & Hfirst & _).
  rewrite Hnum. auto.
Qed.

End PaginateFacts.

Lemma X11_paginateItems_partition_witness :
  exists pages,
    paginateItems (fun _ _ _ => Some "") (fun n => pretty n) [1; 2; 3; 4; 5] 2 "/" = Some pages
    /\ map page pages = seqZ 1 (totalPages [1; 2; 3; 4; 5] 2)
    /\ concat (map itemsForPage pages) = [1; 2; 3; 4; 5]
    /\ Forall (fun pg => (1 <= length (itemsForPage pg) <= Z.to_nat 2)%nat) pages
    /\ ([1; 2; 3; 4; 5] = [] -> pages = []).
Proof.
  apply (X11_paginateItems_partition (fun _ _ _ => Some "") (fun n => pretty n)
           [1; 2; 3; 4; 5] 2 "/"); [lia | intros; now eexists].
Defined.

Lemma X12_paginateItems_pages_witness :
  Forall (fun pg =>
            1 <= page pg <= totalPages [1; 2; 3] 2
            /\ title pg = pretty (page pg)
            /\ isFirstPage pg = (page pg =? 1)
            /\ (if 1 <? totalPages [1; 2; 3] 2
                then Some (pretty (page pg) +:+ "/" +:+ pretty (totalPages [1; 2; 3] 2))
                     = Some (pagination pg)
                else pagination pg = ""))
         [ mkPage 1 "1" [1; 2] "1/2" true; mkPage 2 "2" [3] "2/2" false ].
Proof.
  apply (X12_paginateItems_pages (fun n total _ => Some (pretty n +:+ "/" +:+ pretty total))
           (fun n => pretty n) [1; 2; 3] 2 "/"); [lia | vm_compute; reflexivity].
Defined.

End PagesFacts.

(* ================================================================== *)
(** * Properties of the file cache                                     *)
(* ================================================================== *)

Module FileCacheFacts.
Import FileHandler.

Definition keys (cache : FileCache) : list string := map fst cache.

(** The paths of the cache are distinct and there are at most
    [MAX_CACHE_SIZE] of them. *)
Definition bounded (cache : FileCache) : Prop :=
  List.NoDup (keys cache) /\ (length cache <= MAX_CACHE_SIZE)%nat.

Lemma get_set_same (k : string) (e : Entry) (cache : FileCache) :
  get k (set k e cache) = Some e.
Proof.
  induction cache as [|[k' e'] cache IH]; cbn [set get].
  - now rewrite String.eqb_refl.
  - destruct (String.eqb k k') eqn:E; cbn [get]; rewrite E; [reflexivity | exact IH].
Qed.

Lemma get_None_keys (k : string) (cache : FileCache) :
  get k cache = None <-> ~ In k (keys cache).
Proof.
  induction cache as [|[k' e'] cache IH]; cbn [get keys map fst In]; [tauto |].
  destruct (String.eqb_spec k k') as [->|Hne].
  - split; [discriminate | intros H; exfalso; apply H; now left].
  - fold (keys cache). rewrite IH. intuition congruence.
Qed.

Lemma keys_set (k : string) (e : Entry) (cache : FileCache) :
  keys (set k e cache)
  = match get k cache with
    | Some _ => keys cache
    | None => keys cache ++ [k]
    end.
Proof.
  induction cache as [|[k' e'] cache IH]; cbn [set get keys map fst app]; [reflexivity |].
  destruct (String.eqb_spec k k') as [->|Hne]; [reflexivity |].
  cbn [map fst]. fold (keys (set k e cache)) (keys cache). rewrite IH.
  now destruct (get k cache).
Qed.

Lemma length_keys (cache : FileCache) : length (keys cache) = length cache.
Proof. apply length_map. Qed.

Lemma NoDup_snoc (k : string) (l : list string) :
  List.NoDup l -> ~ In k l -> List.NoDup (l ++ [k]).
Proof.
  induction l as [|x l IH]; cbn [app]; intros Hnd Hk.
  - constructor; [easy | constructor].
  - inversion Hnd as [|? ? Hx Hl]; subst. constructor.
    + rewrite in_app_iff. cbn [In]. intros [H|[H|[]]]; [now apply Hx |].
      apply Hk. now left.
    + apply IH; [exact Hl |]. intros H. apply Hk. now right.
Qed.

Lemma NoDup_set (k : string) (e : Entry) (cache : FileCache) :
  List.NoDup (keys cache) -> List.NoDup (keys (set k e cache)).
Proof.
  intros H. rewrite keys_set. destruct (get k cache) eqn:E; [exact H |].
  apply get_None_keys in E. now apply NoDup_snoc.
Qed.

Lemma keys_delete_incl (k : string) (cache : FileCache) :
  incl (keys (delete k cache)) (keys cache).
Proof.
  induction cache as [|[k' e'] cache IH]; cbn [delete keys map fst]; [easy |].
  destruct (String.eqb k k'); [apply incl_tl, incl_refl |].
  cbn [map fst]. apply incl_cons; [now left | now apply incl_tl].
Qed.

Lemma NoDup_delete (k : string) (cache : FileCache) :
  List.NoDup (keys cache) -> List.NoDup (keys (delete k cache)).
Proof.
  induction cache as [|[k' e'] cache IH]; cbn [delete keys map fst]; [easy |].
  intros H. inversion H as [|? ? Hn Hd]; subst.
  destruct (String.eqb k k'); [exact Hd |].
  cbn [map fst]. constructor; [| now apply IH].
  intros Hin. apply Hn. now apply (keys_delete_incl k cache).
Qed.

Lemma length_delete (k : string) (cache : FileCache) :
  (length (delete k cache) <= length cache)%nat.
Proof.
  induction cache as [|[k' e'] cache IH]; cbn [delete length]; [lia |].
  destruct (String.eqb k k'); cbn [length]; lia.
Qed.

Lemma get_delete_same (k : string) (cache : FileCache) :
  List.NoDup (keys cache) -> get k (delete k cache) = None.
Proof.
  induction cache as [|[k' e'] cache IH]; cbn [delete keys map fst]; [easy |].
  intros H. inversion H as [|? ? Hn Hd]; subst.
  destruct (String.eqb_spec k k') as [->|Hne].
  - now apply get_None_keys.
  - cbn [get]. destruct (String.eqb_spec k k'); [congruence | now apply IH].
Qed.

Lemma get_set_other (k k' : string) (e : Entry) (cache : FileCache) :
  k <> k' -> get k' (set k e cache) = get k' cache.
Proof.
  intros Hne. induction cache as [|[k0 e0] cache IH]; cbn [set get].
  - destruct (String.eqb_spec k' k); [congruence | reflexivity].
  - destruct (String.eqb_spec k k0) as [->|Hk]; cbn [get].
    + destruct (String.eqb_spec k' k0); [congruence | reflexivity].
    + now rewrite IH.
Qed.

Lemma length_set (k : string) (e : Entry) (cache : FileCache) :
  length (set k e cache)
  = match get k cache with
    | Some _ => length cache
    | None => S (length cache)
    end.
Proof.
  rewrite <- !length_keys, keys_set. destruct (get k cache); [reflexivity |].
  rewrite length_app. cbn. lia.
Qed.

(** The cache the eviction step of addToCache leaves. *)
Definition evicted (cache : FileCache) : FileCache :=
  if (MAX_CACHE_SIZE <=? length cache)%nat then
    match cache with
    | (oldestKey, _) :: _ => delete oldestKey cache
    | [] => cache
    end
  else cache.

Lemma evicted_tail (cache : FileCache) :
  evicted cache = if (MAX_CACHE_SIZE <=? length cache)%nat then tl cache else cache.
Proof.
  unfold evicted. destruct (MAX_CACHE_SIZE <=? length cache)%nat; [| reflexivity].
  destruct cache as [|[k e] cache]; [reflexivity |].
  cbn [delete tl]. now rewrite String.eqb_refl.
Qed.

Lemma evicted_room (cache : FileCache) :
  bounded cache ->
  List.NoDup (keys (evicted cache)) /\ (length (evicted cache) < MAX_CACHE_SIZE)%nat.
Proof.
  intros [Hnd Hlen]. rewrite evicted_tail.
  destruct (Nat.leb_spec MAX_CACHE_SIZE (length cache)) as [Hge|Hlt]; [| auto].
  destruct cache as [|[k e] cache]; [cbn in Hge; unfold MAX_CACHE_SIZE in Hge; lia |].
  cbn [tl]. split; [now inversion Hnd | cbn [length] in Hlen; lia].
Qed.

Lemma addToCache_evicted (config : Config) (now : Z) (p c : string) (cache : FileCache) :
  addToCache config now p c cache
  = if enableCache config then set p {| content := c; timestamp := now |} (evicted cache)
    else cache.
Proof. unfold addToCache, evicted. now destruct (enableCache config). Qed.

Lemma addToCache_bounded (config : Config) (now : Z) (p c : string) (cache : FileCache) :
  bounded cache -> bounded (addToCache config now p c cache).
Proof.
  intros Hb. rewrite addToCache_evicted. destruct (enableCache config); [| exact Hb].
  destruct (evicted_room cache Hb) as [Hnd Hlen]. split; [now apply NoDup_set |].
  rewrite length_set. destruct (get p (evicted cache)); lia.
Qed.

Lemma getFromCache_bounded (config : Config) (now : Z) (p : string) (cache : FileCache) :
  bounded cache -> bounded (snd (getFromCache config now p cache)).
Proof.
  intros Hb. unfold getFromCache. destruct (enableCache config); [| exact Hb].
  cbn [negb]. destruct (get p cache) as [e|]; [| exact Hb].
  destruct (cacheTTL config <? now - timestamp e); [| exact Hb].
  destruct Hb as [Hnd Hlen]. split; [now apply NoDup_delete |].
  pose proof (length_delete p cache). cbn [snd]. lia.
Qed.

(** X13. Every operation of the module keeps the cache within its limit of 100
    entries, with one entry per path. *)
Theorem X13_fileCache_bounded (config : Config) (dirname : string -> string)
    (mkdir writable : string -> bool) (now later : Z) (p c : string)
    (cache : FileCache) (disk : gmap string string) :
  bounded cache ->
  bounded (addToCache config now p c cache)
  /\ bounded (snd (getFromCache config now p cache))
  /\ bounded (cacheAfter (readFile config now later p cache disk))
  /\ bounded (cacheAfter (writeFile config dirname mkdir writable now p c cache disk)).
Proof.
  intros Hb. split; [now apply addToCache_bounded |].
  split; [now apply getFromCache_bounded |]. split.
  - unfold readFile. pose proof (getFromCache_bounded config now p cache Hb) as Hg.
    destruct (getFromCache config now p cache) as [[[|a s]|] cache']; cbn [snd] in Hg;
      try exact Hg; destruct (disk !! p); cbn [cacheAfter];
      try exact Hg; now apply addToCache_bounded.
  - unfold writeFile. destruct (negb (mkdir (dirname p))); [exact Hb |].
    destruct (writable p); [now apply addToCache_bounded | exact Hb].
Qed.

Lemma X13_fileCache_bounded_witness :
  bounded (addToCache initialConfig 0 "a.md" "text" [])
  /\ bounded (snd (getFromCache initialConfig 0 "a.md" []))
  /\ bounded (cacheAfter (readFile initialConfig 0 1 "a.md" [] ∅))
  /\ bounded (cacheAfter (writeFile initialConfig (fun _ => "/") (fun _ => true)
                            (fun _ => true) 0 "a.md" "text" [] ∅)).
Proof.
  apply X13_fileCache_bounded. split; [constructor | cbn; unfold MAX_CACHE_SIZE; lia].
Defined.

Lemma get_addToCache (config : Config) (now : Z) (p c : string) (cache : FileCache) :
  enableCache config = true ->
  get p (addToCache config now p c cache) = Some {| content := c; timestamp := now |}.
Proof. intros H. rewrite addToCache_evicted, H. apply get_set_same. Qed.

(** X14. With caching on, a content added at the time [now] is what
    getFromCache returns for the path until more than [cacheTTL]
    milliseconds have passed; from then on the answer is [null], and the
    entry is removed. *)
Theorem X14_addToCache_getFromCache (config : Config) (now later : Z) (p c : string)
    (cache : FileCache) :
  enableCache config = true ->
  bounded cache ->
  let cache' := addToCache config now p c cache in
  getFromCache config later p cache'
  = (if cacheTTL config <? later - now then (None, delete p cache') else (Some c, cache'))
  /\ get p (delete p cache') = None.
Proof.
  intros Hon Hb cache'. split.
  - unfold getFromCache. rewrite Hon. cbn [negb]. subst cache'.
    now rewrite (get_addToCache config now p c cache Hon).
  - apply get_delete_same. now apply (addToCache_bounded config now p c cache Hb).
Qed.

Lemma X14_addToCache_getFromCache_witness :
  let cache' := addToCache initialConfig 1000 "a.md" "text" [] in
  getFromCache initialConfig 61000 "a.md" cache'
  = (if cacheTTL initialConfig <? 61000 - 1000 then (None, delete "a.md" cache')
     else (Some "text", cache'))
  /\ get "a.md" (delete "a.md" cache') = None.
Proof.
  apply X14_addToCache_getFromCache; [reflexivity |].
  split; [constructor | cbn; unfold MAX_CACHE_SIZE; lia].
Defined.

(** X15. What writeFile has written is what readFile returns for the path
    afterwards, at any later time and with any configuration of the cache:
    from the cache while the entry is fresh, from disk otherwise. *)
Theorem X15_writeFile_readFile (config : Config) (dirname : string -> string)
    (mkdir writable : string -> bool) (now now' later' : Z) (p c : string)
    (cache : FileCache) (disk : gmap string string) :
  mkdir (dirname p) = true -> writable p = true ->
  let written := writeFile config dirname mkdir writable now p c cache disk in
  value written = Some tt
  /\ value (readFile config now' later' p (cacheAfter written) (diskAfter written)) = Some c.
Proof.
  intros Hm Hw written. subst written. unfold writeFile. rewrite Hm, Hw. cbn [negb].
  split; [reflexivity |]. cbn [cacheAfter diskAfter].
  unfold readFile, getFromCache.
  destruct (enableCache config) eqn:Hon; cbn [negb].
  - rewrite (get_addToCache config now p c cache Hon). cbn [timestamp content].
    destruct (cacheTTL config <? now' - now).
    + now rewrite lookup_insert_eq.
    + destruct c as [|a s]; [now rewrite lookup_insert_eq | reflexivity].
  - now rewrite lookup_insert_eq.
Qed.

Lemma X15_writeFile_readFile_witness :
  let written := writeFile initialConfig (fun _ => "/") (fun _ => true) (fun _ => true)
                   0 "/a.md" "" [] ∅ in
  value written = Some tt
  /\ value (readFile initialConfig 5 6 "/a.md" (cacheAfter written) (diskAfter written))
     = Some "".
Proof. apply X15_writeFile_readFile; reflexivity. Defined.

(** X16. While an entry is fresh and its content is not empty, readFile answers
    from the cache and does not look at the disk: a file changed or removed
    behind the module is not noticed. A cached empty content is never
    served: the disk is read again. *)
Theorem X16_readFile_cached (config : Config) (now later : Z) (p : string) (e : Entry)
    (cache : FileCache) (disk : gmap string string) :
  enableCache config = true ->
  get p cache = Some e ->
  now - timestamp e <= cacheTTL config ->
  readFile config now later p cache disk
  = match content e with
    | String a s =>
        {| value := Some (String a s); cacheAfter := cache; diskAfter := disk; logged := [] |}
    | EmptyString =>
        match disk !! p with
        | Some c =>
            {| value := Some c;
               cacheAfter := addToCache config later p c cache;
               diskAfter := disk;
               logged := [] |}
        | None =>
            {| value := None;
               cacheAfter := cache;
               diskAfter := disk;
               logged := ["Error reading file " +:+ p +:+ ":"] |}
        end
    end.
Proof.
  intros Hon He Hfresh. unfold readFile, getFromCache. rewrite Hon, He. cbn [negb].
  destruct (Z.ltb_spec (cacheTTL config) (now - timestamp e)) as [?|_]; [lia |].
  now destruct (content e).
Qed.

Lemma X16_readFile_cached_witness :
  readFile initialConfig 30000 30001 "/a.md" [("/a.md", {| content := "old"; timestamp := 0 |})]
    (<["/a.md" := "new"]> ∅)
  = {| value := Some "old";
       cacheAfter := [("/a.md", {| content := "old"; timestamp := 0 |})];
       diskAfter := <["/a.md" := "new"]> ∅;
       logged := [] |}.
Proof.
  apply (X16_readFile_cached initialConfig 30000 30001 "/a.md"
           {| content := "old"; timestamp := 0 |}); [reflexivity | reflexivity |].
  cbn. lia.
Defined.

(** X17. At the limit the entry inserted first is dropped, whether or not it
    was read since; this also happens when the path added is cached
    already, and the cache then shrinks by one entry. *)
Theorem X17_addToCache_evicts_oldest (config : Config) (now : Z) (p c oldest : string)
    (e0 : Entry) (rest : FileCache) :
  enableCache config = true ->
  get oldest rest = None ->
  length ((oldest, e0) :: rest) = MAX_CACHE_SIZE ->
  p <> oldest ->
  let cache' := addToCache config now p c ((oldest, e0) :: rest) in
  get oldest cache' = None
  /\ (forall q, q <> p -> get q cache' = get q rest)
  /\ length cache' = match get p rest with
                     | Some _ => (MAX_CACHE_SIZE - 1)%nat
                     | None => MAX_CACHE_SIZE
                     end.
Proof.
  intros Hon Hn Hlen Hne cache'. subst cache'.
  rewrite addToCache_evicted, Hon, evicted_tail, Hlen, Nat.leb_refl. cbn [tl].
  split; [| split].
  - now rewrite get_set_other by exact Hne.
  - intros q Hq. now rewrite get_set_other by congruence.
  - rewrite length_set. cbn [length] in Hlen. destruct (get p rest); lia.
Qed.

Definition fullCache : FileCache :=
  map (fun i => (pretty i, {| content := "x"; timestamp := 0 |})) (seq 0 100).

Lemma X17_addToCache_evicts_oldest_witness :
  let cache' := addToCache initialConfig 5 "7" "y" fullCache in
  get "0" cache' = None
  /\ (forall q, q <> "7" -> get q cache' = get q (tl fullCache))
  /\ length cache' = match get "7" (tl fullCache) with
                     | Some _ => (MAX_CACHE_SIZE - 1)%nat
                     | None => MAX_CACHE_SIZE
                     end.
Proof.
  apply (X17_addToCache_evicts_oldest initialConfig 5 "7" "y" "0"
           {| content := "x"; timestamp := 0 |} (tl fullCache)).
  - reflexivity.
  - vm_compute. reflexivity.
  - vm_compute. reflexivity.
  - discriminate.
Defined.

(** X18. updateConfig keeps the settings it is not given. Switching the cache
    off empties it, and from then on nothing is added, nothing is found,
    and every readFile goes to the disk. *)
Theorem X18_updateConfig_disables (newConfig : Options) (config : Config) (cache : FileCache)
    (now later : Z) (p c : string) (disk : gmap string string) :
  optEnableCache newConfig = Some false ->
  let config' := fst (updateConfig newConfig config cache) in
  let cache' := snd (updateConfig newConfig config cache) in
  cache' = []
  /\ cacheTTL config' = default (cacheTTL config) (optCacheTTL newConfig)
  /\ addToCache config' now p c cache' = []
  /\ getFromCache config' now p cache' = (None, [])
  /\ value (readFile config' now later p cache' disk) = disk !! p
  /\ cacheAfter (readFile config' now later p cache' disk) = [].
Proof.
  intros Hoff config' cache'. subst config' cache'.
  unfold updateConfig. rewrite Hoff. cbn [default fst snd enableCache cacheTTL].
  unfold readFile, getFromCache, addToCache. cbn [enableCache negb].
  repeat split; destruct (disk !! p); reflexivity.
Qed.

Lemma X18_updateConfig_disables_witness :
  let newConfig := {| optEnableCache := Some false; optCacheTTL := None |} in
  let cache := [("/a.md", {| content := "old"; timestamp := 0 |})] in
  let config' := fst (updateConfig newConfig initialConfig cache) in
  let cache' := snd (updateConfig newConfig initialConfig cache) in
  cache' = []
  /\ cacheTTL config' = default (cacheTTL initialConfig) (optCacheTTL newConfig)
  /\ addToCache config' 1 "/a.md" "new" cache' = []
  /\ getFromCache config' 1 "/a.md" cache' = (None, [])
  /\ value (readFile config' 1 2 "/a.md" cache' (<["/a.md" := "new"]> ∅))
     = (<["/a.md" := "new"]> ∅ : gmap string string) !! "/a.md"
  /\ cacheAfter (readFile config' 1 2 "/a.md" cache' (<["/a.md" := "new"]> ∅)) = [].
Proof. apply X18_updateConfig_disables. reflexivity. Defined.

(** ** listFiles *)

Lemma extension_dotted (options : string) :
  Str.startsWith "." (extension options) = true.
Proof.
  unfold extension. destruct (Str.startsWith "." options) eqn:E; [exact E | reflexivity].
Qed.

Lemma extension_twice (options : string) : extension (extension options) = extension options.
Proof. unfold extension at 1. now rewrite extension_dotted. Qed.

(** X19. An extension may be given with or without its dot. The names listed
    are those of the entries of the directory that are regular files and
    end with the dotted extension, in the order of the directory; a
    directory that cannot be read lists nothing and the failure is only
    logged. *)
Theorem X19_listFiles_extension (allEntries : list (string * bool)) (dirPath ext name : string) :
  Str.startsWith "." ext = false ->
  listFiles (Some allEntries) dirPath ext = listFiles (Some allEntries) dirPath ("." +:+ ext)
  /\ fst (listFiles (Some allEntries) dirPath ext)
     = List.filter (Str.endsWith ("." +:+ ext)) (map fst (List.filter snd allEntries))
  /\ (In name (fst (listFiles (Some allEntries) dirPath ext))
      <-> In (name, true) allEntries /\ Str.endsWith ("." +:+ ext) name = true)
  /\ fst (listFiles None dirPath ext) = [].
Proof.
  intros Hdot.
  assert (He : extension ext = "." +:+ ext) by (unfold extension; now rewrite Hdot).
  assert (He' : extension ("." +:+ ext) = "." +:+ ext) by reflexivity.
  unfold listFiles. rewrite !extension_twice, He, He'. cbn [fst].
  split; [reflexivity |]. split; [reflexivity |]. split; [| reflexivity].
  rewrite filter_In, in_map_iff. split.
  - intros [([n b] & Hn & Hin) Hend]. cbn [fst] in Hn. subst n.
    apply filter_In in Hin as [Hin Hb]. cbn [snd] in Hb. subst b. auto.
  - intros [Hin Hend]. split; [| exact Hend].
    exists (name, true). split; [reflexivity |]. now apply filter_In.
Qed.

Lemma X19_listFiles_extension_witness :
  listFiles (Some [("a.md", true); ("b.txt", true); ("c.md", false)]) "/posts" "md"
  = listFiles (Some [("a.md", true); ("b.txt", true); ("c.md", false)]) "/posts" ("." +:+ "md")
  /\ fst (listFiles (Some [("a.md", true); ("b.txt", true); ("c.md", false)]) "/posts" "md")
     = List.filter (Str.endsWith ("." +:+ "md"))
         (map fst (List.filter snd [("a.md", true); ("b.txt", true); ("c.md", false)]))
  /\ (In "a.md" (fst (listFiles (Some [("a.md", true); ("b.txt", true); ("c.md", false)])
                        "/posts" "md"))
      <-> In ("a.md", true) [("a.md", true); ("b.txt", true); ("c.md", false)]
          /\ Str.endsWith ("." +:+ "md") "a.md" = true)
  /\ fst (listFiles None "/posts" "md") = [].
Proof. apply X19_listFiles_extension. reflexivity. Defined.

End FileCacheFacts.

(* ================================================================== *)
(** * Properties of the markdown processor                             *)
(* ================================================================== *)

Module MarkdownFacts.
Import Str MarkdownProcessor SiteBuilder.

(** ** The render cache *)

Lemma cacheGet_cacheSet (key value : string) (cache : RenderCache) :
  cacheGet key (cacheSet key value cache) = Some value.
Proof.
  induction cache as [|[k v] cache IH]; cbn [cacheSet cacheGet].
  - now rewrite String.eqb_refl.
  - destruct (String.eqb key k) eqn:E; cbn [cacheGet]; rewrite E; [reflexivity | exact IH].
Qed.

Lemma length_cacheSet (key value : string) (cache : RenderCache) :
  (length (cacheSet key value cache) <= S (length cache))%nat.
Proof.
  induction cache as [|[k v] cache IH]; cbn [cacheSet length]; [lia |].
  destruct (String.eqb key k); cbn [length]; lia.
Qed.

Lemma length_addToCache (config : Config) (key value : string) (cache : RenderCache) :
  (length cache <= CACHE_MAX_SIZE)%nat ->
  (length (addToCache config key value cache) <= CACHE_MAX_SIZE)%nat.
Proof.
  intros H. unfold addToCache. destruct (cacheRendering config); cbn [negb]; [| exact H].
  destruct (Nat.leb_spec CACHE_MAX_SIZE (length cache)) as [Hge|Hlt].
  - pose proof (length_cacheSet key value (tl cache)) as Hs.
    unfold CACHE_MAX_SIZE in *. destruct cache as [|kv cache]; cbn [tl length] in *; lia.
  - pose proof (length_cacheSet key value cache) as Hs. lia.
Qed.

(** X20. With the cache on, a rendering that succeeded is repeated from the
    cache: the next call for the same text returns the same HTML without
    calling the renderer and leaves the cache as it is. A rendering that
    failed is not remembered: the cache is unchanged and the fixed error
    paragraph was returned. *)
Theorem X20_renderMarkdown_memoized (marked marked' : string -> option string)
    (config : Config) (cache : RenderCache) (markdown : string) :
  cacheRendering config = true ->
  let first := renderMarkdown marked config cache markdown in
  (renderErrors first = [] ->
   renderMarkdown marked' config (renderCacheAfter first) markdown
   = {| html := html first; renderCacheAfter := renderCacheAfter first; renderErrors := [] |})
  /\ (renderErrors first <> [] ->
      html first = renderingErrorHtml /\ renderCacheAfter first = cache
      /\ marked markdown = None).
Proof.
  intros Hon first. subst first. unfold renderMarkdown. rewrite Hon.
  destruct (String.eqb markdown "") eqn:Hempty.
  - cbn. split; [reflexivity | intros H; now contradiction H].
  - destruct (cacheGet markdown cache) as [cachedHtml|] eqn:Hhit.
    + cbn. rewrite ?Hhit. split; [reflexivity | intros H; now contradiction H].
    + destruct (marked markdown) as [parsed|].
      * cbn [html renderCacheAfter renderErrors]. unfold addToCache. rewrite Hon.
        cbn [negb]. rewrite cacheGet_cacheSet.
        split; [reflexivity | intros H; now contradiction H].
      * cbn. split; [discriminate | auto].
Qed.

Lemma X20_renderMarkdown_memoized_witness :
  let first := renderMarkdown (fun _ => Some "<p>hi</p>") DEFAULT_CONFIG [] "hi" in
  (renderErrors first = [] ->
   renderMarkdown (fun _ => None) DEFAULT_CONFIG (renderCacheAfter first) "hi"
   = {| html := html first; renderCacheAfter := renderCacheAfter first; renderErrors := [] |})
  /\ (renderErrors first <> [] ->
      html first = renderingErrorHtml /\ renderCacheAfter first = []
      /\ (fun _ : string => Some "<p>hi</p>") "hi" = None).
Proof. apply X20_renderMarkdown_memoized. reflexivity. Defined.

Lemma length_renderMarkdown (marked : string -> option string) (config : Config)
    (cache : RenderCache) (markdown : string) :
  (length cache <= CACHE_MAX_SIZE)%nat ->
  (length (renderCacheAfter (renderMarkdown marked config cache markdown))
   <= CACHE_MAX_SIZE)%nat.
Proof.
  intros H. unfold renderMarkdown.
  destruct (String.eqb markdown ""); [exact H |].
  destruct (if cacheRendering config then cacheGet markdown cache else None); [exact H |].
  destruct (marked markdown); [| exact H].
  now apply length_addToCache.
Qed.

Lemma length_processPostFile (w : World) (config : ContentConfig) (cache : RenderCache)
    (filePath filename : string) :
  (length cache <= CACHE_MAX_SIZE)%nat ->
  (length (cacheAfter (processPostFile w config cache filePath filename))
   <= CACHE_MAX_SIZE)%nat.
Proof.
  intros H. unfold processPostFile.
  destruct (readFile w filePath) as [content|]; [| exact H].
  destruct (extractFrontmatter (frontmatter w) content) as [[markdownContent data] log1].
  destruct (withDate w filePath filename (JS.spreadInto [] data)) as [[postData log2]|];
    [| exact H].
  destruct (withTitle filename postData) as [postData' log3].
  cbn [cacheAfter]. now apply length_renderMarkdown.
Qed.

(** X21. Loading a directory of posts leaves at most 50 renderings in the
    render cache, however many posts there are. *)
Theorem X21_loadAllPosts_cache_bounded (w : World) (config : ContentConfig) (cache : RenderCache)
    (postsDir : string) (files : list string) :
  (length cache <= CACHE_MAX_SIZE)%nat ->
  (length (snd (fst (loadAllPosts w config cache postsDir files))) <= CACHE_MAX_SIZE)%nat.
Proof.
  intros H. unfold loadAllPosts.
  assert (Hfiles : forall fs c, (length c <= CACHE_MAX_SIZE)%nat ->
            (length (snd (fst (processFiles w config c postsDir fs))) <= CACHE_MAX_SIZE)%nat).
  { induction fs as [|f fs IH]; intros c Hc; [exact Hc |].
    cbn [processFiles].
    specialize (IH (cacheAfter (processPostFile w config c (pathJoin w [postsDir; f]) f))
                   (length_processPostFile w config c _ f Hc)).
    destruct (processFiles w config _ postsDir fs) as [[posts cache'] log]. exact IH. }
  destruct files as [|f fs]; [exact H |].
  specialize (Hfiles (f :: fs) cache H).
  destruct (processFiles w config cache postsDir (f :: fs)) as [[posts cache'] log].
  exact Hfiles.
Qed.

Lemma X21_loadAllPosts_cache_bounded_witness :
  (length (snd (fst (loadAllPosts ContentProps.demoWorld ContentProps.demoConfig []
                       "/posts" ["hello-world.md"]))) <= CACHE_MAX_SIZE)%nat.
Proof. apply X21_loadAllPosts_cache_bounded. cbn. unfold CACHE_MAX_SIZE. lia. Defined.

(** ** Reading time *)

Lemma splitSpaces_from_nonempty (inSep : bool) (s : string) : splitSpaces_from inSep s <> [].
Proof.
  revert inSep. induction s as [|c s IH]; intros inSep; [discriminate |].
  cbn [splitSpaces_from]. destruct (isSpace c).
  - destruct inSep; [apply IH | discriminate].
  - destruct (splitSpaces_from false s); discriminate.
Qed.

(** The number of words calculateReadingTime counts in a text. *)
Definition wordCount (text : string) : Z := Z.of_nat (length (splitSpaces (trim text))).

Lemma wordCount_positive (text : string) : 1 <= wordCount text.
Proof.
  unfold wordCount, splitSpaces.
  pose proof (splitSpaces_from_nonempty false (trim text)) as H.
  destruct (splitSpaces_from false (trim text)); [congruence | cbn [length]; lia].
Qed.

(** X22. The reading time is never below the configured minimum, and it is the
    minimum for the empty text. For a text that is not empty and a positive
    reading speed it is at least one minute and enough minutes for the
    words counted; when it exceeds the minimum, one minute less would not
    be enough. The speed is the one of the site configuration unless that
    is absent or 0. *)
Theorem X22_calculateReadingTime_bounds (config : Config) (contentWordsPerMinute : Z)
    (text : string) :
  let wpm := if contentWordsPerMinute =? 0 then wordsPerMinute config
             else contentWordsPerMinute in
  let minutes := calculateReadingTime config contentWordsPerMinute text in
  minMinutes config <= minutes
  /\ (text = "" -> minutes = minMinutes config)
  /\ (text <> "" -> 0 < wpm ->
      1 <= minutes
      /\ wordCount text <= minutes * wpm
      /\ (minMinutes config < minutes -> (minutes - 1) * wpm < wordCount text)).
Proof.
  intros wpm minutes. subst minutes. unfold calculateReadingTime.
  destruct (String.eqb_spec text "") as [->|Hne].
  - split; [lia |]. split; [reflexivity | congruence].
  - fold wpm. fold (wordCount text).
    split; [lia |]. split; [congruence |]. intros _ Hwpm.
    pose proof (wordCount_positive text) as Hw.
    unfold ceilDiv.
    pose proof (Z.div_mod (- wordCount text) wpm ltac:(lia)) as Hdm.
    pose proof (Z.mod_pos_bound (- wordCount text) wpm Hwpm) as Hr.
    nia.
Qed.

Lemma X22_calculateReadingTime_bounds_witness :
  let wpm := if 2 =? 0 then wordsPerMinute DEFAULT_CONFIG else 2 in
  let minutes := calculateReadingTime DEFAULT_CONFIG 2 "one two  three" in
  minMinutes DEFAULT_CONFIG <= minutes
  /\ ("one two  three" = "" -> minutes = minMinutes DEFAULT_CONFIG)
  /\ ("one two  three" <> "" -> 0 < wpm ->
      1 <= minutes
      /\ wordCount "one two  three" <= minutes * wpm
      /\ (minMinutes DEFAULT_CONFIG < minutes ->
          (minutes - 1) * wpm < wordCount "one two  three")).
Proof. apply X22_calculateReadingTime_bounds. Defined.

End MarkdownFacts.

(* ================================================================== *)
(** * Properties of the configuration manager                          *)
(* ================================================================== *)

Module ConfigFacts.
Import JS SiteBuilder ConfigManager TemplateProps ObjectFacts.

(** ** deepMerge *)

(** What deepMerge stores for a property of the source. *)
Definition mergedValue (target : Value) (key : string) (v : Value) : Value :=
  match v with
  | JObj _ vFields =>
      if truthy (getProp target key) && typeofObject (getProp target key)
      then object (deepMerge (getProp target key) v)
      else object (spreadInto [] vFields)
  | _ => v
  end.

Lemma deepMerge_object (target : Value) (r : Ref) (sourceFields : list (string * Value)) :
  deepMerge target (JObj r sourceFields)
  = fold_left (fun output kv => setProp (fst kv) (mergedValue target (fst kv) (snd kv)) output)
              sourceFields (ownProps target).
Proof.
  cbn [deepMerge]. generalize (ownProps target).
  induction sourceFields as [|[key v] rest IH]; intros output; [reflexivity |].
  cbn [fold_left fst snd]. rewrite <- IH. reflexivity.
Qed.

Lemma getOwn_fold_setProp (f : string -> Value -> Value) (k : string)
    (fields output : list (string * Value)) :
  List.NoDup (keys fields) ->
  getOwn k (fold_left (fun output kv => setProp (fst kv) (f (fst kv) (snd kv)) output)
                      fields output)
  = match getOwn k fields with
    | Some v => Some (f k v)
    | None => getOwn k output
    end.
Proof.
  revert output. induction fields as [|[k0 v0] fields IH]; intros output Hnd; [reflexivity |].
  change (keys ((k0, v0) :: fields)) with (k0 :: keys fields) in Hnd.
  apply List.NoDup_cons_iff in Hnd as [Hin Hnd].
  cbn [fold_left fst snd getOwn]. rewrite (IH _ Hnd).
  destruct (String.eqb_spec k k0) as [->|Hne].
  - apply getOwn_None_keys in Hin. rewrite Hin. apply getOwn_setProp_same.
  - destruct (getOwn k fields); [reflexivity |].
    apply getOwn_setProp_other. now apply String.eqb_neq.
Qed.

(** The sources deepMerge takes as a plain list of properties. The loop
    calls [source.hasOwnProperty(key)], which a property of that name would
    replace, and stores with [output[key] = ...], which for the name
    [__proto__] sets the prototype and adds no property: no object of the
    source, at any depth, has a property of either name. *)
Fixpoint plainSource (v : Value) : bool :=
  match v with
  | JObj _ fields =>
      (fix all (fields : list (string * Value)) {struct fields} : bool :=
         match fields with
         | [] => true
         | (key, v) :: rest =>
             negb (String.eqb key "hasOwnProperty") && negb (String.eqb key "__proto__")
             && plainSource v && all rest
         end) fields
  | _ => true
  end.

(** X23. For a plain source, the merged object has every property of the target
    that the source does not name, unchanged. A property of the source that
    is not an object replaces the one of the target. An object of the
    source is merged, by the same rule, into the property of the target
    when that is an object or an array, and is copied otherwise. *)
Theorem X23_deepMerge_lookup (target : Value) (r : Ref) (sourceFields : list (string * Value))
    (k : string) :
  List.NoDup (keys sourceFields) ->
  plainSource (JObj r sourceFields) = true ->
  getOwn k (deepMerge target (JObj r sourceFields))
  = match getOwn k sourceFields with
    | None => getOwn k (ownProps target)
    | Some (JObj r' vFields) =>
        Some (if truthy (getProp target k) && typeofObject (getProp target k)
              then object (deepMerge (getProp target k) (JObj r' vFields))
              else object (spreadInto [] vFields))
    | Some v => Some v
    end.
Proof.
  intros Hnd _. rewrite deepMerge_object.
  rewrite (getOwn_fold_setProp (mergedValue target) k sourceFields _ Hnd).
  destruct (getOwn k sourceFields) as [v|]; [| reflexivity].
  now destruct v.
Qed.

Lemma X23_deepMerge_lookup_witness :
  getOwn "site" (deepMerge DEFAULT_CONFIG
                   (JObj (Addr 1) [("site", JObj (Addr 2) [("title", JStr "My blog")])]))
  = match getOwn "site" [("site", JObj (Addr 2) [("title", JStr "My blog")])] with
    | None => getOwn "site" (ownProps DEFAULT_CONFIG)
    | Some (JObj r' vFields) =>
        Some (if truthy (getProp DEFAULT_CONFIG "site")
                 && typeofObject (getProp DEFAULT_CONFIG "site")
              then object (deepMerge (getProp DEFAULT_CONFIG "site") (JObj r' vFields))
              else object (spreadInto [] vFields))
    | Some v => Some v
    end.
Proof.
  apply X23_deepMerge_lookup; [repeat constructor; cbn; tauto | reflexivity].
Defined.

(** ** resolvePaths *)

Section Resolve.
Variable ops : PathOps.
Hypothesis resolve_absolute : forall base p, isAbsolute ops (resolve ops base p) = true.

(** A directory that resolvePaths leaves alone: absent, falsy, or an
    absolute path. *)
Definition settled (key : string) (paths : Value) : Prop :=
  match getProp paths key with
  | JStr d => d = "" \/ isAbsolute ops d = true
  | v => truthy v = false
  end.

(** A property name that strings, arrays and functions do not have. *)
Definition plainKey (key : string) : Prop :=
  String.eqb key "length" = false /\ arrayIndex key = None.

Lemma getProp_plainKey (key : string) (paths : Value) :
  plainKey key ->
  match paths with JObj _ _ => True | _ => getProp paths key = JUndefined end.
Proof.
  intros [Hl Hi]. destruct paths; try exact I; cbn [getProp]; try reflexivity;
    rewrite Hl; try rewrite Hi; reflexivity.
Qed.

Lemma resolveDir_settled (base : string) (flag : bool) (key : string) (paths : Value) :
  settled key paths -> resolveDir ops base flag key paths = Returned paths.
Proof.
  unfold settled, resolveDir.
  destruct (getProp paths key) as [| |b|n|d|r items|r fields|r src ret] eqn:E; cbn [truthy];
    try discriminate; try (intros H; try rewrite H; reflexivity).
  intros [->|Habs]; [reflexivity |].
  destruct (negb (String.eqb d "")); [| reflexivity].
  destruct paths; try reflexivity. now rewrite Habs.
Qed.

(** The shape of a value: the same object up to its properties. *)
Definition sameShape (a b : Value) : Prop :=
  match a, b with
  | JObj r _, JObj r' _ => r = r'
  | _, _ => a = b
  end.

Lemma resolveDir_result (base : string) (flag : bool) (key : string) (paths paths' : Value) :
  plainKey key ->
  resolveDir ops base flag key paths = Returned paths' ->
  settled key paths'
  /\ sameShape paths paths'
  /\ (forall key', String.eqb key' key = false -> getProp paths' key' = getProp paths key').
Proof.
  intros Hplain. unfold resolveDir.
  pose proof (getProp_plainKey key paths Hplain) as Hk.
  destruct (truthy (getProp paths key)) eqn:Ht.
  - destruct (getProp paths key) as [| | | |d| | |] eqn:E; try discriminate;
      try (destruct paths; discriminate).
    destruct paths as [| | | | | |r fields|]; try discriminate.
    destruct (isAbsolute ops d) eqn:Habs.
    + intros [= <-]. split; [| split; [reflexivity | auto]].
      unfold settled. rewrite E. now right.
    + intros [= <-]. split; [| split; [reflexivity |]].
      * unfold settled. cbn [getProp]. rewrite getOwn_setProp_same.
        right. destruct (flag && _ && _); apply resolve_absolute.
      * intros key' Hne. cbn [getProp]. now rewrite getOwn_setProp_other.
  - intros [= <-]. split; [| split; [| auto]].
    + unfold settled. destruct (getProp paths key); try exact Ht.
      cbn [truthy] in Ht. left. apply negb_false_iff, String.eqb_eq in Ht. exact Ht.
    + unfold sameShape. now destruct paths.
Qed.

Lemma settled_preserved (key key' : string) (paths paths' : Value) :
  getProp paths' key = getProp paths key -> settled key paths -> settled key paths'.
Proof. unfold settled. now intros ->. Qed.

Lemma setProp_twice (k : string) (v : Value) (fields : list (string * Value)) :
  setProp k v (setProp k v fields) = setProp k v fields.
Proof.
  induction fields as [|[k0 v0] fields IH]; cbn [setProp].
  - now rewrite String.eqb_refl.
  - destruct (String.eqb k k0) eqn:E; cbn [setProp].
    + now rewrite String.eqb_refl.
    + now rewrite E, IH.
Qed.

Lemma truthy_sameShape (a b : Value) : sameShape a b -> truthy a = true -> truthy b = true.
Proof. destruct a, b; cbn; intros H; try (now inversion H); try congruence; auto. Qed.

Definition directories : list string := ["contentDir"; "outputDir"; "templatesDir"; "cssDir"].

Lemma directories_plain : Forall plainKey directories.
Proof. repeat constructor. Qed.

(** X24. Once resolvePaths has returned, every one of the four directories of
    the result is absent, empty or an absolute path, and resolving the
    result again, against any base, changes nothing. *)
Theorem X24_resolvePaths_idempotent (config config' : list (string * Value))
    (basePath basePath' : string) :
  resolvePaths ops config basePath = Returned config' ->
  resolvePaths ops config' basePath' = Returned config'
  /\ Forall (fun key => settled key (prop config' "paths")) directories.
Proof.
  unfold resolvePaths.
  destruct (truthy (prop config "paths")) eqn:Ht.
  - destruct (resolveDir ops basePath true "contentDir" (prop config "paths"))
      as [p1|] eqn:E1; [| discriminate].
    cbn [bind].
    destruct (resolveDir ops basePath false "outputDir" p1) as [p2|] eqn:E2; [| discriminate].
    cbn [bind].
    destruct (resolveDir ops basePath true "templatesDir" p2) as [p3|] eqn:E3;
      [| discriminate].
    cbn [bind].
    destruct (resolveDir ops basePath true "cssDir" p3) as [p4|] eqn:E4; [| discriminate].
    cbn [bind]. intros [= <-].
    pose proof directories_plain as Hplain.
    apply Forall_cons_1 in Hplain as [Hk1 Hplain].
    apply Forall_cons_1 in Hplain as [Hk2 Hplain].
    apply Forall_cons_1 in Hplain as [Hk3 Hplain].
    apply Forall_cons_1 in Hplain as [Hk4 _].
    destruct (resolveDir_result _ _ _ _ _ Hk1 E1) as (S1 & Sh1 & O1).
    destruct (resolveDir_result _ _ _ _ _ Hk2 E2) as (S2 & Sh2 & O2).
    destruct (resolveDir_result _ _ _ _ _ Hk3 E3) as (S3 & Sh3 & O3).
    destruct (resolveDir_result _ _ _ _ _ Hk4 E4) as (S4 & Sh4 & O4).
    assert (T1 : settled "contentDir" p4).
    { apply (settled_preserved _ "cssDir" p3); [now apply O4 |].
      apply (settled_preserved _ "templatesDir" p2); [now apply O3 |].
      apply (settled_preserved _ "outputDir" p1); [now apply O2 | exact S1]. }
    assert (T2 : settled "outputDir" p4).
    { apply (settled_preserved _ "cssDir" p3); [now apply O4 |].
      apply (settled_preserved _ "templatesDir" p2); [now apply O3 | exact S2]. }
    assert (T3 : settled "templatesDir" p4).
    { apply (settled_preserved _ "cssDir" p3); [now apply O4 | exact S3]. }
    assert (Hp : prop (setProp "paths" p4 config) "paths" = p4).
    { unfold prop. now rewrite getOwn_setProp_same. }
    assert (Ht4 : truthy p4 = true).
    { apply (truthy_sameShape p3 p4 Sh4), (truthy_sameShape p2 p3 Sh3),
        (truthy_sameShape p1 p2 Sh2), (truthy_sameShape _ p1 Sh1), Ht. }
    rewrite Hp, Ht4. split.
    + rewrite (resolveDir_settled basePath' true "contentDir" p4 T1). cbn [bind].
      rewrite (resolveDir_settled basePath' false "outputDir" p4 T2). cbn [bind].
      rewrite (resolveDir_settled basePath' true "templatesDir" p4 T3). cbn [bind].
      rewrite (resolveDir_settled basePath' true "cssDir" p4 S4). cbn [bind].
      now rewrite setProp_twice.
    + repeat constructor; assumption.
  - intros [= <-]. rewrite Ht. split; [reflexivity |].
    assert (Hfalsy : forall key, plainKey key -> settled key (prop config "paths")).
    { intros key Hk. unfold settled.
      pose proof (getProp_plainKey key (prop config "paths") Hk) as Hu.
      destruct (prop config "paths"); try discriminate Ht; rewrite Hu; reflexivity. }
    pose proof directories_plain as Hplain.
    eapply List.Forall_impl; [exact Hfalsy | exact Hplain].
Qed.

End Resolve.

(** Path operations for a file system in which every relative path is
    taken from the root. *)
Definition rootedOps : PathOps :=
  {| resolve := fun base p => "/" +:+ p;
     isAbsolute := Str.startsWith "/";
     join := fun a b => a +:+ "/" +:+ b;
     dirname := fun p => p;
     basename := fun p => p;
     cwd := "/" |}.

Lemma X24_resolvePaths_idempotent_witness :
  resolvePaths rootedOps
    [("paths", object [("contentDir", JStr "/work/content"); ("outputDir", JStr "/work/dist");
                       ("templatesDir", JStr "/work/templates"); ("cssDir", JStr "/work/css")])]
    "elsewhere"
  = Returned
      [("paths", object [("contentDir", JStr "/work/content"); ("outputDir", JStr "/work/dist");
                         ("templatesDir", JStr "/work/templates"); ("cssDir", JStr "/work/css")])]
  /\ Forall (fun key =>
               settled rootedOps key
                 (prop [("paths", object [("contentDir", JStr "/work/content");
                                          ("outputDir", JStr "/work/dist");
                                          ("templatesDir", JStr "/work/templates");
                                          ("cssDir", JStr "/work/css")])] "paths"))
            directories.
Proof.
  apply (X24_resolvePaths_idempotent rootedOps (fun base p => eq_refl)
           [("paths", object [("contentDir", JStr "work/content"); ("outputDir", JStr "work/dist");
                              ("templatesDir", JStr "/work/templates"); ("cssDir", JStr "/work/css")])]
           _ "" "elsewhere").
  vm_compute. reflexivity.
Defined.

(** ** The version of the merged configuration *)

Section Version.
Variable jsonParse : string -> option Value.

Lemma mergedOf (a merged : list (string * Value)) (l log : list string) :
  Some (a, l) = Some (merged, log) -> merged = a.
Proof. now intros [= -> _]. Qed.

(** X25. The configuration merged from the user's file carries the current
    version of the schema when the file gives a truthy version (an older
    one is migrated) or none; a falsy version written in the file (an
    empty string, 0, [null], [false]) is taken for current but survives the
    merge as it is. *)
Theorem X25_userConfiguration_version (configData : string) (r : Ref)
    (fields : list (string * Value)) (merged : list (string * Value)) (log : list string) :
  jsonParse configData = Some (JObj r fields) ->
  List.NoDup (keys fields) ->
  userConfiguration jsonParse (Some configData) = Some (merged, log) ->
  prop merged "_version"
  = match getOwn "_version" fields with
    | Some v => if truthy v then JStr CONFIG_VERSION else v
    | None => JStr CONFIG_VERSION
    end.
Proof.
  intros Hparse Hnd. unfold userConfiguration. rewrite Hparse.
  unfold migrateConfig, or_else. cbn [getProp].
  destruct (getOwn "_version" fields) as [v|] eqn:Ev; cbn [default from_option]; unfold id.
  - destruct (truthy v) eqn:Ht.
    + destruct (strictEq v (JStr CONFIG_VERSION)) eqn:Es.
      * intros H; apply mergedOf in H; subst merged. unfold prop. rewrite deepMerge_object.
        rewrite (getOwn_fold_setProp (mergedValue DEFAULT_CONFIG) _ _ _ Hnd), Ev.
        destruct v; try discriminate Es. cbn in Es. apply String.eqb_eq in Es.
        now subst.
      * intros H; apply mergedOf in H; subst merged. unfold prop. rewrite deepMerge_object.
        rewrite (getOwn_fold_setProp (mergedValue DEFAULT_CONFIG) _ _ _
                   (NoDup_setProp "_version" (JStr CONFIG_VERSION) fields Hnd)).
        now rewrite getOwn_setProp_same.
    + change (strictEq (JStr "1.0.0") (JStr CONFIG_VERSION)) with true. cbv iota.
      intros H; apply mergedOf in H; subst merged. unfold prop. rewrite deepMerge_object.
      rewrite (getOwn_fold_setProp (mergedValue DEFAULT_CONFIG) _ _ _ Hnd), Ev.
      destruct v; try discriminate Ht; reflexivity.
  - cbn [truthy]. change (strictEq (JStr "1.0.0") (JStr CONFIG_VERSION)) with true.
    cbv iota. intros H; apply mergedOf in H; subst merged. unfold prop. rewrite deepMerge_object.
    now rewrite (getOwn_fold_setProp (mergedValue DEFAULT_CONFIG) _ _ _ Hnd), Ev.
Qed.

End Version.

Lemma X25_userConfiguration_version_witness :
  prop (deepMerge DEFAULT_CONFIG
          (JObj (Addr 1) (setProp "_version" (JStr CONFIG_VERSION)
                            [("_version", JStr "0.9.0"); ("site", JNull)])))
       "_version"
  = match getOwn "_version" [("_version", JStr "0.9.0"); ("site", JNull)] with
    | Some v => if truthy v then JStr CONFIG_VERSION else v
    | None => JStr CONFIG_VERSION
    end.
Proof.
  apply (X25_userConfiguration_version
           (fun _ => Some (JObj (Addr 1) [("_version", JStr "0.9.0"); ("site", JNull)]))
           "{}" (Addr 1) [("_version", JStr "0.9.0"); ("site", JNull)] _
           ["Migrating configuration from version 0.9.0 to 1.0.0"]).
  - reflexivity.
  - repeat constructor; cbn; intuition discriminate.
  - reflexivity.
Defined.

End ConfigFacts.

(* ================================================================== *)
(** * Properties of validateConfig                                     *)
(* ================================================================== *)

Module ValidationFacts.
Import JS SiteBuilder ConfigManager TemplateProps.

(** The value validateConfig checks for a leaf of a section: a missing or
    falsy section has no properties. *)
Definition leafValue (config : list (string * Value)) (section key : string) : Value :=
  if truthy (prop config section) then getProp (prop config section) key else JUndefined.

Definition isString (v : Value) : bool :=
  match v with JStr _ => true | _ => false end.

Definition atLeast (m : Z) (v : Value) : bool :=
  match v with JNum n => m <=? n | _ => false end.

(** The configurations the schema accepts. *)
Definition conforms (config : list (string * Value)) : bool :=
  isString (leafValue config "site" "title")
  && isString (leafValue config "site" "description")
  && isString (leafValue config "site" "language")
  && atLeast 1 (leafValue config "content" "postsPerPage")
  && isString (leafValue config "paths" "contentDir")
  && isString (leafValue config "paths" "templatesDir")
  && isString (leafValue config "paths" "outputDir")
  && isString (leafValue config "paths" "cssDir").

(** The first statement of the loop over the sections. *)
Definition ensure (section : string) (config : list (string * Value))
  : list (string * Value) :=
  if truthy (prop config section) then config else setProp section (object []) config.

Section Facts.
Variable stn : string -> option Z.

Lemma validateValue_string (v : Value) (path : string) :
  validateValue stn v "string" true None path = [] <-> isString v = true.
Proof. destruct v; cbn; split; intros H; try discriminate; reflexivity. Qed.

Lemma validateValue_number (v : Value) (path : string) :
  validateValue stn v "number" true (Some 1) path = [] <-> atLeast 1 v = true.
Proof.
  destruct v; cbn; try (split; intros H; discriminate).
  destruct (Z.ltb_spec n 1), (Z.leb_spec 1 n); try lia; split; congruence.
Qed.

Lemma prop_ensure_same (section : string) (config : list (string * Value)) :
  prop (ensure section config) section
  = if truthy (prop config section) then prop config section else object [].
Proof.
  unfold ensure. destruct (truthy (prop config section)); [reflexivity |].
  unfold prop. now rewrite getOwn_setProp_same.
Qed.

Lemma prop_ensure_other (section other : string) (config : list (string * Value)) :
  String.eqb other section = false ->
  prop (ensure section config) other = prop config other.
Proof.
  intros H. unfold ensure. destruct (truthy (prop config section)); [reflexivity |].
  unfold prop. now rewrite getOwn_setProp_other.
Qed.

Lemma ensured_leaf (config : list (string * Value)) (section key : string) :
  (if truthy (prop (ensure section config) section)
   then getProp (prop (ensure section config) section) key
   else JUndefined)
  = leafValue config section key.
Proof.
  rewrite prop_ensure_same. unfold leafValue.
  destruct (truthy (prop config section)) eqn:E; [now rewrite E | reflexivity].
Qed.

Lemma leafValue_ensure_other (config : list (string * Value)) (section other key : string) :
  String.eqb other section = false ->
  leafValue (ensure section config) other key = leafValue config other key.
Proof. intros H. unfold leafValue. now rewrite prop_ensure_other. Qed.

Lemma validateConfig_sections (config : list (string * Value)) :
  validateConfig stn config
  = (ensure "paths" (ensure "content" (ensure "site" (ensure "_version" config))),
     validateValue stn (leafValue config "site" "title") "string" true None "site.title"
     ++ validateValue stn (leafValue config "site" "description") "string" true None
          "site.description"
     ++ validateValue stn (leafValue config "site" "language") "string" true None
          "site.language"
     ++ validateValue stn (leafValue config "content" "postsPerPage") "number" true (Some 1)
          "content.postsPerPage"
     ++ validateValue stn (leafValue config "paths" "contentDir") "string" true None
          "paths.contentDir"
     ++ validateValue stn (leafValue config "paths" "templatesDir") "string" true None
          "paths.templatesDir"
     ++ validateValue stn (leafValue config "paths" "outputDir") "string" true None
          "paths.outputDir"
     ++ validateValue stn (leafValue config "paths" "cssDir") "string" true None
          "paths.cssDir").
Proof.
  unfold validateConfig, CONFIG_SCHEMA. cbn [fold_left].
  fold (ensure "_version" config).
  set (c1 := ensure "_version" config).
  fold (ensure "site" c1). set (c2 := ensure "site" c1).
  fold (ensure "content" c2). set (c3 := ensure "content" c2).
  fold (ensure "paths" c3). set (c4 := ensure "paths" c3).
  f_equal. cbn [validateSection app].
  subst c4 c3 c2. rewrite !ensured_leaf. subst c1.
  rewrite !leafValue_ensure_other by reflexivity.
  rewrite !app_nil_r, <- !app_assoc. reflexivity.
Qed.

Lemma app_nil_iff {A : Type} (a b : list A) : a ++ b = [] <-> a = [] /\ b = [].
Proof.
  split; [apply app_eq_nil | intros [-> ->]; reflexivity].
Qed.

Lemma leaf_section_truthy (config : list (string * Value)) (section key : string) :
  leafValue config section key <> JUndefined -> truthy (prop config section) = true.
Proof. unfold leafValue. destruct (truthy (prop config section)); congruence. Qed.

Lemma validateConfig_errors (config : list (string * Value)) :
  snd (validateConfig stn config) = [] <-> conforms config = true.
Proof.
  rewrite validateConfig_sections. cbn [snd].
  rewrite !app_nil_iff, !validateValue_string, validateValue_number.
  unfold conforms. rewrite !andb_true_iff. tauto.
Qed.

Lemma conforms_sections (config : list (string * Value)) :
  conforms config = true ->
  truthy (prop config "site") = true /\ truthy (prop config "content") = true
  /\ truthy (prop config "paths") = true.
Proof.
  unfold conforms. rewrite !andb_true_iff.
  intros (((((((H1 & _) & _) & H4) & H5) & _) & _) & _). repeat split.
  - apply (leaf_section_truthy config "site" "title"). intros E. now rewrite E in H1.
  - apply (leaf_section_truthy config "content" "postsPerPage").
    intros E. now rewrite E in H4.
  - apply (leaf_section_truthy config "paths" "contentDir").
    intros E. now rewrite E in H5.
Qed.

Lemma validateConfig_result (config : list (string * Value)) :
  conforms config = true ->
  fst (validateConfig stn config) = ensure "_version" config.
Proof.
  intros Hc. destruct (conforms_sections config Hc) as (Hsite & Hcontent & Hpaths).
  rewrite validateConfig_sections. cbn [fst].
  assert (Hother : forall section, String.eqb section "_version" = false ->
            truthy (prop config section) = true ->
            ensure section (ensure "_version" config) = ensure "_version" config).
  { intros section Hne Ht. unfold ensure at 1.
    now rewrite (prop_ensure_other "_version" section config Hne), Ht. }
  rewrite (Hother "site" eq_refl Hsite), (Hother "content" eq_refl Hcontent).
  now rewrite (Hother "paths" eq_refl Hpaths).
Qed.

Lemma conforms_ensure_version (config : list (string * Value)) :
  conforms (ensure "_version" config) = conforms config.
Proof. unfold conforms. now rewrite !leafValue_ensure_other by reflexivity. Qed.

(** X26. validateConfig reports no error exactly for the configurations in
    which the three texts of [site] and the four directories of [paths] are
    strings and [content.postsPerPage] is a number of at least 1; such a
    configuration, when it has a version, is returned as it was given. *)
Theorem X26_validateConfig_accepts (config : list (string * Value)) :
  (snd (validateConfig stn config) = [] <-> conforms config = true)
  /\ (conforms config = true -> truthy (prop config "_version") = true ->
      fst (validateConfig stn config) = config).
Proof.
  split; [apply validateConfig_errors |].
  intros Hc Hv. rewrite (validateConfig_result config Hc). unfold ensure. now rewrite Hv.
Qed.

(** X27. Whenever loadConfig returns a configuration, whether the one of the
    user's file merged over the defaults or the defaults alone, it is one
    the schema accepts: callers can rely on a page size of at least 1 and
    on directories that are strings. *)
Theorem X27_loadConfig_conforms (jsonParse : string -> option Value) (ops : PathOps)
    (configPath : string) (configText : option string) (outputDir : string)
    (config : list (string * Value)) (log : list string) :
  loadConfig stn jsonParse ops configPath configText outputDir = (Returned config, log) ->
  conforms config = true.
Proof.
  unfold loadConfig.
  destruct (match userConfiguration jsonParse configText with
            | Some (c, l) => (c, l)
            | None => _
            end) as [merged log0].
  destruct (bind (resolvePaths ops merged (dirname ops configPath)) _) as [prepared|e];
    [| discriminate].
  pose proof (validateConfig_errors prepared) as Herr.
  pose proof (validateConfig_result prepared) as Hres.
  destruct (validateConfig stn prepared) as [validated errors]. cbn [fst snd] in *.
  destruct errors as [|e errors]; [| discriminate].
  intros [= <- <-].
  assert (Hc : conforms prepared = true) by now apply Herr.
  rewrite (Hres Hc). now rewrite conforms_ensure_version.
Qed.

End Facts.

Lemma X26_validateConfig_accepts_witness :
  fst (validateConfig decimalToNumber (ownProps DEFAULT_CONFIG)) = ownProps DEFAULT_CONFIG.
Proof.
  apply (proj2 (X26_validateConfig_accepts decimalToNumber (ownProps DEFAULT_CONFIG)));
    reflexivity.
Defined.

Lemma X27_loadConfig_conforms_witness :
  conforms
    (match fst (loadConfig decimalToNumber BuildProps.demoParse BuildProps.demoOps
                  "/site/blog/config.json" (Some "{ a title }") "") with
     | Returned config => config
     | Thrown _ => []
     end) = true.
Proof.
  apply (X27_loadConfig_conforms decimalToNumber BuildProps.demoParse BuildProps.demoOps
           "/site/blog/config.json" (Some "{ a title }") "" _
           (snd (loadConfig decimalToNumber BuildProps.demoParse BuildProps.demoOps
                   "/site/blog/config.json" (Some "{ a title }") ""))).
  vm_compute. reflexivity.
Defined.

End ValidationFacts.
